(** * SQL AI Assistant (src/app.py): a shallow embedding of the helper
      functions and of the Streamlit dialogue script, with the
      properties of its specification.

    Text is modelled as [string] (a sequence of 8-bit characters): the
    Python string methods of [PyStr] are the built-in ones restricted to
    ASCII text, which is what the fixed keywords and sentinels of the
    program are written in.  [PyUnicode] gives [strip] and [upper] on every
    code point; the two query helpers, whose guards look at upper-cased
    text, are embedded on both kinds of text, and their ASCII versions are
    shown to be the restrictions of the Unicode ones. *)

From Stdlib Require Import String Ascii List Bool NArith Lia.
Import ListNotations.
Open Scope string_scope.

(* ===================================================================== *)
(** ** Python string methods used by app.py *)
(* ===================================================================== *)

Module PyStr.

(** [bool(s)] for a string: the empty string is falsy. *)
Definition truthy (s : string) : bool :=
  match s with EmptyString => false | String _ _ => true end.

(** Characters removed by [str.strip()]: TAB, LF, VT, FF, CR, the four
    separators FS, GS, RS, US and the blank. *)
Definition is_space (c : ascii) : bool :=
  let n := N_of_ascii c in
  (N.leb 9 n && N.leb n 13) || (N.leb 28 n && N.leb n 32).

Fixpoint lstrip (s : string) : string :=
  match s with
  | EmptyString => EmptyString
  | String c r => if is_space c then lstrip r else s
  end.

(** [rstrip] keeps a character when it is not white space or when
    something is left after it. *)
Fixpoint rstrip (s : string) : string :=
  match s with
  | EmptyString => EmptyString
  | String c r =>
      match rstrip r with
      | EmptyString => if is_space c then EmptyString else String c EmptyString
      | r' => String c r'
      end
  end.

Definition strip (s : string) : string := rstrip (lstrip s).

Definition is_lower (c : ascii) : bool :=
  let n := N_of_ascii c in N.leb 97 n && N.leb n 122.

Definition is_upper (c : ascii) : bool :=
  let n := N_of_ascii c in N.leb 65 n && N.leb n 90.

Definition upper_char (c : ascii) : ascii :=
  if is_lower c then ascii_of_N (N_of_ascii c - 32) else c.

Definition lower_char (c : ascii) : ascii :=
  if is_upper c then ascii_of_N (N_of_ascii c + 32) else c.

Fixpoint map_chars (f : ascii -> ascii) (s : string) : string :=
  match s with
  | EmptyString => EmptyString
  | String c r => String (f c) (map_chars f r)
  end.

Definition upper : string -> string := map_chars upper_char.
Definition lower : string -> string := map_chars lower_char.

(** [s.capitalize()]: first character upper-cased, the rest lower-cased. *)
Definition capitalize (s : string) : string :=
  match s with
  | EmptyString => EmptyString
  | String c r => String (upper_char c) (lower r)
  end.

(** [s.startswith(p)] *)
Fixpoint startswith (p s : string) : bool :=
  match p, s with
  | EmptyString, _ => true
  | String a p', String b s' => Ascii.eqb a b && startswith p' s'
  | String _ _, EmptyString => false
  end.

(** [sub in s] *)
Fixpoint contains (sub s : string) : bool :=
  startswith sub s ||
  match s with
  | EmptyString => false
  | String _ r => contains sub r
  end.

Definition rev (s : string) : string :=
  string_of_list_ascii (List.rev (list_ascii_of_string s)).

(** [s.endswith(p)] *)
Definition endswith (p s : string) : bool := startswith (rev p) (rev s).

(** [s[n:]] and [s[:-n]] for [n] within the length of [s]. *)
Fixpoint drop (n : nat) (s : string) : string :=
  match n, s with
  | O, _ => s
  | S n', String _ r => drop n' r
  | S _, EmptyString => EmptyString
  end.

Definition drop_end (n : nat) (s : string) : string := rev (drop n (rev s)).

(** [s.replace(c, r)] for a one-character pattern [c]. *)
Fixpoint replace_char (c : ascii) (r : string) (s : string) : string :=
  match s with
  | EmptyString => EmptyString
  | String a t =>
      if Ascii.eqb a c then r ++ replace_char c r t
      else String a (replace_char c r t)
  end.

(** [sep.join(l)] *)
Fixpoint join (sep : string) (l : list string) : string :=
  match l with
  | [] => EmptyString
  | [x] => x
  | x :: t => x ++ sep ++ join sep t
  end.

(** [x in l] for a list of strings. *)
Definition in_list (x : string) (l : list string) : bool :=
  existsb (String.eqb x) l.

(** The characters of a string, as Python iterates over it. *)
Fixpoint chars (s : string) : list string :=
  match s with
  | EmptyString => []
  | String c r => String c EmptyString :: chars r
  end.

Definition nl : string := String (ascii_of_N 10) EmptyString.
Definition quote : ascii := ascii_of_N 39.

(** The reading of "starts with [p], case-insensitively": the first
    characters of [s] are those of [p] up to letter case.  This follows
    the wording of the specification; the program computes
    [startswith p (upper s)] instead. *)
Fixpoint starts_ci (p s : string) : bool :=
  match p, s with
  | EmptyString, _ => true
  | String a p', String b s' =>
      Ascii.eqb (upper_char a) (upper_char b) && starts_ci p' s'
  | String _ _, EmptyString => false
  end.

End PyStr.
Import PyStr.

(* ===================================================================== *)
(** ** The same methods on Unicode text *)
(* ===================================================================== *)

(** A Python [str] is a sequence of code points.  [str.strip()] and
    [str.upper()] are given here on every code point, from the character
    database of CPython 3.11 (Unicode 14.0.0): [upper] is the full
    upper-casing, character by character, and may lengthen the text. *)
Module PyUnicode.

Definition text : Type := list N.

(** The code points of a literal of the program. *)
Definition points (s : string) : text :=
  map N_of_ascii (list_ascii_of_string s).

Definition truthy (s : text) : bool :=
  match s with [] => false | _ :: _ => true end.

Definition in_range (lo hi c : N) : bool := N.leb lo c && N.leb c hi.

(** The characters [str.strip()] removes: those of [str.isspace]. *)
Definition is_space (c : N) : bool :=
  (in_range 9 13 c || in_range 28 32 c || N.eqb c 133 || N.eqb c 160
   || N.eqb c 5760 || in_range 8192 8202 c || N.eqb c 8232 || N.eqb c 8233
   || N.eqb c 8239 || N.eqb c 8287 || N.eqb c 12288)%N.

Fixpoint lstrip (s : text) : text :=
  match s with
  | [] => []
  | c :: r => if is_space c then lstrip r else s
  end.

Fixpoint rstrip (s : text) : text :=
  match s with
  | [] => []
  | c :: r =>
      match rstrip r with
      | [] => if is_space c then [] else [c]
      | r' => c :: r'
      end
  end.

Definition strip (s : text) : text := rstrip (lstrip s).

(** Code points with a one-character upper case: every [step]-th code
    point from [lo] to [hi] maps to [target] plus its distance from [lo]. *)
Definition upper_runs : list (N * N * N * N) :=
  [
   (97, 122, 1, 65); (181, 181, 1, 924); (224, 246, 1, 192);
   (248, 254, 1, 216); (255, 255, 1, 376); (257, 303, 2, 256);
   (305, 305, 1, 73); (307, 311, 2, 306); (314, 328, 2, 313);
   (331, 375, 2, 330); (378, 382, 2, 377); (383, 383, 1, 83);
   (384, 384, 1, 579); (387, 389, 2, 386); (392, 392, 1, 391);
   (396, 396, 1, 395); (402, 402, 1, 401); (405, 405, 1, 502);
   (409, 409, 1, 408); (410, 410, 1, 573); (414, 414, 1, 544);
   (417, 421, 2, 416); (424, 424, 1, 423); (429, 429, 1, 428);
   (432, 432, 1, 431); (436, 438, 2, 435); (441, 441, 1, 440);
   (445, 445, 1, 444); (447, 447, 1, 503); (453, 453, 1, 452);
   (454, 454, 1, 452); (456, 456, 1, 455); (457, 457, 1, 455);
   (459, 459, 1, 458); (460, 460, 1, 458); (462, 476, 2, 461);
   (477, 477, 1, 398); (479, 495, 2, 478); (498, 498, 1, 497);
   (499, 499, 1, 497); (501, 501, 1, 500); (505, 543, 2, 504);
   (547, 563, 2, 546); (572, 572, 1, 571); (575, 576, 1, 11390);
   (578, 578, 1, 577); (583, 591, 2, 582); (592, 592, 1, 11375);
   (593, 593, 1, 11373); (594, 594, 1, 11376); (595, 595, 1, 385);
   (596, 596, 1, 390); (598, 599, 1, 393); (601, 601, 1, 399);
   (603, 603, 1, 400); (604, 604, 1, 42923); (608, 608, 1, 403);
   (609, 609, 1, 42924); (611, 611, 1, 404); (613, 613, 1, 42893);
   (614, 614, 1, 42922); (616, 616, 1, 407); (617, 617, 1, 406);
   (618, 618, 1, 42926); (619, 619, 1, 11362); (620, 620, 1, 42925);
   (623, 623, 1, 412); (625, 625, 1, 11374); (626, 626, 1, 413);
   (629, 629, 1, 415); (637, 637, 1, 11364); (640, 640, 1, 422);
   (642, 642, 1, 42949); (643, 643, 1, 425); (647, 647, 1, 42929);
   (648, 648, 1, 430); (649, 649, 1, 580); (650, 651, 1, 433);
   (652, 652, 1, 581); (658, 658, 1, 439); (669, 669, 1, 42930);
   (670, 670, 1, 42928); (837, 837, 1, 921); (881, 883, 2, 880);
   (887, 887, 1, 886); (891, 893, 1, 1021); (940, 940, 1, 902);
   (941, 943, 1, 904); (945, 961, 1, 913); (962, 962, 1, 931);
   (963, 971, 1, 931); (972, 972, 1, 908); (973, 974, 1, 910);
   (976, 976, 1, 914); (977, 977, 1, 920); (981, 981, 1, 934);
   (982, 982, 1, 928); (983, 983, 1, 975); (985, 1007, 2, 984);
   (1008, 1008, 1, 922); (1009, 1009, 1, 929); (1010, 1010, 1, 1017);
   (1011, 1011, 1, 895); (1013, 1013, 1, 917); (1016, 1016, 1, 1015);
   (1019, 1019, 1, 1018); (1072, 1103, 1, 1040); (1104, 1119, 1, 1024);
   (1121, 1153, 2, 1120); (1163, 1215, 2, 1162); (1218, 1230, 2, 1217);
   (1231, 1231, 1, 1216); (1233, 1327, 2, 1232); (1377, 1414, 1, 1329);
   (4304, 4346, 1, 7312); (4349, 4351, 1, 7357); (5112, 5117, 1, 5104);
   (7296, 7296, 1, 1042); (7297, 7297, 1, 1044); (7298, 7298, 1, 1054);
   (7299, 7300, 1, 1057); (7301, 7301, 1, 1058); (7302, 7302, 1, 1066);
   (7303, 7303, 1, 1122); (7304, 7304, 1, 42570); (7545, 7545, 1, 42877);
   (7549, 7549, 1, 11363); (7566, 7566, 1, 42950); (7681, 7829, 2, 7680);
   (7835, 7835, 1, 7776); (7841, 7935, 2, 7840); (7936, 7943, 1, 7944);
   (7952, 7957, 1, 7960); (7968, 7975, 1, 7976); (7984, 7991, 1, 7992);
   (8000, 8005, 1, 8008); (8017, 8023, 2, 8025); (8032, 8039, 1, 8040);
   (8048, 8049, 1, 8122); (8050, 8053, 1, 8136); (8054, 8055, 1, 8154);
   (8056, 8057, 1, 8184); (8058, 8059, 1, 8170); (8060, 8061, 1, 8186);
   (8112, 8113, 1, 8120); (8126, 8126, 1, 921); (8144, 8145, 1, 8152);
   (8160, 8161, 1, 8168); (8165, 8165, 1, 8172); (8526, 8526, 1, 8498);
   (8560, 8575, 1, 8544); (8580, 8580, 1, 8579); (9424, 9449, 1, 9398);
   (11312, 11359, 1, 11264); (11361, 11361, 1, 11360); (11365, 11365, 1, 570);
   (11366, 11366, 1, 574); (11368, 11372, 2, 11367); (11379, 11379, 1, 11378);
   (11382, 11382, 1, 11381); (11393, 11491, 2, 11392); (11500, 11502, 2, 11499);
   (11507, 11507, 1, 11506); (11520, 11557, 1, 4256); (11559, 11559, 1, 4295);
   (11565, 11565, 1, 4301); (42561, 42605, 2, 42560); (42625, 42651, 2, 42624);
   (42787, 42799, 2, 42786); (42803, 42863, 2, 42802); (42874, 42876, 2, 42873);
   (42879, 42887, 2, 42878); (42892, 42892, 1, 42891); (42897, 42899, 2, 42896);
   (42900, 42900, 1, 42948); (42903, 42921, 2, 42902); (42933, 42947, 2, 42932);
   (42952, 42954, 2, 42951); (42961, 42961, 1, 42960); (42967, 42969, 2, 42966);
   (42998, 42998, 1, 42997); (43859, 43859, 1, 42931); (43888, 43967, 1, 5024);
   (65345, 65370, 1, 65313); (66600, 66639, 1, 66560); (66776, 66811, 1, 66736);
   (66967, 67003, 2, 66928); (66968, 66977, 1, 66929); (66980, 66993, 1, 66941);
   (66996, 67001, 1, 66957); (67004, 67004, 1, 66965); (68800, 68850, 1, 68736);
   (71872, 71903, 1, 71840); (93792, 93823, 1, 93760); (125218, 125251, 1, 125184)
  ]%N.

(** Code points whose upper case is several characters long. *)
Definition upper_special : list (N * list N) :=
  [
   (223, [83; 83]); (329, [700; 78]); (496, [74; 780]);
   (912, [921; 776; 769]); (944, [933; 776; 769]); (1415, [1333; 1362]);
   (7830, [72; 817]); (7831, [84; 776]); (7832, [87; 778]);
   (7833, [89; 778]); (7834, [65; 702]); (8016, [933; 787]);
   (8018, [933; 787; 768]); (8020, [933; 787; 769]); (8022, [933; 787; 834]);
   (8064, [7944; 921]); (8065, [7945; 921]); (8066, [7946; 921]);
   (8067, [7947; 921]); (8068, [7948; 921]); (8069, [7949; 921]);
   (8070, [7950; 921]); (8071, [7951; 921]); (8072, [7944; 921]);
   (8073, [7945; 921]); (8074, [7946; 921]); (8075, [7947; 921]);
   (8076, [7948; 921]); (8077, [7949; 921]); (8078, [7950; 921]);
   (8079, [7951; 921]); (8080, [7976; 921]); (8081, [7977; 921]);
   (8082, [7978; 921]); (8083, [7979; 921]); (8084, [7980; 921]);
   (8085, [7981; 921]); (8086, [7982; 921]); (8087, [7983; 921]);
   (8088, [7976; 921]); (8089, [7977; 921]); (8090, [7978; 921]);
   (8091, [7979; 921]); (8092, [7980; 921]); (8093, [7981; 921]);
   (8094, [7982; 921]); (8095, [7983; 921]); (8096, [8040; 921]);
   (8097, [8041; 921]); (8098, [8042; 921]); (8099, [8043; 921]);
   (8100, [8044; 921]); (8101, [8045; 921]); (8102, [8046; 921]);
   (8103, [8047; 921]); (8104, [8040; 921]); (8105, [8041; 921]);
   (8106, [8042; 921]); (8107, [8043; 921]); (8108, [8044; 921]);
   (8109, [8045; 921]); (8110, [8046; 921]); (8111, [8047; 921]);
   (8114, [8122; 921]); (8115, [913; 921]); (8116, [902; 921]);
   (8118, [913; 834]); (8119, [913; 834; 921]); (8124, [913; 921]);
   (8130, [8138; 921]); (8131, [919; 921]); (8132, [905; 921]);
   (8134, [919; 834]); (8135, [919; 834; 921]); (8140, [919; 921]);
   (8146, [921; 776; 768]); (8147, [921; 776; 769]); (8150, [921; 834]);
   (8151, [921; 776; 834]); (8162, [933; 776; 768]); (8163, [933; 776; 769]);
   (8164, [929; 787]); (8166, [933; 834]); (8167, [933; 776; 834]);
   (8178, [8186; 921]); (8179, [937; 921]); (8180, [911; 921]);
   (8182, [937; 834]); (8183, [937; 834; 921]); (8188, [937; 921]);
   (64256, [70; 70]); (64257, [70; 73]); (64258, [70; 76]);
   (64259, [70; 70; 73]); (64260, [70; 70; 76]); (64261, [83; 84]);
   (64262, [83; 84]); (64275, [1348; 1350]); (64276, [1348; 1333]);
   (64277, [1348; 1339]); (64278, [1358; 1350]); (64279, [1348; 1341])
  ]%N.

Fixpoint find_special (c : N) (l : list (N * list N)) : option (list N) :=
  match l with
  | [] => None
  | (k, u) :: r => if N.eqb k c then Some u else find_special c r
  end.

Fixpoint find_run (c : N) (l : list (N * N * N * N)) : option N :=
  match l with
  | [] => None
  | (lo, hi, step, target) :: r =>
      if in_range lo hi c && N.eqb (N.modulo (c - lo) step) 0
      then Some (target + (c - lo))%N
      else find_run c r
  end.

Definition upper_char (c : N) : list N :=
  match find_special c upper_special with
  | Some u => u
  | None =>
      match find_run c upper_runs with
      | Some u => [u]
      | None => [c]
      end
  end.

(** [s.upper()] *)
Definition upper (s : text) : text := flat_map upper_char s.

(** [s.startswith(p)] *)
Fixpoint startswith (p s : text) : bool :=
  match p, s with
  | [], _ => true
  | a :: p', b :: s' => N.eqb a b && startswith p' s'
  | _ :: _, [] => false
  end.

(** [sub in s] *)
Fixpoint contains (sub s : text) : bool :=
  startswith sub s ||
  match s with
  | [] => false
  | _ :: r => contains sub r
  end.

(** Text written in ASCII only. *)
Definition is_ascii (s : text) : bool := forallb (fun c => N.ltb c 128) s.

(** An ASCII letter in upper case; every other code point is left. *)
Definition fold_ascii (c : N) : N :=
  if in_range 97 122 c then (c - 32)%N else c.

(** "Starts with [p], case-insensitively", letter by letter on the ASCII
    letters: the reading of the specification. *)
Fixpoint starts_ci (p s : text) : bool :=
  match p, s with
  | [], _ => true
  | a :: p', b :: s' => N.eqb (fold_ascii a) (fold_ascii b) && starts_ci p' s'
  | _ :: _, [] => false
  end.

End PyUnicode.

(** A [string] of the ASCII model that is ASCII text. *)
Definition is_ascii (s : string) : bool := PyUnicode.is_ascii (PyUnicode.points s).

(* ===================================================================== *)
(** ** Collaborators: the database connection and the language model *)
(* ===================================================================== *)

(** A Python exception as the handlers of app.py observe it: whether it is
    a [json.JSONDecodeError], and its [str(e)]. *)
Record exn := { exn_is_json_decode_error : bool; exn_str : string }.

Inductive result (A : Type) : Type :=
| Ok (v : A)
| Raise (e : exn).
Arguments Ok {A} v.
Arguments Raise {A} e.

(** The [SQLDatabase] object: the two methods app.py calls. *)
Record Db := {
  db_get_table_info : result string;
  db_run : string -> result string
}.

(** Calls made to the collaborators, in program order.  A call to the DML
    generation chain is recorded with what the chain returned. *)
Inductive effect :=
| EDbGetTableInfo
| EDbRun (sql : string)
| ELlmIntent
| ELlmAnswer
| ELlmGuidance
| ELlmSummary
| ELlmGenerateDml (returned : result string).

(** A computation that calls collaborators: its value and its calls. *)
Definition Eff (A : Type) : Type := A * list effect.

Definition eff_ret {A} (x : A) : Eff A := (x, []).
Definition eff_bind {A B} (m : Eff A) (f : A -> Eff B) : Eff B :=
  let (x, l1) := m in let (y, l2) := f x in (y, (l1 ++ l2)%list).
Definition eff_call {A} (e : effect) (r : A) : Eff A := (r, [e]).

(* ===================================================================== *)
(** ** Section 5 and 6 of app.py: output parser and helper functions *)
(* ===================================================================== *)

(** [SimpleStrParser.parse] (lines 68-79). *)
Definition SimpleStrParser_parse (text : string) : string :=
  let cleaned_text := strip text in
  let cleaned_text :=
    if startswith "```sql" cleaned_text
    then strip (drop (String.length "```sql") cleaned_text) else cleaned_text in
  let cleaned_text :=
    if endswith "```" cleaned_text
    then strip (drop_end (String.length "```") cleaned_text) else cleaned_text in
  let cleaned_text :=
    if startswith "```json" cleaned_text
    then strip (drop (String.length "```json") cleaned_text) else cleaned_text in
  let cleaned_text :=
    if endswith "```" cleaned_text
    then strip (drop_end (String.length "```") cleaned_text) else cleaned_text in
  cleaned_text.

Definition no_connection_msg : string :=
  "Error: Database connection not available.".

(** [get_schema] (lines 82-86); [db] is the module-level connection,
    [None] when [get_database_connection] failed. *)
Definition get_schema (db : option Db) : Eff string :=
  match db with
  | Some d =>
      eff_bind (eff_call EDbGetTableInfo (db_get_table_info d)) (fun r =>
      match r with
      | Ok info => eff_ret info
      | Raise e => eff_ret ("Error getting schema: " ++ exn_str e)
      end)
  | None => eff_ret no_connection_msg
  end.

Definition skip_msg : string :=
  "Skipping execution: Query is not a valid SELECT statement or is unanswerable.".

(** The guard of [run_select_query] (lines 90-93). *)
Definition select_guard_refuses (sql_query : string) : bool :=
  negb (truthy sql_query)
  || contains "Cannot answer" sql_query
  || contains "Error: SQL not generated" sql_query
  || negb (startswith "SELECT" (upper (strip sql_query))).

(** [run_select_query] (lines 88-99). *)
Definition run_select_query (db : option Db) (sql_query : string) : Eff string :=
  match db with
  | Some d =>
      if select_guard_refuses sql_query then eff_ret skip_msg
      else
        eff_bind (eff_call (EDbRun (strip sql_query)) (db_run d (strip sql_query)))
          (fun r =>
           match r with
           | Ok rows => eff_ret rows
           | Raise e =>
               eff_ret ("Error executing SELECT query: " ++ exn_str e ++ nl
                        ++ "Attempted Query: " ++ strip sql_query)
           end)
  | None => eff_ret "Error: Database connection not available for query execution."
  end.

Definition simulated_success (action : string) : string :=
  "Successfully (simulated) " ++ action
  ++ " data. No actual changes were made to the database in this demo.".

(** [run_simulated_dml_query] (lines 101-108).  It is written in [Eff] like
    its two neighbours, so that its collaborator calls can be counted. *)
Definition run_simulated_dml_query (dml_sql action : string) : Eff string :=
  if negb (truthy dml_sql)
     || contains "Error generating DML" dml_sql
     || contains "Command too vague" dml_sql
  then eff_ret ("Error: Could not simulate " ++ action
                ++ " due to issues with the DML command.")
  else if negb (startswith "INSERT" (upper (strip dml_sql))
                || startswith "DELETE" (upper (strip dml_sql))
                || startswith "UPDATE" (upper (strip dml_sql)))
  then eff_ret ("Error: The provided command for " ++ action
                ++ " does not appear to be valid DML.")
  else eff_ret (simulated_success action).

(** The two query helpers on Unicode text: the functions above are their
    restriction to ASCII text.  The call log holds the statements passed
    to [db.run]. *)
Module Unicode.

(** What [db.run] does with a statement: it returns rows, or raises an
    exception with the message [str(e)]. *)
Inductive outcome :=
| Returned (rows : PyUnicode.text)
| Raised (message : PyUnicode.text).

Record Db := { db_run : PyUnicode.text -> outcome }.

Definition skip_msg : PyUnicode.text := PyUnicode.points skip_msg.

(** The guard of [run_select_query] (lines 90-93). *)
Definition select_guard_refuses (sql_query : PyUnicode.text) : bool :=
  negb (PyUnicode.truthy sql_query)
  || PyUnicode.contains (PyUnicode.points "Cannot answer") sql_query
  || PyUnicode.contains (PyUnicode.points "Error: SQL not generated") sql_query
  || negb (PyUnicode.startswith (PyUnicode.points "SELECT")
             (PyUnicode.upper (PyUnicode.strip sql_query))).

(** [run_select_query] (lines 88-99). *)
Definition run_select_query (db : option Db) (sql_query : PyUnicode.text)
  : PyUnicode.text * list PyUnicode.text :=
  match db with
  | Some d =>
      if select_guard_refuses sql_query then (skip_msg, [])
      else
        (match db_run d (PyUnicode.strip sql_query) with
         | Returned rows => rows
         | Raised message =>
             (PyUnicode.points "Error executing SELECT query: " ++ message
              ++ PyUnicode.points nl ++ PyUnicode.points "Attempted Query: "
              ++ PyUnicode.strip sql_query)%list
         end,
         [PyUnicode.strip sql_query])
  | None =>
      (PyUnicode.points
         "Error: Database connection not available for query execution.", [])
  end.

Definition simulated_success (action : PyUnicode.text) : PyUnicode.text :=
  (PyUnicode.points "Successfully (simulated) " ++ action
   ++ PyUnicode.points
        " data. No actual changes were made to the database in this demo.")%list.

(** The prefix test of lines 104-106. *)
Definition dml_prefix (dml_sql : PyUnicode.text) : bool :=
  PyUnicode.startswith (PyUnicode.points "INSERT")
    (PyUnicode.upper (PyUnicode.strip dml_sql))
  || PyUnicode.startswith (PyUnicode.points "DELETE")
       (PyUnicode.upper (PyUnicode.strip dml_sql))
  || PyUnicode.startswith (PyUnicode.points "UPDATE")
       (PyUnicode.upper (PyUnicode.strip dml_sql)).

(** [run_simulated_dml_query] (lines 101-108). *)
Definition run_simulated_dml_query (dml_sql action : PyUnicode.text)
  : PyUnicode.text * list PyUnicode.text :=
  if negb (PyUnicode.truthy dml_sql)
     || PyUnicode.contains (PyUnicode.points "Error generating DML") dml_sql
     || PyUnicode.contains (PyUnicode.points "Command too vague") dml_sql
  then ((PyUnicode.points "Error: Could not simulate " ++ action
         ++ PyUnicode.points " due to issues with the DML command.")%list, [])
  else if negb (dml_prefix dml_sql)
  then ((PyUnicode.points "Error: The provided command for " ++ action
         ++ PyUnicode.points " does not appear to be valid DML.")%list, [])
  else (simulated_success action, []).

(** The failure sentinels that [run_simulated_dml_query] looks for. *)
Definition carries_failure_sentinel (sql : PyUnicode.text) : bool :=
  PyUnicode.contains (PyUnicode.points "Error generating DML") sql
  || PyUnicode.contains (PyUnicode.points "Command too vague") sql.

Definition is_error_text (t : PyUnicode.text) : bool :=
  PyUnicode.startswith (PyUnicode.points "Error:") t.

(** "Starts, case-insensitively and after trimming, with SELECT". *)
Definition starts_select_ci (sql : PyUnicode.text) : bool :=
  PyUnicode.starts_ci (PyUnicode.points "SELECT") (PyUnicode.strip sql).

(** "Starts, case-insensitively and after trimming, with INSERT, DELETE or
    UPDATE". *)
Definition starts_dml_ci (sql : PyUnicode.text) : bool :=
  PyUnicode.starts_ci (PyUnicode.points "INSERT") (PyUnicode.strip sql)
  || PyUnicode.starts_ci (PyUnicode.points "DELETE") (PyUnicode.strip sql)
  || PyUnicode.starts_ci (PyUnicode.points "UPDATE") (PyUnicode.strip sql).

(** A database that answers every statement with one row. *)
Definition demo_db : Db :=
  {| db_run := fun _ => Returned (PyUnicode.points "[(1,)]") |}.

(** The text [select 1] written with U+017F, the long s, for its first
    letter; and [insert into t values (1)] written with U+0131, the
    dotless i. *)
Definition long_s_select : PyUnicode.text :=
  (383 :: PyUnicode.points "elect 1")%N.

Definition dotless_i_insert : PyUnicode.text :=
  (305 :: PyUnicode.points "nsert into t values (1)")%N.

End Unicode.

(* ===================================================================== *)
(** ** Data model: decoded JSON objects, messages, session state *)
(* ===================================================================== *)

(** Values of the JSON object the guidance prompt asks for: a text or a
    list of field names. *)
Inductive pyval :=
| VStr (s : string)
| VList (l : list string).

(** A Python dict with string keys, in insertion order. *)
Definition dict (V : Type) : Type := list (string * V).

Fixpoint dict_get {V} (d : dict V) (k : string) : option V :=
  match d with
  | [] => None
  | (k', v) :: t => if String.eqb k' k then Some v else dict_get t k
  end.

(** [d[k] = v]: an existing key keeps its place, a new one goes last. *)
Fixpoint dict_set {V} (d : dict V) (k : string) (v : V) : dict V :=
  match d with
  | [] => [(k, v)]
  | (k', v') :: t =>
      if String.eqb k' k then (k, v) :: t else (k', v') :: dict_set t k v
  end.

Definition dict_truthy {V} (d : dict V) : bool :=
  match d with [] => false | _ :: _ => true end.

Definition pyval_truthy (v : pyval) : bool :=
  match v with
  | VStr s => truthy s
  | VList l => match l with [] => false | _ :: _ => true end
  end.

(** [v == s] for a string literal [s]. *)
Definition pyval_eq_str (v : pyval) (s : string) : bool :=
  match v with VStr x => String.eqb x s | VList _ => false end.

(** [for field in v]: the items of a list, the characters of a string. *)
Definition pyval_iter (v : pyval) : list string :=
  match v with VStr s => chars s | VList l => l end.

Definition opt_truthy {A} (t : A -> bool) (o : option A) : bool :=
  match o with Some x => t x | None => false end.

Definition opt_str_eqb (o : option string) (s : string) : bool :=
  match o with Some x => String.eqb x s | None => false end.

(** The object decoded from the intent prompt's answer. *)
Record intent := {
  ij_response_type : option string;
  ij_generated_sql : option string;
  ij_ai_response : option string
}.

Inductive role := User | Assistant.

(** The dict an assistant message carries; an absent key is [None]. *)
Record reply := {
  r_ai_response : option string;
  r_generated_sql_display : option string;
  r_sql_query_result_display : option string;
  r_error : option string
}.

Inductive content :=
| Text (s : string)
| Reply (r : reply).

Record message := { m_role : role; m_content : content }.

(** [{"action": ..., "sql": ...}] *)
Record confirmation := { pc_action : string; pc_sql : string }.

(** [st.session_state] once the initialisation loop (lines 353-366) has
    run. *)
Record session := {
  messages : list message;
  current_action : option string;
  dml_initial_description : string;
  dml_form_inputs : dict string;
  dml_text_details : string;
  dml_guidance_message : option (dict pyval);
  dml_input_method : option string;
  pending_dml_confirmation : option confirmation
}.

Definition ai_reply (text : string) : reply :=
  {| r_ai_response := Some text; r_generated_sql_display := None;
     r_sql_query_result_display := None; r_error := None |}.

Definition error_reply (text : string) : reply :=
  {| r_ai_response := None; r_generated_sql_display := None;
     r_sql_query_result_display := None; r_error := Some text |}.

Definition assistant (r : reply) : message :=
  {| m_role := Assistant; m_content := Reply r |}.

Definition init_session : session :=
  {| messages :=
       [assistant (ai_reply
          "Hello! Use the quick action buttons or ask a question below.")];
     current_action := None;
     dml_initial_description := "";
     dml_form_inputs := [];
     dml_text_details := "";
     dml_guidance_message := None;
     dml_input_method := None;
     pending_dml_confirmation := None |}.

Definition set_messages v (s : session) : session :=
  {| messages := v; current_action := current_action s;
     dml_initial_description := dml_initial_description s;
     dml_form_inputs := dml_form_inputs s;
     dml_text_details := dml_text_details s;
     dml_guidance_message := dml_guidance_message s;
     dml_input_method := dml_input_method s;
     pending_dml_confirmation := pending_dml_confirmation s |}.

Definition set_current_action v (s : session) : session :=
  {| messages := messages s; current_action := v;
     dml_initial_description := dml_initial_description s;
     dml_form_inputs := dml_form_inputs s;
     dml_text_details := dml_text_details s;
     dml_guidance_message := dml_guidance_message s;
     dml_input_method := dml_input_method s;
     pending_dml_confirmation := pending_dml_confirmation s |}.

Definition set_dml_initial_description v (s : session) : session :=
  {| messages := messages s; current_action := current_action s;
     dml_initial_description := v;
     dml_form_inputs := dml_form_inputs s;
     dml_text_details := dml_text_details s;
     dml_guidance_message := dml_guidance_message s;
     dml_input_method := dml_input_method s;
     pending_dml_confirmation := pending_dml_confirmation s |}.

Definition set_dml_form_inputs v (s : session) : session :=
  {| messages := messages s; current_action := current_action s;
     dml_initial_description := dml_initial_description s;
     dml_form_inputs := v;
     dml_text_details := dml_text_details s;
     dml_guidance_message := dml_guidance_message s;
     dml_input_method := dml_input_method s;
     pending_dml_confirmation := pending_dml_confirmation s |}.

Definition set_dml_text_details v (s : session) : session :=
  {| messages := messages s; current_action := current_action s;
     dml_initial_description := dml_initial_description s;
     dml_form_inputs := dml_form_inputs s;
     dml_text_details := v;
     dml_guidance_message := dml_guidance_message s;
     dml_input_method := dml_input_method s;
     pending_dml_confirmation := pending_dml_confirmation s |}.

Definition set_dml_guidance_message v (s : session) : session :=
  {| messages := messages s; current_action := current_action s;
     dml_initial_description := dml_initial_description s;
     dml_form_inputs := dml_form_inputs s;
     dml_text_details := dml_text_details s;
     dml_guidance_message := v;
     dml_input_method := dml_input_method s;
     pending_dml_confirmation := pending_dml_confirmation s |}.

Definition set_dml_input_method v (s : session) : session :=
  {| messages := messages s; current_action := current_action s;
     dml_initial_description := dml_initial_description s;
     dml_form_inputs := dml_form_inputs s;
     dml_text_details := dml_text_details s;
     dml_guidance_message := dml_guidance_message s;
     dml_input_method := v;
     pending_dml_confirmation := pending_dml_confirmation s |}.

Definition set_pending_dml_confirmation v (s : session) : session :=
  {| messages := messages s; current_action := current_action s;
     dml_initial_description := dml_initial_description s;
     dml_form_inputs := dml_form_inputs s;
     dml_text_details := dml_text_details s;
     dml_guidance_message := dml_guidance_message s;
     dml_input_method := dml_input_method s;
     pending_dml_confirmation := v |}.

(** [messages.append(m)] *)
Definition append_message (m : message) (s : session) : session :=
  set_messages (messages s ++ [m])%list s.

(* ===================================================================== *)
(** ** The language model and the chains of section 7 *)
(* ===================================================================== *)

(** The model behind each prompt, as a function of the values the prompt
    interpolates; for the two JSON chains the answer is the decoded
    object, for the others the text. *)
Record Llm := {
  (* question, schema *)
  llm_sql_intent : content -> string -> result intent;
  (* question, generated_sql, sql_response *)
  llm_nl_response : content -> string -> string -> result string;
  (* action_type, action_description, user_initial_description, schema *)
  llm_dml_guidance : string -> string -> string -> string -> result (dict pyval);
  (* action_type, action_type_description, user_structured_details, schema *)
  llm_dml_generation : string -> string -> string -> string -> result string;
  (* schema *)
  llm_db_summary : string -> result string
}.

(** What a script run is given: the connection, the model and the text
    [traceback.format_exc()] prints for an exception. *)
Record Env := {
  env_db : option Db;
  env_llm : Llm;
  env_format_exc : exn -> string
}.

Definition result_map {A B} (f : A -> B) (r : result A) : result B :=
  match r with Ok v => Ok (f v) | Raise e => Raise e end.

Definition initial_processing_chain (env : Env) (question : content)
  : Eff (result intent) :=
  eff_bind (get_schema (env_db env)) (fun schema =>
  eff_call ELlmIntent (llm_sql_intent (env_llm env) question schema)).

Definition select_answer_chain (env : Env) (question : content)
    (generated_sql sql_response : string) : Eff (result string) :=
  eff_call ELlmAnswer
    (llm_nl_response (env_llm env) question generated_sql sql_response).

Definition dml_guidance_chain (env : Env)
    (action_type action_description user_initial_description schema : string)
  : Eff (result (dict pyval)) :=
  eff_call ELlmGuidance
    (llm_dml_guidance (env_llm env) action_type action_description
       user_initial_description schema).

Definition dml_generation_chain (env : Env)
    (action_type action_type_description user_structured_details schema : string)
  : Eff (result string) :=
  let r := result_map SimpleStrParser_parse
             (llm_dml_generation (env_llm env) action_type
                action_type_description user_structured_details schema) in
  eff_call (ELlmGenerateDml r) r.

Definition db_summary_chain (env : Env) : Eff (result string) :=
  eff_bind (get_schema (env_db env)) (fun schema =>
  eff_call ELlmSummary (llm_db_summary (env_llm env) schema)).

(* ===================================================================== *)
(** ** The user interface: what one script run receives from the widgets *)
(* ===================================================================== *)

(** The [st.button] and [st.form_submit_button] calls of the script, in
    source order. *)
Inductive button :=
| BtnAddData | BtnDeleteData | BtnSummarize
| BtnGetGuidance | BtnCancelInitial
| BtnFillForm | BtnDescribeText | BtnCancelMethod
| BtnFormSubmit | BtnGenerateFromText | BtnGoBack
| BtnProceed | BtnCancelConfirm.

Definition button_eq_dec (a b : button) : {a = b} + {a <> b}.
Proof. decide equality. Defined.

(** What started the run: nothing (a rerun, or an edited text widget), one
    button, or a text sent through [st.chat_input]. *)
Inductive trigger :=
| NoTrigger
| Click (b : button)
| ChatSubmit (text : string).

(** [ui_text k] is the current content of the text widget with key [k]. *)
Record UI := { ui_trigger : trigger; ui_text : string -> string }.

(** [st.button(..., disabled=d)]: true in the run its click started; a
    disabled button cannot be clicked. *)
Definition pressed (ui : UI) (b : button) (disabled : bool) : bool :=
  negb disabled &&
  match ui_trigger ui with
  | Click b' => if button_eq_dec b b' then true else false
  | _ => false
  end.

(** [st.chat_input(..., disabled=d)] *)
Definition chat_input_value (ui : UI) (disabled : bool) : option string :=
  match ui_trigger ui with
  | ChatSubmit text => if disabled then None else Some text
  | _ => None
  end.

(** [st.warning] and [st.error] boxes shown by a run. *)
Inductive notice :=
| Warning (text : string)
| Error (text : string).

(* ===================================================================== *)
(** ** The script monad: session state, output, calls, early exit *)
(* ===================================================================== *)

Record world := {
  ss : session;
  notices : list notice;
  effects : list effect
}.

(** [st.rerun()] and [st.stop()] end the run where they are called. *)
Inductive ending := Rerun | Stop.

Definition Script (A : Type) : Type := world -> (A + ending) * world.

Definition ret {A} (x : A) : Script A := fun w => (inl x, w).

Definition bind {A B} (m : Script A) (f : A -> Script B) : Script B :=
  fun w =>
    match m w with
    | (inl x, w') => f x w'
    | (inr e, w') => (inr e, w')
    end.

Declare Scope script_scope.
Delimit Scope script_scope with script.
Notation "x <- m ;; k" := (bind m (fun x => k))
  (at level 61, m at next level, right associativity) : script_scope.
Notation "m ;; k" := (bind m (fun _ => k))
  (at level 61, right associativity) : script_scope.
Open Scope script_scope.

Definition get {A} (f : session -> A) : Script A :=
  fun w => (inl (f (ss w)), w).

Definition assign (f : session -> session) : Script unit :=
  fun w => (inl tt, {| ss := f (ss w); notices := notices w; effects := effects w |}).

Definition show (n : notice) : Script unit :=
  fun w => (inl tt, {| ss := ss w; notices := (notices w ++ [n])%list;
                       effects := effects w |}).

Definition lift {A} (c : Eff A) : Script A :=
  fun w => (inl (fst c), {| ss := ss w; notices := notices w;
                            effects := (effects w ++ snd c)%list |}).

Definition st_rerun : Script unit := fun w => (inr Rerun, w).
Definition st_stop : Script unit := fun w => (inr Stop, w).

Definition when (b : bool) (m : Script unit) : Script unit :=
  if b then m else ret tt.

(* ===================================================================== *)
(** ** Section 8 of app.py: the script *)
(* ===================================================================== *)

Definition ca_in (ca : option string) (l : list string) : bool :=
  opt_truthy (fun a => in_list a l) ca.

(** ["add" in st.session_state.current_action] *)
Definition ca_contains (sub : string) (ca : option string) : bool :=
  opt_truthy (contains sub) ca.

(** Quick actions (lines 331-349). *)
Definition quick_actions (ui : UI) : Script unit :=
  when (pressed ui BtnAddData false)
    (assign (set_current_action (Some "add_data_initial_input")) ;;
     assign (set_dml_initial_description "") ;;
     assign (set_dml_form_inputs []) ;;
     assign (set_dml_text_details "") ;;
     assign (set_dml_guidance_message None) ;;
     assign (set_dml_input_method None) ;;
     st_rerun) ;;
  when (pressed ui BtnDeleteData false)
    (assign (set_current_action (Some "delete_data_initial_input")) ;;
     assign (set_dml_initial_description "") ;;
     assign (set_dml_form_inputs []) ;;
     assign (set_dml_text_details "") ;;
     assign (set_dml_guidance_message None) ;;
     assign (set_dml_input_method None) ;;
     st_rerun) ;;
  when (pressed ui BtnSummarize false)
    (assign (set_current_action (Some "summarize_db")) ;;
     st_rerun).

(** The stage the [if]/[elif] chain of lines 371-483 selects. *)
Inductive stage :=
| StageInitialInput
| StageInputMethod
| StageDetails
| StageConfirmation
| StageNone.

Definition ui_stage (s : session) : stage :=
  if ca_in (current_action s)
       ["add_data_initial_input"; "delete_data_initial_input"]
  then StageInitialInput
  else if ca_in (current_action s)
       ["awaiting_dml_input_method_add"; "awaiting_dml_input_method_delete"]
  then StageInputMethod
  else if ca_in (current_action s)
       ["awaiting_structured_dml_details_add";
        "awaiting_structured_dml_details_delete"]
  then StageDetails
  else if opt_truthy (fun _ => true) (pending_dml_confirmation s)
  then StageConfirmation
  else StageNone.

(** ["Add" if "add" in st.session_state.current_action else "Delete"] *)
Definition action_verb_of (ca : option string) : string :=
  if ca_contains "add" ca then "Add" else "Delete".

(** Stage 1 (lines 371-387). *)
Definition stage_initial_input (ui : UI) : Script unit :=
  ca <- get current_action ;;
  let action_verb := action_verb_of ca in
  assign (set_dml_initial_description
            (ui_text ui ("dml_init_desc_" ++ action_verb))) ;;
  (if pressed ui BtnGetGuidance false then
     desc <- get dml_initial_description ;;
     if truthy (strip desc) then
       assign (set_current_action
                 (Some ("process_initial_dml_description_" ++ lower action_verb))) ;;
       st_rerun
     else show (Warning "Please provide an initial description.")
   else ret tt) ;;
  when (pressed ui BtnCancelInitial false)
    (assign (set_current_action None) ;; st_rerun).

(** [disabled=(target_table == "Unknown" or not guidance.get("suggested_fields"))]
    (line 403). *)
Definition form_disabled (guidance : dict pyval) : bool :=
  let target_table :=
    match dict_get guidance "target_table" with
    | Some v => v
    | None => VStr "Unknown"
    end in
  pyval_eq_str target_table "Unknown"
  || negb (opt_truthy pyval_truthy (dict_get guidance "suggested_fields")).

(** Stage 2 (lines 390-420). *)
Definition stage_input_method (ui : UI) : Script unit :=
  ca <- get current_action ;;
  let action_verb := action_verb_of ca in
  guidance <- get dml_guidance_message ;;
  if opt_truthy dict_truthy guidance then
    let disabled :=
      match guidance with Some g => form_disabled g | None => true end in
    when (pressed ui BtnFillForm disabled)
      (assign (set_dml_input_method (Some "form")) ;;
       assign (set_current_action
                 (Some ("awaiting_structured_dml_details_" ++ lower action_verb))) ;;
       st_rerun) ;;
    when (pressed ui BtnDescribeText false)
      (assign (set_dml_input_method (Some "text")) ;;
       assign (set_current_action
                 (Some ("awaiting_structured_dml_details_" ++ lower action_verb))) ;;
       st_rerun) ;;
    when (pressed ui BtnCancelMethod false)
      (assign (set_current_action None) ;;
       assign (set_dml_guidance_message None) ;;
       st_rerun)
  else
    show (Error "Guidance message not found. Please start the DML action again.") ;;
    assign (set_current_action None).

(** [guidance.get("suggested_fields", [])] *)
Definition suggested_fields_of (guidance : option (dict pyval)) : pyval :=
  match guidance with
  | Some g =>
      match dict_get g "suggested_fields" with
      | Some v => v
      | None => VList []
      end
  | None => VList []
  end.

(** The loop of lines 439-444: every suggested field takes the content of
    its text input. *)
Definition form_input_key (action_verb field : string) : string :=
  "form_input_" ++ action_verb ++ "_" ++ replace_char " " "_" field.

Fixpoint collect_form_inputs (ui : UI) (action_verb : string)
    (fields : list string) (inputs : dict string) : dict string :=
  match fields with
  | [] => inputs
  | field :: rest =>
      collect_form_inputs ui action_verb rest
        (dict_set inputs field (ui_text ui (form_input_key action_verb field)))
  end.

(** [any(st.session_state.dml_form_inputs.get(f) for f in suggested_fields)] *)
Definition any_filled (inputs : dict string) (fields : list string) : bool :=
  existsb (fun f => opt_truthy truthy (dict_get inputs f)) fields.

(** Stage 2b (lines 423-479). *)
Definition stage_details (ui : UI) : Script unit :=
  ca <- get current_action ;;
  let action_verb := action_verb_of ca in
  guidance <- get dml_guidance_message ;;
  (if negb (opt_truthy dict_truthy guidance) then
     show (Error "Error: DML guidance is missing. Please restart the Add/Delete action.") ;;
     st_stop
   else ret tt) ;;
  method <- get dml_input_method ;;
  (if opt_str_eqb method "form" then
     let suggested_fields := suggested_fields_of guidance in
     if negb (pyval_truthy suggested_fields) then
       show (Warning "No specific fields were suggested by the AI. Please use the 'Describe in Text' option or ensure your initial description was clear.")
     else
       inputs <- get dml_form_inputs ;;
       assign (set_dml_form_inputs
                 (collect_form_inputs ui action_verb
                    (pyval_iter suggested_fields) inputs)) ;;
       when (pressed ui BtnFormSubmit false)
         (inputs' <- get dml_form_inputs ;;
          if any_filled inputs' (pyval_iter suggested_fields) then
            assign (set_current_action
                      (Some ("process_structured_dml_" ++ lower action_verb))) ;;
            st_rerun
          else if negb (pyval_truthy suggested_fields) then
            show (Warning "Cannot proceed with form as no fields were suggested. Try 'Describe in Text'.")
          else
            show (Warning "Please fill in at least one field in the form."))
   else if opt_str_eqb method "text" then
     assign (set_dml_text_details
               (ui_text ui ("dml_text_details_" ++ action_verb))) ;;
     when (pressed ui BtnGenerateFromText false)
       (details <- get dml_text_details ;;
        if truthy (strip details) then
          assign (set_current_action
                    (Some ("process_structured_dml_" ++ lower action_verb))) ;;
          st_rerun
        else
          show (Warning "Please provide the structured details in text."))
   else
     show (Error "Input method not selected. Please restart the Add/Delete action.")) ;;
  when (pressed ui BtnGoBack false)
    (assign (set_current_action
               (Some ("awaiting_dml_input_method_" ++ lower action_verb))) ;;
     assign (set_dml_form_inputs []) ;;
     assign (set_dml_text_details "") ;;
     st_rerun).

(** Stage 3 (lines 483-501); the banner is recorded without its leading
    pictogram. *)
Definition stage_confirmation (ui : UI) : Script unit :=
  pending <- get pending_dml_confirmation ;;
  match pending with
  | Some p =>
      let action_verb := pc_action p in
      let dml_sql := pc_sql p in
      show (Warning ("**Confirm Database Modification: "
                     ++ capitalize action_verb ++ " Data**")) ;;
      when (pressed ui BtnProceed false)
        (simulated_result <- lift (run_simulated_dml_query dml_sql action_verb) ;;
         assign (append_message (assistant (ai_reply simulated_result))) ;;
         assign (set_pending_dml_confirmation None) ;;
         assign (set_current_action None) ;;
         st_rerun) ;;
      when (pressed ui BtnCancelConfirm false)
        (assign (append_message
                   (assistant (ai_reply (capitalize action_verb
                                         ++ " operation cancelled.")))) ;;
         assign (set_pending_dml_confirmation None) ;;
         assign (set_current_action None) ;;
         st_rerun)
  | None => ret tt
  end.

Definition dml_stages (ui : UI) : Script unit :=
  s <- get (fun s => s) ;;
  match ui_stage s with
  | StageInitialInput => stage_initial_input ui
  | StageInputMethod => stage_input_method ui
  | StageDetails => stage_details ui
  | StageConfirmation => stage_confirmation ui
  | StageNone => ret tt
  end.

(** [chat_input_disabled] (line 538). *)
Definition chat_input_disabled (s : session) : bool :=
  match current_action s with
  | Some a =>
      truthy a
      && (contains "dml" a
          || opt_truthy (fun _ => true) (pending_dml_confirmation s))
  | None => false
  end.

(** Chat input (lines 538-545). *)
Definition chat_input (ui : UI) : Script unit :=
  s <- get (fun s => s) ;;
  let disabled := chat_input_disabled s in
  match chat_input_value ui disabled with
  | Some user_input =>
      if truthy user_input then
        when (negb disabled)
          (assign (append_message {| m_role := User; m_content := Text user_input |}) ;;
           assign (set_current_action (Some "process_chat_input")) ;;
           st_rerun)
      else ret tt
  | None => ret tt
  end.

(** The two [except] clauses of lines 636-644. *)
Definition handle_exception (env : Env) (e : exn) : Script unit :=
  let err_msg :=
    if exn_is_json_decode_error e then
      "AI response format error (not valid JSON): " ++ exn_str e
      ++ ". The LLM might have responded in plain text instead of JSON."
    else
      "An unexpected error occurred: " ++ exn_str e ++ nl ++ env_format_exc env e in
  assign (append_message (assistant (error_reply err_msg))) ;;
  assign (set_current_action None) ;;
  st_rerun.

(** A call inside the [try] block: an exception goes to the handlers. *)
Definition invoke {A} (env : Env) (c : Eff (result A)) (k : A -> Script unit)
  : Script unit :=
  r <- lift c ;;
  match r with
  | Ok v => k v
  | Raise e => handle_exception env e
  end.

(** [st.session_state.messages[-1]["content"]] *)
Definition last_content (msgs : list message) : result content :=
  match List.rev msgs with
  | m :: _ => Ok (m_content m)
  | [] => Raise {| exn_is_json_decode_error := false;
                   exn_str := "list index out of range" |}
  end.

(** Lines 578-580. *)
Definition finish_chat (assistant_response_content : reply) : Script unit :=
  assign (append_message (assistant assistant_response_content)) ;;
  assign (set_current_action None) ;;
  st_rerun.

(** [process_chat_input] (lines 553-580). *)
Definition process_chat_input (env : Env) : Script unit :=
  msgs <- get messages ;;
  invoke env (eff_ret (last_content msgs)) (fun user_query =>
  invoke env (initial_processing_chain env user_query) (fun llm_response_json =>
  let response_type := ij_response_type llm_response_json in
  if opt_str_eqb response_type "SELECT_QUERY" then
    let generated_sql := ij_generated_sql llm_response_json in
    match generated_sql with
    | Some sql =>
        if truthy sql && negb (contains "Cannot answer" sql) then
          sql_response_raw <- lift (run_select_query (env_db env) sql) ;;
          invoke env (select_answer_chain env user_query sql sql_response_raw)
            (fun nl_answer =>
             finish_chat
               {| r_ai_response := Some nl_answer;
                  r_generated_sql_display := generated_sql;
                  r_sql_query_result_display := Some sql_response_raw;
                  r_error := None |})
        else
          finish_chat
            {| r_ai_response := generated_sql;
               r_generated_sql_display := generated_sql;
               r_sql_query_result_display := None;
               r_error := None |}
    | None =>
        finish_chat
          {| r_ai_response := None; r_generated_sql_display := None;
             r_sql_query_result_display := None; r_error := None |}
    end
  else if opt_str_eqb response_type "CLARIFICATION_NEEDED_FOR_SELECT"
          || opt_str_eqb response_type "DML_INTENT_DETECTED"
          || opt_str_eqb response_type "GENERAL_RESPONSE" then
    finish_chat
      {| r_ai_response := ij_ai_response llm_response_json;
         r_generated_sql_display := None;
         r_sql_query_result_display := None; r_error := None |}
  else if opt_str_eqb response_type "DATABASE_OVERVIEW_REQUEST" then
    invoke env (db_summary_chain env) (fun summary =>
    finish_chat (ai_reply ("**Database Overview:**" ++ nl ++ nl ++ summary)))
  else
    finish_chat (error_reply "Unexpected AI response type."))).

Definition action_desc_of (action_verb : string) : string :=
  if String.eqb action_verb "add" then "adding new data"
  else "deleting existing data".

(** [process_initial_dml_description_*] (lines 582-595). *)
Definition process_initial_dml_description (env : Env)
    (action_to_process : string) : Script unit :=
  let action_verb := if contains "add" action_to_process then "add" else "delete" in
  let action_desc := action_desc_of action_verb in
  initial_desc <- get dml_initial_description ;;
  schema <- lift (get_schema (env_db env)) ;;
  invoke env (dml_guidance_chain env action_verb action_desc initial_desc schema)
    (fun guidance_json =>
     assign (set_dml_guidance_message (Some guidance_json)) ;;
     assign (set_current_action
               (Some ("awaiting_dml_input_method_" ++ action_verb))) ;;
     st_rerun).

(** The [field='value'] pairs of lines 604-607. *)
Definition form_details (inputs : dict string) : string :=
  let filled_fields := filter (fun kv => truthy (snd kv)) inputs in
  join ", "
    (map (fun kv => fst kv ++ "='" ++ replace_char quote "''" (snd kv) ++ "'")
         filled_fields).

Definition dml_error_sentinel : string := "Error generating DML:".

(** [generated_dml_sql.startswith("Error generating DML:")] (line 619). *)
Definition is_dml_refusal (text : string) : bool :=
  startswith dml_error_sentinel text.

(** [process_structured_dml_*] (lines 597-627). *)
Definition process_structured_dml (env : Env) (action_to_process : string)
  : Script unit :=
  let action_verb := if contains "add" action_to_process then "add" else "delete" in
  let action_desc := action_desc_of action_verb in
  method <- get dml_input_method ;;
  user_structured_details_str <-
    (if opt_str_eqb method "form" then
       inputs <- get dml_form_inputs ;; ret (form_details inputs)
     else if opt_str_eqb method "text" then
       get dml_text_details
     else
       show (Error "DML Input method not determined.") ;;
       st_stop ;; ret "") ;;
  schema <- lift (get_schema (env_db env)) ;;
  invoke env (dml_generation_chain env (upper action_verb) action_desc
                user_structured_details_str schema)
    (fun generated_dml_sql =>
     (if is_dml_refusal generated_dml_sql then
        assign (append_message (assistant (ai_reply generated_dml_sql))) ;;
        assign (set_current_action None)
      else
        assign (set_pending_dml_confirmation
                  (Some {| pc_action := action_verb; pc_sql := generated_dml_sql |}))) ;;
     st_rerun).

(** [summarize_db] (lines 629-634). *)
Definition summarize_db (env : Env) : Script unit :=
  invoke env (db_summary_chain env) (fun summary =>
  assign (append_message
            (assistant (ai_reply ("**Database Summary:**" ++ nl ++ nl ++ summary)))) ;;
  assign (set_current_action None) ;;
  st_rerun).

(** Logic for processing actions (lines 548-644). *)
Definition process_actions (env : Env) : Script unit :=
  ca <- get current_action ;;
  match ca with
  | Some action_to_process =>
      if truthy action_to_process then
        if String.eqb action_to_process "process_chat_input" then
          process_chat_input env
        else if startswith "process_initial_dml_description_" action_to_process then
          process_initial_dml_description env action_to_process
        else if startswith "process_structured_dml_" action_to_process then
          process_structured_dml env action_to_process
        else if String.eqb action_to_process "summarize_db" then
          summarize_db env
        else ret tt
      else ret tt
  | None => ret tt
  end.

(** One run of the script, top to bottom. *)
Definition script (env : Env) (ui : UI) : Script unit :=
  quick_actions ui ;;
  dml_stages ui ;;
  chat_input ui ;;
  process_actions env.

Definition fresh (s : session) : world :=
  {| ss := s; notices := []; effects := [] |}.

(** The session a run leaves behind, what it showed and what it called. *)
Definition run (env : Env) (ui : UI) (s : session) : world :=
  snd (script env ui (fresh s)).

Definition run_session (env : Env) (ui : UI) (s : session) : session :=
  ss (run env ui s).

(** How the run ended: [None] when the script reached its last line. *)
Definition run_ending (env : Env) (ui : UI) (s : session) : option ending :=
  match fst (script env ui (fresh s)) with
  | inl _ => None
  | inr e => Some e
  end.

(** Sessions the program can be in, with every collaborator call made on
    the way, oldest first. *)
Inductive reach : list effect -> session -> Prop :=
| reach_init : reach [] init_session
| reach_run tr s env ui :
    reach tr s ->
    reach (tr ++ effects (run env ui s))%list (run_session env ui s).

Definition reachable (s : session) : Prop := exists tr, reach tr s.

(** Replaying a list of user interactions. *)
Fixpoint replay (env : Env) (uis : list UI) (s : session) : session :=
  match uis with
  | [] => s
  | ui :: rest => replay env rest (run_session env ui s)
  end.

(* ===================================================================== *)
(** ** Vocabulary of the specification *)
(* ===================================================================== *)

(** "Starts, case-insensitively and after trimming, with SELECT". *)
Definition starts_select_ci (sql : string) : bool :=
  starts_ci "SELECT" (strip sql).

(** "Starts, case-insensitively and after trimming, with INSERT, DELETE or
    UPDATE". *)
Definition starts_dml_ci (sql : string) : bool :=
  starts_ci "INSERT" (strip sql)
  || starts_ci "DELETE" (strip sql)
  || starts_ci "UPDATE" (strip sql).

(** The failure sentinels that [run_simulated_dml_query] looks for. *)
Definition carries_failure_sentinel (sql : string) : bool :=
  contains "Error generating DML" sql || contains "Command too vague" sql.

Definition is_error_text (t : string) : bool := startswith "Error:" t.

(** [n] successive calls of [get_schema], with the texts they returned. *)
Fixpoint get_schema_times (db : option Db) (n : nat) : Eff (list string) :=
  match n with
  | O => eff_ret []
  | S k =>
      eff_bind (get_schema db) (fun t =>
      eff_bind (get_schema_times db k) (fun ts => eff_ret (t :: ts)))
  end.

Definition is_table_info_call (e : effect) : bool :=
  match e with EDbGetTableInfo => true | _ => false end.

Definition table_info_calls (l : list effect) : nat :=
  List.length (filter is_table_info_call l).

(** A pending confirmation is accounted for by a trace of calls when its
    statement is a text the DML generation chain returned, that text did
    not start with the refusal sentinel, and its action is one of the two
    verbs of the handler. *)
Definition justified (tr : list effect) (p : confirmation) : Prop :=
  In (ELlmGenerateDml (Ok (pc_sql p))) tr
  /\ is_dml_refusal (pc_sql p) = false
  /\ (pc_action p = "add" \/ pc_action p = "delete").

(** The details the generation prompt receives (lines 602-611), when the
    input method is one of the two the script knows. *)
Definition structured_details (s : session) : option string :=
  if opt_str_eqb (dml_input_method s) "form"
  then Some (form_details (dml_form_inputs s))
  else if opt_str_eqb (dml_input_method s) "text"
  then Some (dml_text_details s)
  else None.

(** [guidance.get("target_table", "Unknown")] *)
Definition target_table_of (guidance : dict pyval) : pyval :=
  match dict_get guidance "target_table" with
  | Some v => v
  | None => VStr "Unknown"
  end.

(** The answer of the DML generation chain for an action verb and the
    details of a session. *)
Definition generated_dml (env : Env) (action_verb details : string)
  : result string :=
  fst (dml_generation_chain env (upper action_verb) (action_desc_of action_verb)
         details (fst (get_schema (env_db env)))).

(** The calls made while replaying a list of user interactions, after
    those of [tr]. *)
Fixpoint replay_trace (env : Env) (uis : list UI) (s : session)
    (tr : list effect) : list effect :=
  match uis with
  | [] => tr
  | ui :: rest =>
      replay_trace env rest (run_session env ui s)
        (tr ++ effects (run env ui s))%list
  end.

(** The Fill Form button is enabled for this guidance. *)
Definition form_enabled (guidance : option (dict pyval)) : bool :=
  match guidance with
  | Some g => dict_truthy g && negb (form_disabled g)
  | None => false
  end.

(** What holds of a session in the details stage: the input method is
    "text" and there is a guidance object, or it is "form" and the guidance
    is one for which the Fill Form button is enabled. *)
Definition details_stage_ok (s : session) : Prop :=
  ui_stage s = StageDetails ->
  (dml_input_method s = Some "text"
   /\ opt_truthy dict_truthy (dml_guidance_message s) = true)
  \/ (dml_input_method s = Some "form"
      /\ form_enabled (dml_guidance_message s) = true).

(** A property of the world that every step of a computation keeps,
    whether the computation ends early or not. *)
Definition preserves {A} (I : world -> Prop) (m : Script A) : Prop :=
  forall w, I w -> I (snd (m w)).

(** A pending confirmation of the session is accounted for by the calls
    made before the run ([tr0]) and during it. *)
Definition pending_accounted (tr0 : list effect) (w : world) : Prop :=
  forall p, pending_dml_confirmation (ss w) = Some p ->
            justified (tr0 ++ effects w) p.

Definition details_ok (w : world) : Prop := details_stage_ok (ss w).

(** The text of the error message the two [except] clauses build
    (lines 637 and 642). *)
Definition exception_text (env : Env) (e : exn) : string :=
  if exn_is_json_decode_error e then
    "AI response format error (not valid JSON): " ++ exn_str e
    ++ ". The LLM might have responded in plain text instead of JSON."
  else
    "An unexpected error occurred: " ++ exn_str e ++ nl ++ env_format_exc env e.

(** The session after an exception in the processing block. *)
Definition after_exception (env : Env) (e : exn) (s : session) : session :=
  set_current_action None
    (append_message (assistant (error_reply (exception_text env e))) s).

(** The answer of the guidance chain for an action verb and a session. *)
Definition guidance_answer (env : Env) (action_verb : string) (s : session)
  : result (dict pyval) :=
  fst (dml_guidance_chain env action_verb (action_desc_of action_verb)
         (dml_initial_description s) (fst (get_schema (env_db env)))).

(** The session after a chat turn answered with the reply [r]
    (lines 578-579). *)
Definition after_reply (r : reply) (s : session) : session :=
  set_current_action None (append_message (assistant r) s).

(** The five response types the intent prompt defines. *)
Definition response_types : list string :=
  ["SELECT_QUERY"; "CLARIFICATION_NEEDED_FOR_SELECT"; "DML_INTENT_DETECTED";
   "DATABASE_OVERVIEW_REQUEST"; "GENERAL_RESPONSE"].

(** The values the script gives to [current_action]. *)
Definition known_actions : list string :=
  ["add_data_initial_input"; "delete_data_initial_input"; "summarize_db";
   "process_initial_dml_description_add"; "process_initial_dml_description_delete";
   "awaiting_dml_input_method_add"; "awaiting_dml_input_method_delete";
   "awaiting_structured_dml_details_add"; "awaiting_structured_dml_details_delete";
   "process_structured_dml_add"; "process_structured_dml_delete";
   "process_chat_input"].

Definition known_action (ca : option string) : bool :=
  match ca with
  | None => true
  | Some a => in_list a known_actions
  end.

(** The current action is one the script sets, and the generation step is
    only entered with an input method. *)
Definition session_wf (s : session) : Prop :=
  known_action (current_action s) = true
  /\ (ca_in (current_action s)
        ["process_structured_dml_add"; "process_structured_dml_delete"] = true ->
      dml_input_method s = Some "form" \/ dml_input_method s = Some "text").

Definition world_wf (w : world) : Prop := session_wf (ss w).

(** Every statement in ASCII that a trace sent to the database starts,
    whatever the case of its letters, with SELECT. *)
Definition read_only (tr : list effect) : Prop :=
  forall q, In (EDbRun q) tr -> is_ascii q = true ->
            starts_ci "SELECT" q = true.

Definition effects_read_only (w : world) : Prop := read_only (effects w).

(** The outcome of a step is the conversation [before] it when the run
    goes on after the step, and [before] with at most one message more when
    the step ends the run. *)
Definition grown_from {A} (before : list message) (r : (A + ending) * world)
  : Prop :=
  match fst r with
  | inl _ => messages (ss (snd r)) = before
  | inr _ =>
      exists l, messages (ss (snd r)) = (before ++ l)%list
                /\ List.length l <= 1
  end.

Definition appends_at_most_one {A} (m : Script A) : Prop :=
  forall w, grown_from (messages (ss w)) (m w).

(** How the chat history shows the raw result of a query (lines 520-532):
    in the raw output expander, as an error, or not at all. *)
Inductive result_view := ViewRawOutput | ViewError | ViewHidden.

Definition sql_result_view (sql_result_display : option string) : result_view :=
  match sql_result_display with
  | Some t =>
      if truthy t
         && negb (contains "Skipping execution" t
                  || contains "Error executing SELECT query" t)
      then ViewRawOutput
      else if truthy t && contains "Error executing SELECT query" t
      then ViewError
      else ViewHidden
  | None => ViewHidden
  end.

(** The boxes of the defensive branches of the details stage (lines
    427-428, 435-436, 450-451, 470-471) and of the generation step (lines
    610-611). *)
Definition defensive_notice (n : notice) : bool :=
  match n with
  | Error t =>
      String.eqb t "Error: DML guidance is missing. Please restart the Add/Delete action."
      || String.eqb t "Input method not selected. Please restart the Add/Delete action."
      || String.eqb t "DML Input method not determined."
  | Warning t =>
      String.eqb t "No specific fields were suggested by the AI. Please use the 'Describe in Text' option or ensure your initial description was clear."
      || String.eqb t "Cannot proceed with form as no fields were suggested. Try 'Describe in Text'."
  end.

Definition quiet (nts : list notice) : Prop :=
  forall n, In n nts -> defensive_notice n = false.

(** The invariants of the session together with a run that has shown no
    box of a defensive branch so far. *)
Definition guarded_world (w : world) : Prop :=
  details_ok w /\ world_wf w /\ quiet (notices w).

(** A string is trimmed on the left when it is empty or starts with a
    character that is no white space. *)
Definition left_trimmed (s : string) : bool :=
  match s with
  | EmptyString => true
  | String c _ => negb (is_space c)
  end.

(** A step of the script shows no box of a defensive branch. *)
Definition quiet_after {A} (m : Script A) : Prop :=
  forall w, guarded_world w -> quiet (notices (snd (m w))).

(** Fixtures: a connected database, a model with fixed answers, and the
    user interactions of a complete Add flow through the form. *)
Module Demo.

Definition db : Db :=
  {| db_get_table_info := Ok "CREATE TABLE Artist (ArtistId INT, Name TEXT)";
     db_run := fun _ => Ok "[(1, 'AC/DC')]" |}.

Definition guidance : dict pyval :=
  [("response_type", VStr "DML_GUIDANCE_PROVIDED");
   ("target_table", VStr "Artist");
   ("suggested_fields", VList ["Name"]);
   ("guidance_text", VStr "To add data for table Artist, please provide details.")].

(** The fallback the guidance prompt asks for when the description is too
    vague. *)
Definition vague_guidance : dict pyval :=
  [("response_type", VStr "DML_GUIDANCE_PROVIDED");
   ("target_table", VStr "Unknown");
   ("suggested_fields", VList []);
   ("guidance_text", VStr "Your description is a bit too general.")].

(** A model whose guidance is [g] and whose DML generation answers
    [generated]. *)
Definition llm (g : dict pyval) (generated : string) : Llm :=
  {| llm_sql_intent := fun _ _ =>
       Ok {| ij_response_type := Some "GENERAL_RESPONSE";
             ij_generated_sql := None;
             ij_ai_response := Some "Hello." |};
     llm_nl_response := fun _ _ _ => Ok "There is one artist.";
     llm_dml_guidance := fun _ _ _ _ => Ok g;
     llm_dml_generation := fun _ _ _ _ => Ok generated;
     llm_db_summary := fun _ => Ok "A music store." |}.

Definition env (generated : string) : Env :=
  {| env_db := Some db; env_llm := llm guidance generated;
     env_format_exc := fun _ => "Traceback (most recent call last)" |}.

Definition vague_env : Env :=
  {| env_db := Some db; env_llm := llm vague_guidance "";
     env_format_exc := fun _ => "Traceback (most recent call last)" |}.

(** Every text widget shows [text]; [b] is clicked. *)
Definition click (b : button) (text : string) : UI :=
  {| ui_trigger := Click b; ui_text := fun _ => text |}.

(** The rerun that follows [st.rerun()]. *)
Definition rerun (text : string) : UI :=
  {| ui_trigger := NoTrigger; ui_text := fun _ => text |}.

Definition chat (text : string) : UI :=
  {| ui_trigger := ChatSubmit text; ui_text := fun _ => "" |}.

Definition to_initial_input : list UI :=
  [click BtnAddData ""; rerun ""].

Definition to_input_method : list UI :=
  (to_initial_input
   ++ [click BtnGetGuidance "add a new artist named Test Band";
       rerun "add a new artist named Test Band"; rerun ""])%list.

Definition to_confirmation : list UI :=
  (to_input_method
   ++ [click BtnFillForm ""; rerun "";
       click BtnFormSubmit "Test Band"; rerun "Test Band"])%list.


End Demo.

(** Further fixtures: a model that answers every prompt with text that is
    no JSON, a model whose guidance is the empty object, and a model that
    answers a question with a query. *)
Module Cases.

Definition broken_json : exn :=
  {| exn_is_json_decode_error := true;
     exn_str := "Expecting value: line 1 column 1 (char 0)" |}.

Definition failing_llm : Llm :=
  {| llm_sql_intent := fun _ _ => Raise broken_json;
     llm_nl_response := fun _ _ _ => Raise broken_json;
     llm_dml_guidance := fun _ _ _ _ => Raise broken_json;
     llm_dml_generation := fun _ _ _ _ => Raise broken_json;
     llm_db_summary := fun _ => Raise broken_json |}.

Definition failing_env : Env :=
  {| env_db := Some Demo.db; env_llm := failing_llm;
     env_format_exc := fun _ => "Traceback (most recent call last)" |}.

Definition empty_guidance_env : Env :=
  {| env_db := Some Demo.db; env_llm := Demo.llm [] "";
     env_format_exc := fun _ => "Traceback (most recent call last)" |}.




(** A model that classifies every question as a request for an overview. *)
Definition overview_llm : Llm :=
  {| llm_sql_intent := fun _ _ =>
       Ok {| ij_response_type := Some "DATABASE_OVERVIEW_REQUEST";
             ij_generated_sql := None;
             ij_ai_response := None |};
     llm_nl_response := fun _ _ _ => Ok "There is one artist.";
     llm_dml_guidance := fun _ _ _ _ => Ok Demo.guidance;
     llm_dml_generation := fun _ _ _ _ => Ok "";
     llm_db_summary := fun _ => Ok "A music store." |}.

Definition overview_env : Env :=
  {| env_db := Some Demo.db; env_llm := overview_llm;
     env_format_exc := fun _ => "Traceback (most recent call last)" |}.

(** A session no run produces: the details stage without guidance. *)
Definition details_without_guidance : session :=
  set_current_action (Some "awaiting_structured_dml_details_add") init_session.

End Cases.

(* ===================================================================== *)
(** * Properties *)
(* ===================================================================== *)

(** ** Strings *)

(** The program's test [startswith p (upper s)] is the specification's
    case-insensitive prefix test whenever the keyword is upper case. *)
Lemma startswith_upper_ci p : upper p = p ->
  forall s, startswith p (upper s) = starts_ci p s.
Proof.
  induction p as [|a p IH]; intros Hp s; [destruct s; reflexivity|].
  injection Hp as Ha Hp'. destruct s as [|b s]; [reflexivity|].
  cbn [upper map_chars startswith starts_ci].
  fold (upper s). rewrite (IH Hp'), Ha. reflexivity.
Qed.

Example strip_example : strip "  select 1 ;  " = "select 1 ;".
Proof. reflexivity. Qed.

Example parse_example :
  SimpleStrParser_parse "```sql
DELETE FROM Artist WHERE ArtistId = 7
```" = "DELETE FROM Artist WHERE ArtistId = 7".
Proof. reflexivity. Qed.

(** ** Unicode text: what [upper] and [strip] do to ASCII text *)

Lemma upper_char_ascii c :
  (c < 128)%N -> PyUnicode.upper_char c = [PyUnicode.fold_ascii c].
Proof.
  intros Hc.
  assert (Hall : forallb
            (fun n => match PyUnicode.upper_char (N.of_nat n) with
                      | [u] => N.eqb u (PyUnicode.fold_ascii (N.of_nat n))
                      | _ => false
                      end) (seq 0 128) = true)
    by (vm_compute; reflexivity).
  rewrite forallb_forall in Hall.
  specialize (Hall (N.to_nat c)). rewrite N2Nat.id in Hall.
  assert (Hin : In (N.to_nat c) (seq 0 128)) by (apply in_seq; lia).
  specialize (Hall Hin).
  destruct (PyUnicode.upper_char c) as [|u [|v r]]; try discriminate.
  apply N.eqb_eq in Hall. now subst.
Qed.

Lemma is_ascii_lstrip s :
  PyUnicode.is_ascii s = true -> PyUnicode.is_ascii (PyUnicode.lstrip s) = true.
Proof.
  induction s as [|c r IH]; [reflexivity|].
  intros H. cbn [PyUnicode.lstrip].
  destruct (PyUnicode.is_space c); [|exact H].
  apply IH. cbn in H. now apply andb_true_iff in H.
Qed.

Lemma is_ascii_rstrip s :
  PyUnicode.is_ascii s = true -> PyUnicode.is_ascii (PyUnicode.rstrip s) = true.
Proof.
  induction s as [|c r IH]; [reflexivity|].
  intros H. cbn in H. apply andb_true_iff in H. destruct H as [Hc Hr].
  cbn [PyUnicode.rstrip]. specialize (IH Hr).
  destruct (PyUnicode.rstrip r) as [|x r'].
  - destruct (PyUnicode.is_space c); [reflexivity|]. cbn. now rewrite Hc.
  - cbn [PyUnicode.is_ascii forallb] in *. now rewrite Hc.
Qed.

Lemma is_ascii_strip s :
  PyUnicode.is_ascii s = true -> PyUnicode.is_ascii (PyUnicode.strip s) = true.
Proof. intros H. now apply is_ascii_rstrip, is_ascii_lstrip. Qed.

(** On ASCII text the program's test, a prefix of the upper-cased text, is
    the letter-wise comparison. *)
Lemma startswith_upper_ascii p :
  forallb (fun a => N.eqb (PyUnicode.fold_ascii a) a) p = true ->
  forall s, PyUnicode.is_ascii s = true ->
  PyUnicode.startswith p (PyUnicode.upper s) = PyUnicode.starts_ci p s.
Proof.
  induction p as [|a p IH]; intros Hp s Hs; [reflexivity|].
  cbn in Hp. apply andb_true_iff in Hp. destruct Hp as [Ha Hp].
  apply N.eqb_eq in Ha.
  destruct s as [|c s]; [reflexivity|].
  cbn in Hs. apply andb_true_iff in Hs. destruct Hs as [Hc Hs].
  apply N.ltb_lt in Hc.
  unfold PyUnicode.upper. cbn [flat_map]. rewrite (upper_char_ascii c Hc).
  cbn [app PyUnicode.startswith PyUnicode.starts_ci].
  fold (PyUnicode.upper s). rewrite (IH Hp s Hs), Ha. reflexivity.
Qed.

Lemma select_prefix_ascii sql :
  PyUnicode.is_ascii sql = true ->
  PyUnicode.startswith (PyUnicode.points "SELECT")
    (PyUnicode.upper (PyUnicode.strip sql))
  = Unicode.starts_select_ci sql.
Proof.
  intros H. unfold Unicode.starts_select_ci.
  apply startswith_upper_ascii; [reflexivity | now apply is_ascii_strip].
Qed.

Lemma dml_prefix_ascii sql :
  PyUnicode.is_ascii sql = true ->
  Unicode.dml_prefix sql = Unicode.starts_dml_ci sql.
Proof.
  intros H. unfold Unicode.dml_prefix, Unicode.starts_dml_ci.
  rewrite !startswith_upper_ascii;
    first [reflexivity | now apply is_ascii_strip].
Qed.

Lemma dml_prefix_truthy sql :
  Unicode.dml_prefix sql = true -> PyUnicode.truthy sql = true.
Proof. destruct sql; [discriminate | reflexivity]. Qed.

(** ** The ASCII model is the restriction of the Unicode one *)

Lemma N_of_ascii_eqb a b : N.eqb (N_of_ascii a) (N_of_ascii b) = Ascii.eqb a b.
Proof.
  destruct (Ascii.eqb_spec a b) as [->|Hn]; [apply N.eqb_refl|].
  apply N.eqb_neq. intros H. apply Hn.
  rewrite <- (ascii_N_embedding a), <- (ascii_N_embedding b). now rewrite H.
Qed.

Lemma points_cons c r :
  PyUnicode.points (String c r) = N_of_ascii c :: PyUnicode.points r.
Proof. reflexivity. Qed.

Lemma points_app a b :
  PyUnicode.points (a ++ b) = (PyUnicode.points a ++ PyUnicode.points b)%list.
Proof.
  induction a as [|c a IH]; [reflexivity|].
  cbn [append]. rewrite !points_cons, IH. reflexivity.
Qed.

Lemma points_truthy s : PyUnicode.truthy (PyUnicode.points s) = truthy s.
Proof. destruct s; reflexivity. Qed.

Lemma points_startswith p :
  forall s, PyUnicode.startswith (PyUnicode.points p) (PyUnicode.points s)
            = startswith p s.
Proof.
  induction p as [|a p IH]; intros s; [reflexivity|].
  destruct s as [|b s]; [reflexivity|].
  rewrite !points_cons. cbn [PyUnicode.startswith startswith].
  now rewrite N_of_ascii_eqb, IH.
Qed.

Lemma points_contains p s :
  PyUnicode.contains (PyUnicode.points p) (PyUnicode.points s) = contains p s.
Proof.
  induction s as [|b s IH].
  - destruct p; reflexivity.
  - rewrite points_cons. cbn [PyUnicode.contains contains].
    rewrite <- points_cons, points_startswith, IH. reflexivity.
Qed.

Lemma is_space_agrees c :
  (N_of_ascii c < 128)%N -> PyUnicode.is_space (N_of_ascii c) = is_space c.
Proof.
  destruct c as [b0 b1 b2 b3 b4 b5 b6 b7]. intros H.
  destruct b7; [exfalso; destruct b0, b1, b2, b3, b4, b5, b6;
                vm_compute in H; discriminate H|].
  destruct b0, b1, b2, b3, b4, b5, b6; reflexivity.
Qed.

Lemma upper_char_agrees c :
  (N_of_ascii c < 128)%N ->
  PyUnicode.upper_char (N_of_ascii c) = [N_of_ascii (upper_char c)].
Proof.
  destruct c as [b0 b1 b2 b3 b4 b5 b6 b7]. intros H.
  destruct b7; [exfalso; destruct b0, b1, b2, b3, b4, b5, b6;
                vm_compute in H; discriminate H|].
  destruct b0, b1, b2, b3, b4, b5, b6; vm_compute; reflexivity.
Qed.

Lemma is_ascii_cons c r :
  is_ascii (String c r) = true ->
  (N_of_ascii c < 128)%N /\ is_ascii r = true.
Proof.
  unfold is_ascii. rewrite points_cons. cbn [PyUnicode.is_ascii forallb].
  intros H. apply andb_true_iff in H. destruct H as [Hc Hr].
  split; [now apply N.ltb_lt | exact Hr].
Qed.

Lemma points_lstrip s :
  is_ascii s = true ->
  PyUnicode.lstrip (PyUnicode.points s) = PyUnicode.points (lstrip s).
Proof.
  induction s as [|c r IH]; [reflexivity|].
  intros H. apply is_ascii_cons in H. destruct H as [Hc Hr].
  rewrite points_cons. cbn [PyUnicode.lstrip lstrip].
  rewrite (is_space_agrees c Hc).
  destruct (is_space c); [now apply IH | reflexivity].
Qed.

Lemma points_nil s : PyUnicode.points s = [] -> s = "".
Proof. destruct s; [reflexivity | discriminate]. Qed.

Lemma points_rstrip s :
  is_ascii s = true ->
  PyUnicode.rstrip (PyUnicode.points s) = PyUnicode.points (rstrip s).
Proof.
  induction s as [|c r IH]; [reflexivity|].
  intros H. apply is_ascii_cons in H. destruct H as [Hc Hr].
  rewrite points_cons. cbn [PyUnicode.rstrip rstrip].
  rewrite (IH Hr), (is_space_agrees c Hc).
  destruct (rstrip r) as [|x r']; [|reflexivity].
  cbn [PyUnicode.points list_ascii_of_string map].
  destruct (is_space c); reflexivity.
Qed.

Lemma is_ascii_lstrip_string s : is_ascii s = true -> is_ascii (lstrip s) = true.
Proof.
  intros H. unfold is_ascii. rewrite <- (points_lstrip s H).
  now apply is_ascii_lstrip.
Qed.

Lemma points_strip s :
  is_ascii s = true ->
  PyUnicode.strip (PyUnicode.points s) = PyUnicode.points (strip s).
Proof.
  intros H. unfold PyUnicode.strip, strip.
  rewrite (points_lstrip s H). apply points_rstrip.
  now apply is_ascii_lstrip_string.
Qed.

Lemma is_ascii_strip_string s : is_ascii s = true -> is_ascii (strip s) = true.
Proof.
  intros H. unfold is_ascii. rewrite <- (points_strip s H).
  now apply is_ascii_strip.
Qed.

Lemma points_upper s :
  is_ascii s = true ->
  PyUnicode.upper (PyUnicode.points s) = PyUnicode.points (upper s).
Proof.
  induction s as [|c r IH]; [reflexivity|].
  intros H. apply is_ascii_cons in H. destruct H as [Hc Hr].
  rewrite points_cons. unfold PyUnicode.upper. cbn [flat_map].
  fold (PyUnicode.upper (PyUnicode.points r)).
  rewrite (upper_char_agrees c Hc), (IH Hr). reflexivity.
Qed.

(** On ASCII text the guard of the ASCII model is the guard on Unicode
    text. *)
Lemma select_guard_agrees s :
  is_ascii s = true ->
  Unicode.select_guard_refuses (PyUnicode.points s) = select_guard_refuses s.
Proof.
  intros H. unfold Unicode.select_guard_refuses, select_guard_refuses.
  rewrite points_truthy, !points_contains, (points_strip s H),
    (points_upper _ (is_ascii_strip_string s H)), points_startswith.
  reflexivity.
Qed.

Lemma run_simulated_dml_query_agrees sql action :
  is_ascii sql = true ->
  Unicode.run_simulated_dml_query (PyUnicode.points sql) (PyUnicode.points action)
  = (PyUnicode.points (fst (run_simulated_dml_query sql action)), []).
Proof.
  intros H. unfold Unicode.run_simulated_dml_query, run_simulated_dml_query,
    Unicode.dml_prefix, Unicode.simulated_success, simulated_success, eff_ret.
  rewrite points_truthy, !points_contains, (points_strip sql H),
    (points_upper _ (is_ascii_strip_string sql H)), !points_startswith.
  repeat match goal with
         | |- context [if ?b then _ else _] => destruct b
         end; cbn [fst]; rewrite !points_app; reflexivity.
Qed.

(** ** QueryExecutor *)

Lemma select_guard_spec sql :
  select_guard_refuses sql =
  negb (truthy sql) || contains "Cannot answer" sql
  || contains "Error: SQL not generated" sql || negb (starts_select_ci sql).
Proof.
  unfold select_guard_refuses, starts_select_ci.
  now rewrite startswith_upper_ci.
Qed.

(** C2, as the specification words it, fails: the text [select 1] whose
    first letter is U+017F does not start with SELECT in any letter case,
    and it is sent to the database, because [str.upper()] turns U+017F
    into S. *)
Lemma long_s_select_is_executed :
  Unicode.starts_select_ci Unicode.long_s_select = false
  /\ Unicode.run_select_query (Some Unicode.demo_db) Unicode.long_s_select
     = (PyUnicode.points "[(1,)]", [Unicode.long_s_select]).
Proof. split; vm_compute; reflexivity. Qed.

(** C2, amended.  With a live connection, a query text that is empty,
    carries one of the two sentinels, or whose trimmed text, upper-cased
    by [str.upper()], does not start with SELECT gets the fixed skip
    message, and no statement is sent to the database.  For ASCII text the
    last test is the case-insensitive comparison with SELECT. *)
Theorem run_select_query_refuses (d : Unicode.Db) (sql : PyUnicode.text) :
  (sql = []
   \/ PyUnicode.contains (PyUnicode.points "Cannot answer") sql = true
   \/ PyUnicode.contains (PyUnicode.points "Error: SQL not generated") sql = true
   \/ PyUnicode.startswith (PyUnicode.points "SELECT")
        (PyUnicode.upper (PyUnicode.strip sql)) = false ->
   Unicode.run_select_query (Some d) sql = (Unicode.skip_msg, []))
  /\ (PyUnicode.is_ascii sql = true ->
      Unicode.starts_select_ci sql = false ->
      Unicode.run_select_query (Some d) sql = (Unicode.skip_msg, [])).
Proof.
  assert (H1 : sql = []
     \/ PyUnicode.contains (PyUnicode.points "Cannot answer") sql = true
     \/ PyUnicode.contains (PyUnicode.points "Error: SQL not generated") sql = true
     \/ PyUnicode.startswith (PyUnicode.points "SELECT")
          (PyUnicode.upper (PyUnicode.strip sql)) = false ->
     Unicode.run_select_query (Some d) sql = (Unicode.skip_msg, [])).
  { intros H. unfold Unicode.run_select_query, Unicode.select_guard_refuses.
    destruct H as [-> | [-> | [-> | ->]]];
      rewrite ?orb_true_r; reflexivity. }
  split; [exact H1|].
  intros Ha Hci. apply H1. right; right; right.
  now rewrite select_prefix_ascii.
Qed.

Lemma run_select_query_refuses_witness :
  Unicode.run_select_query (Some Unicode.demo_db)
    (PyUnicode.points "DROP TABLE Artist")
  = (Unicode.skip_msg, []).
Proof.
  exact (proj2 (run_select_query_refuses Unicode.demo_db
                  (PyUnicode.points "DROP TABLE Artist"))
           eq_refl eq_refl).
Defined.

(** A text that passes the guard is sent, trimmed, to the database. *)
Lemma run_select_query_executes (d : Db) (sql : string) :
  select_guard_refuses sql = false ->
  snd (run_select_query (Some d) sql) = [EDbRun (strip sql)].
Proof.
  intros H. unfold run_select_query. rewrite H. simpl.
  destruct (db_run d (strip sql)); reflexivity.
Qed.

(** ** Simulated execution *)

(** C3, as the specification words it, fails: a statement that starts with
    DELETE and quotes a failure sentinel is refused. *)
Lemma simulate_refuses_sentinel_in_dml :
  let sql := "DELETE FROM Notes WHERE Body = 'Command too vague'" in
  starts_dml_ci sql = true
  /\ fst (run_simulated_dml_query sql "delete") <> simulated_success "delete"
  /\ fst (run_simulated_dml_query sql "delete")
     = "Error: Could not simulate delete due to issues with the DML command.".
Proof.
  cbv zeta. split; [reflexivity|]. split; [|reflexivity].
  vm_compute. discriminate.
Qed.

(** The text [insert into t values (1)] whose first letter is U+0131 does
    not start with INSERT in any letter case, and it is accepted, because
    [str.upper()] turns U+0131 into I. *)
Example dotless_i_insert_is_simulated :
  Unicode.starts_dml_ci Unicode.dotless_i_insert = false
  /\ fst (Unicode.run_simulated_dml_query Unicode.dotless_i_insert
            (PyUnicode.points "add"))
     = Unicode.simulated_success (PyUnicode.points "add").
Proof. split; vm_compute; reflexivity. Qed.

(** C3, amended.  [run_simulated_dml_query] sends nothing to the database.
    It returns the simulated-success text exactly for the statements that
    carry no failure sentinel and whose trimmed text, upper-cased by
    [str.upper()], starts with INSERT, DELETE or UPDATE; every other text
    gets an error string.  For ASCII text the prefix test is the
    case-insensitive comparison. *)
Theorem run_simulated_dml_query_spec (sql action : PyUnicode.text) :
  snd (Unicode.run_simulated_dml_query sql action) = []
  /\ (Unicode.carries_failure_sentinel sql = false ->
      Unicode.dml_prefix sql = true ->
      fst (Unicode.run_simulated_dml_query sql action)
      = Unicode.simulated_success action)
  /\ (Unicode.carries_failure_sentinel sql = true
      \/ Unicode.dml_prefix sql = false ->
      Unicode.is_error_text (fst (Unicode.run_simulated_dml_query sql action))
      = true
      /\ fst (Unicode.run_simulated_dml_query sql action)
         <> Unicode.simulated_success action)
  /\ (PyUnicode.is_ascii sql = true ->
      Unicode.dml_prefix sql = Unicode.starts_dml_ci sql).
Proof.
  split; [|split; [|split; [|apply dml_prefix_ascii]]].
  - unfold Unicode.run_simulated_dml_query.
    repeat match goal with
           | |- context [if ?b then _ else _] => destruct b
           end; reflexivity.
  - unfold Unicode.run_simulated_dml_query, Unicode.carries_failure_sentinel.
    intros Hs Hp. rewrite (dml_prefix_truthy sql Hp), Hp.
    apply orb_false_iff in Hs. destruct Hs as [-> ->]. reflexivity.
  - unfold Unicode.run_simulated_dml_query, Unicode.carries_failure_sentinel,
      Unicode.is_error_text, Unicode.simulated_success.
    intros H.
    destruct (PyUnicode.truthy sql); cbn [negb orb];
      destruct (PyUnicode.contains (PyUnicode.points "Error generating DML") sql);
      destruct (PyUnicode.contains (PyUnicode.points "Command too vague") sql);
      destruct (Unicode.dml_prefix sql); cbn [negb orb fst];
      try (destruct H as [H|H]; discriminate H);
      (split; [reflexivity | discriminate]).
Qed.

Lemma run_simulated_dml_query_spec_witness :
  fst (Unicode.run_simulated_dml_query
         (PyUnicode.points "  update Artist set Name = 'X' where ArtistId = 1")
         (PyUnicode.points "add"))
  = Unicode.simulated_success (PyUnicode.points "add").
Proof.
  exact (proj1 (proj2 (run_simulated_dml_query_spec
                         (PyUnicode.points
                            "  update Artist set Name = 'X' where ArtistId = 1")
                         (PyUnicode.points "add")))
           eq_refl eq_refl).
Defined.

(** ** SchemaProvider *)

(** C6, as the specification words it, fails: a second call of
    [get_schema] queries the database again. *)
Lemma get_schema_queries_again :
  table_info_calls (snd (get_schema_times (Some Demo.db) 2)) = 2
  /\ snd (get_schema_times (Some Demo.db) 2) = [EDbGetTableInfo; EDbGetTableInfo].
Proof. split; reflexivity. Qed.

(** C6, amended.  [get_schema] is a total function to text.  Without a
    connection it returns the fixed sentinel and calls nothing.  With a
    connection every call asks the database for its table information:
    the text is that information, or an error text that embeds the
    message of the exception; [n] calls make [n] queries. *)
Theorem get_schema_spec (db : option Db) :
  match db with
  | None => get_schema None = (no_connection_msg, [])
  | Some d =>
      snd (get_schema (Some d)) = [EDbGetTableInfo]
      /\ fst (get_schema (Some d))
         = match db_get_table_info d with
           | Ok info => info
           | Raise e => "Error getting schema: " ++ exn_str e
           end
      /\ forall n, table_info_calls (snd (get_schema_times (Some d) n)) = n
  end.
Proof.
  destruct db as [d|]; [|reflexivity].
  assert (H1 : snd (get_schema (Some d)) = [EDbGetTableInfo])
    by (unfold get_schema; simpl; destruct (db_get_table_info d); reflexivity).
  split; [exact H1|]. split.
  - unfold get_schema; simpl; destruct (db_get_table_info d); reflexivity.
  - induction n as [|n IH]; [reflexivity|].
    cbn [get_schema_times]. unfold eff_bind at 1.
    destruct (get_schema (Some d)) as [t l1] eqn:E1.
    unfold eff_bind, eff_ret.
    destruct (get_schema_times (Some d) n) as [ts l2] eqn:E2.
    cbn [snd] in *. subst l1.
    rewrite app_nil_r. cbn. unfold table_info_calls in IH. now rewrite IH.
Qed.

(** ** The dialogue script: symbolic execution of one run *)

#[local] Arguments strip : simpl never.
#[local] Arguments ui_stage : simpl never.
#[local] Arguments form_disabled : simpl never.
#[local] Arguments SimpleStrParser_parse : simpl never.

Ltac unfold_script :=
  unfold run_ending, run_session, run, script, fresh,
    quick_actions, dml_stages, stage_initial_input, stage_input_method,
    stage_details, stage_confirmation, chat_input, process_actions,
    process_chat_input, process_initial_dml_description,
    process_structured_dml, summarize_db, finish_chat, invoke,
    handle_exception, when, bind, ret, get, assign, show, lift,
    st_rerun, st_stop.

(** Case analysis on whatever test blocks the evaluation of the goal. *)
Ltac split_tests :=
  repeat (match goal with
          | |- context [if ?b then _ else _] => destruct b eqn:?
          | |- context [match ?x with _ => _ end] => destruct x eqn:?
          end; cbn).

(** Run the script on a session in a known stage. *)
Ltac run_in_stage Hs :=
  unfold_script; cbn; rewrite ?Hs; cbn.

Lemma in_list2 a x y : in_list a [x; y] = true -> a = x \/ a = y.
Proof.
  unfold in_list; simpl. rewrite orb_false_r. intros H.
  apply orb_true_iff in H.
  destruct H as [H|H]; apply String.eqb_eq in H; auto.
Qed.

Lemma ca_in2 ca x y : ca_in ca [x; y] = true -> ca = Some x \/ ca = Some y.
Proof.
  destruct ca as [a|]; [|discriminate]. simpl. intros H.
  apply in_list2 in H. destruct H; subst; auto.
Qed.

Ltac split_stage :=
  unfold ui_stage;
  repeat match goal with
         | |- context [if ?b then _ else _] => destruct b eqn:?
         end;
  try discriminate.

Lemma stage_initial_input_inv s :
  ui_stage s = StageInitialInput ->
  current_action s = Some "add_data_initial_input"
  \/ current_action s = Some "delete_data_initial_input".
Proof. split_stage. intros _. now apply ca_in2. Qed.

Lemma stage_input_method_inv s :
  ui_stage s = StageInputMethod ->
  current_action s = Some "awaiting_dml_input_method_add"
  \/ current_action s = Some "awaiting_dml_input_method_delete".
Proof. split_stage. intros _. now apply ca_in2. Qed.

Lemma stage_details_inv s :
  ui_stage s = StageDetails ->
  current_action s = Some "awaiting_structured_dml_details_add"
  \/ current_action s = Some "awaiting_structured_dml_details_delete".
Proof. split_stage. intros _. now apply ca_in2. Qed.

Lemma stage_confirmation_inv s :
  ui_stage s = StageConfirmation ->
  exists p, pending_dml_confirmation s = Some p.
Proof.
  split_stage. intros _.
  destruct (pending_dml_confirmation s) as [p|]; [eauto | discriminate].
Qed.

(** ** Reachability of replayed interactions *)

Lemma reachable_run env ui s : reachable s -> reachable (run_session env ui s).
Proof. intros [tr H]. eexists. apply (reach_run _ _ env ui H). Qed.

Lemma reachable_replay env uis :
  forall s, reachable s -> reachable (replay env uis s).
Proof.
  induction uis as [|ui uis IH]; intros s H; [exact H|].
  apply IH. now apply reachable_run.
Qed.

Lemma reachable_init : reachable init_session.
Proof. exists []. constructor. Qed.

(** ** Cancelling *)

(** C5, as the specification words it, fails: after a complete Add flow,
    cancelling the confirmation leaves the guidance of that flow in the
    session. *)
Lemma cancel_confirmation_keeps_guidance :
  let env := Demo.env "INSERT INTO Artist (Name) VALUES ('Test Band')" in
  let s := replay env Demo.to_confirmation init_session in
  let s' := run_session env (Demo.click BtnCancelConfirm "") s in
  reachable s
  /\ ui_stage s = StageConfirmation
  /\ current_action s' = None
  /\ pending_dml_confirmation s' = None
  /\ dml_guidance_message s' = Some Demo.guidance
  /\ dml_guidance_message s' <> None.
Proof.
  cbv zeta. split; [apply reachable_replay, reachable_init|].
  repeat split; try reflexivity. vm_compute. discriminate.
Qed.

(** C5, amended.  Each of the three cancel buttons sets the current action
    to none and ends the run with a rerun; the session it leaves depends
    on the session and the click only.  Cancel in the initial-input stage
    records the description text and writes nothing else; cancel in the
    input-method stage also empties the guidance; cancel in the
    confirmation stage empties the pending confirmation and appends the
    cancellation message. *)
Theorem cancel_effects (env : Env) (ui : UI) (s : session) :
  (ui_stage s = StageInitialInput ->
   ui_trigger ui = Click BtnCancelInitial ->
   run_session env ui s
   = set_current_action None
       (set_dml_initial_description
          (ui_text ui ("dml_init_desc_" ++ action_verb_of (current_action s))) s)
   /\ run_ending env ui s = Some Rerun)
  /\ (ui_stage s = StageInputMethod ->
      opt_truthy dict_truthy (dml_guidance_message s) = true ->
      ui_trigger ui = Click BtnCancelMethod ->
      run_session env ui s
      = set_dml_guidance_message None (set_current_action None s)
      /\ run_ending env ui s = Some Rerun)
  /\ (forall p,
      ui_stage s = StageConfirmation ->
      pending_dml_confirmation s = Some p ->
      ui_trigger ui = Click BtnCancelConfirm ->
      run_session env ui s
      = set_current_action None
          (set_pending_dml_confirmation None
             (append_message
                (assistant (ai_reply (capitalize (pc_action p)
                                      ++ " operation cancelled."))) s))
      /\ run_ending env ui s = Some Rerun).
Proof.
  split; [|split].
  - intros Hs Ht.
    destruct (stage_initial_input_inv s Hs) as [Ha|Ha];
      destruct s as [msgs ca desc inputs details gm method pend];
      destruct ui as [tr txt]; simpl in *; subst;
      run_in_stage Hs; split; reflexivity.
  - intros Hs Hg Ht.
    destruct (stage_input_method_inv s Hs) as [Ha|Ha];
      destruct s as [msgs ca desc inputs details [[|kv g]|] method pend];
      try discriminate;
      destruct ui as [tr txt]; simpl in *; subst;
      run_in_stage Hs; destruct (form_disabled (kv :: g)); split; reflexivity.
  - intros p Hs Hp Ht.
    destruct s as [msgs ca desc inputs details gm method pend];
      destruct ui as [tr txt]; simpl in *; subst;
      run_in_stage Hs; split; reflexivity.
Qed.

Lemma cancel_effects_witness :
  let env := Demo.env "DELETE FROM Artist WHERE ArtistId = 7" in
  let s1 := replay env Demo.to_initial_input init_session in
  let s2 := replay env Demo.to_input_method init_session in
  let s3 := replay env Demo.to_confirmation init_session in
  current_action (run_session env (Demo.click BtnCancelInitial "x") s1) = None
  /\ dml_guidance_message (run_session env (Demo.click BtnCancelMethod "") s2)
     = None
  /\ pending_dml_confirmation
       (run_session env (Demo.click BtnCancelConfirm "") s3) = None.
Proof.
  cbv zeta.
  pose proof (cancel_effects (Demo.env "DELETE FROM Artist WHERE ArtistId = 7")
                (Demo.click BtnCancelInitial "x")
                (replay (Demo.env "DELETE FROM Artist WHERE ArtistId = 7")
                   Demo.to_initial_input init_session)) as [H1 _].
  pose proof (cancel_effects (Demo.env "DELETE FROM Artist WHERE ArtistId = 7")
                (Demo.click BtnCancelMethod "")
                (replay (Demo.env "DELETE FROM Artist WHERE ArtistId = 7")
                   Demo.to_input_method init_session)) as [_ [H2 _]].
  pose proof (cancel_effects (Demo.env "DELETE FROM Artist WHERE ArtistId = 7")
                (Demo.click BtnCancelConfirm "")
                (replay (Demo.env "DELETE FROM Artist WHERE ArtistId = 7")
                   Demo.to_confirmation init_session)) as [_ [_ H3]].
  rewrite (proj1 (H1 eq_refl eq_refl)).
  rewrite (proj1 (H2 eq_refl eq_refl eq_refl)).
  rewrite (proj1 (H3 {| pc_action := "add";
                        pc_sql := "DELETE FROM Artist WHERE ArtistId = 7" |}
                     eq_refl eq_refl eq_refl)).
  repeat split.
Defined.

(** ** The chat input during a DML flow *)

Lemma chat_enabled_in_initial_input s :
  ui_stage s = StageInitialInput ->
  pending_dml_confirmation s = None ->
  chat_input_disabled s = false.
Proof.
  intros Hs Hp. unfold chat_input_disabled. rewrite Hp.
  destruct (stage_initial_input_inv s Hs) as [-> | ->]; reflexivity.
Qed.

Lemma chat_disabled_in_later_stages s :
  ui_stage s = StageInputMethod \/ ui_stage s = StageDetails ->
  chat_input_disabled s = true.
Proof.
  unfold chat_input_disabled.
  intros [Hs|Hs];
    [destruct (stage_input_method_inv s Hs) as [-> | ->]
    |destruct (stage_details_inv s Hs) as [-> | ->]]; reflexivity.
Qed.

(** C10, evaluated where the program departs from it.  Right after the Add
    Data button the flow is in its first DML stage, yet the chat input is
    enabled: a chat text is accepted, logged, and replaces the current
    action, so that the next run leaves the Add flow.  The same holds when
    a pending confirmation is shown with no current action. *)
Theorem chat_input_open_during_dml_flow :
  let env := Demo.env "INSERT INTO Artist (Name) VALUES ('Test Band')" in
  let s := replay env Demo.to_initial_input init_session in
  let s' := run_session env (Demo.chat "List all albums") s in
  (current_action s = Some "add_data_initial_input"
   /\ ui_stage s = StageInitialInput
   /\ chat_input_disabled s = false
   /\ current_action s' = Some "process_chat_input"
   /\ messages s'
      = (messages s ++ [{| m_role := User; m_content := Text "List all albums" |}])%list
   /\ ui_stage (run_session env (Demo.rerun "") s') = StageNone)
  /\ (let c := run_session (Demo.env "Error generating DML: try again.")
                 (Demo.rerun "") (replay env Demo.to_confirmation init_session) in
      reachable c
      /\ current_action c = None
      /\ ui_stage c = StageConfirmation
      /\ pending_dml_confirmation c <> None
      /\ chat_input_disabled c = false
      /\ current_action (run_session env (Demo.chat "List all albums") c)
         = Some "process_chat_input").
Proof.
  cbv zeta. repeat split; try reflexivity.
  - apply reachable_run, reachable_replay, reachable_init.
  - vm_compute. discriminate.
Qed.

(** ** Rejected submissions *)

#[local] Arguments any_filled : simpl never.
#[local] Arguments pyval_truthy : simpl never.
#[local] Arguments pyval_iter : simpl never.
#[local] Arguments suggested_fields_of : simpl never.
#[local] Arguments form_input_key : simpl never.

Lemma dict_get_set_same {V} (d : dict V) k v :
  dict_get (dict_set d k v) k = Some v.
Proof.
  induction d as [|[k' v'] d IH]; simpl.
  - now rewrite String.eqb_refl.
  - destruct (String.eqb k' k) eqn:E; simpl.
    + now rewrite String.eqb_refl.
    + now rewrite E.
Qed.

Lemma dict_get_set_other {V} (d : dict V) k k' v :
  k <> k' -> dict_get (dict_set d k v) k' = dict_get d k'.
Proof.
  intros Hk. induction d as [|[k0 v0] d IH]; simpl.
  - destruct (String.eqb_spec k k'); [contradiction | reflexivity].
  - destruct (String.eqb_spec k0 k) as [->|Hn]; simpl.
    + destruct (String.eqb_spec k k'); [contradiction | reflexivity].
    + destruct (String.eqb_spec k0 k'); [reflexivity | exact IH].
Qed.

Section EmptyForm.

Variables (ui : UI) (action_verb : string).

(** Fields whose text input is empty are recorded as empty. *)
Lemma collect_form_inputs_empty fields :
  (forall f, In f fields -> ui_text ui (form_input_key action_verb f) = "") ->
  forall inputs f,
    In f fields \/ dict_get inputs f = Some "" ->
    dict_get (collect_form_inputs ui action_verb fields inputs) f = Some "".
Proof.
  induction fields as [|x rest IH]; intros Hempty inputs f Hf.
  - destruct Hf as [[]|Hf]; exact Hf.
  - cbn [collect_form_inputs]. apply IH.
    + intros y Hy. apply Hempty. now right.
    + rewrite (Hempty x (or_introl eq_refl)).
      destruct (string_dec x f) as [->|Hn].
      * right. apply dict_get_set_same.
      * destruct Hf as [[Hx|Hr]|Hf]; [contradiction | now left |].
        right. now rewrite dict_get_set_other.
Qed.

Lemma any_filled_empty_form fields inputs :
  (forall f, In f fields -> ui_text ui (form_input_key action_verb f) = "") ->
  any_filled (collect_form_inputs ui action_verb fields inputs) fields = false.
Proof.
  intros Hempty. unfold any_filled.
  apply not_true_is_false. intros H.
  apply existsb_exists in H. destruct H as [f [Hin Hf]].
  rewrite (collect_form_inputs_empty fields Hempty inputs f (or_introl Hin)) in Hf.
  discriminate.
Qed.

End EmptyForm.

(** C8, as the specification words it, fails: a description made of blanks
    is rejected with the warning, but the session field that holds the
    description has taken it. *)
Lemma blank_description_is_recorded :
  let env := Demo.env "" in
  let s := replay env Demo.to_initial_input init_session in
  let ui := Demo.click BtnGetGuidance "   " in
  reachable s
  /\ ui_stage s = StageInitialInput
  /\ strip "   " = ""
  /\ notices (run env ui s) = [Warning "Please provide an initial description."]
  /\ dml_initial_description s = ""
  /\ dml_initial_description (run_session env ui s) = "   "
  /\ run_session env ui s <> s.
Proof.
  cbv zeta. split; [apply reachable_replay, reachable_init|].
  repeat split; try reflexivity. vm_compute. discriminate.
Qed.

(** C8, amended.  A blank description, a form whose text inputs are all
    empty and a blank free text are each rejected with a warning: the run
    reaches its end without a rerun, the current action and the
    conversation log are as before, and the only session field written is
    the one that holds the submitted input. *)
Theorem empty_submission_rejected (env : Env) (ui : UI) (s : session) :
  let action_verb := action_verb_of (current_action s) in
  (ui_stage s = StageInitialInput ->
   ui_trigger ui = Click BtnGetGuidance ->
   strip (ui_text ui ("dml_init_desc_" ++ action_verb)) = "" ->
   run_session env ui s
   = set_dml_initial_description (ui_text ui ("dml_init_desc_" ++ action_verb)) s
   /\ notices (run env ui s) = [Warning "Please provide an initial description."]
   /\ run_ending env ui s = None)
  /\ (ui_stage s = StageDetails ->
      opt_truthy dict_truthy (dml_guidance_message s) = true ->
      dml_input_method s = Some "form" ->
      pyval_truthy (suggested_fields_of (dml_guidance_message s)) = true ->
      ui_trigger ui = Click BtnFormSubmit ->
      (forall f, In f (pyval_iter (suggested_fields_of (dml_guidance_message s))) ->
                 ui_text ui (form_input_key action_verb f) = "") ->
      run_session env ui s
      = set_dml_form_inputs
          (collect_form_inputs ui action_verb
             (pyval_iter (suggested_fields_of (dml_guidance_message s)))
             (dml_form_inputs s)) s
      /\ notices (run env ui s)
         = [Warning "Please fill in at least one field in the form."]
      /\ run_ending env ui s = None)
  /\ (ui_stage s = StageDetails ->
      opt_truthy dict_truthy (dml_guidance_message s) = true ->
      dml_input_method s = Some "text" ->
      ui_trigger ui = Click BtnGenerateFromText ->
      strip (ui_text ui ("dml_text_details_" ++ action_verb)) = "" ->
      run_session env ui s
      = set_dml_text_details (ui_text ui ("dml_text_details_" ++ action_verb)) s
      /\ notices (run env ui s)
         = [Warning "Please provide the structured details in text."]
      /\ run_ending env ui s = None).
Proof.
  cbv zeta. split; [|split].
  - intros Hs Ht He.
    destruct (stage_initial_input_inv s Hs) as [Ha|Ha];
      destruct s as [msgs ca desc inputs details gm method pend];
      destruct ui as [tr txt]; simpl in *; subst; cbn in *;
      run_in_stage Hs; rewrite He; cbn; repeat split.
  - intros Hs Hg Hm Hf Ht He.
    destruct (stage_details_inv s Hs) as [Ha|Ha];
      destruct s as [msgs ca desc inputs details [[|kv g]|] method pend];
      try discriminate;
      destruct ui as [tr txt]; simpl in *; subst; cbn in *;
      run_in_stage Hs; rewrite Hf; cbn;
      match goal with
      | |- context [collect_form_inputs ?u ?v ?f ?i] =>
          rewrite (any_filled_empty_form u v f i He)
      end; cbn; repeat split.
  - intros Hs Hg Hm Ht He.
    destruct (stage_details_inv s Hs) as [Ha|Ha];
      destruct s as [msgs ca desc inputs details [[|kv g]|] method pend];
      try discriminate;
      destruct ui as [tr txt]; simpl in *; subst; cbn in *;
      run_in_stage Hs; rewrite He; cbn; repeat split.
Qed.

Lemma empty_submission_rejected_witness :
  let env := Demo.env "" in
  let s1 := replay env Demo.to_initial_input init_session in
  let s2 := replay env
              (Demo.to_input_method ++ [Demo.click BtnFillForm ""; Demo.rerun ""])
              init_session in
  let s3 := replay env
              (Demo.to_input_method ++ [Demo.click BtnDescribeText ""; Demo.rerun ""])
              init_session in
  notices (run env (Demo.click BtnGetGuidance "") s1)
  = [Warning "Please provide an initial description."]
  /\ run_session env (Demo.click BtnFormSubmit "") s2 = s2
  /\ notices (run env (Demo.click BtnGenerateFromText "  ") s3)
     = [Warning "Please provide the structured details in text."].
Proof.
  cbv zeta.
  pose proof (empty_submission_rejected (Demo.env "")
                (Demo.click BtnGetGuidance "")
                (replay (Demo.env "") Demo.to_initial_input init_session))
    as [H1 _].
  pose proof (empty_submission_rejected (Demo.env "")
                (Demo.click BtnFormSubmit "")
                (replay (Demo.env "")
                   (Demo.to_input_method
                    ++ [Demo.click BtnFillForm ""; Demo.rerun ""])
                   init_session))
    as [_ [H2 _]].
  pose proof (empty_submission_rejected (Demo.env "")
                (Demo.click BtnGenerateFromText "  ")
                (replay (Demo.env "")
                   (Demo.to_input_method
                    ++ [Demo.click BtnDescribeText ""; Demo.rerun ""])
                   init_session))
    as [_ [_ H3]].
  split; [exact (proj1 (proj2 (H1 eq_refl eq_refl eq_refl)))|].
  split.
  - rewrite (proj1 (H2 eq_refl eq_refl eq_refl eq_refl eq_refl
                      (fun f _ => eq_refl))).
    vm_compute. reflexivity.
  - exact (proj1 (proj2 (H3 eq_refl eq_refl eq_refl eq_refl eq_refl))).
Defined.

(** ** The DML generation step *)

#[local] Arguments get_schema : simpl never.
#[local] Arguments dml_generation_chain : simpl never.
#[local] Arguments form_details : simpl never.
#[local] Arguments is_dml_refusal : simpl never.

Lemma dml_generation_logged env a d t sc :
  snd (dml_generation_chain env a d t sc)
  = [ELlmGenerateDml (fst (dml_generation_chain env a d t sc))].
Proof. reflexivity. Qed.




(** While the confirmation is shown the current action is still
    [process_structured_dml_add], so every further rerun asks the model for
    the statement again. *)
Example confirmation_rerun_generates_again :
  let env := Demo.env "INSERT INTO Artist (Name) VALUES ('Test Band')" in
  let s := replay env Demo.to_confirmation init_session in
  ui_stage s = StageConfirmation
  /\ current_action s = Some "process_structured_dml_add"
  /\ effects (run env (Demo.rerun "") s)
     = [EDbGetTableInfo;
        ELlmGenerateDml (Ok "INSERT INTO Artist (Name) VALUES ('Test Band')")]
  /\ run_session env (Demo.rerun "") s = s.
Proof. cbv zeta. repeat apply conj; vm_compute; reflexivity. Qed.

(** ** Invariants of the script *)

Section Preservation.

Variable I : world -> Prop.

Lemma preserves_ret {A} (x : A) : preserves I (ret x).
Proof. intros w H. exact H. Qed.

Lemma preserves_bind {A B} (m : Script A) (f : A -> Script B) :
  preserves I m -> (forall x, preserves I (f x)) -> preserves I (bind m f).
Proof.
  intros Hm Hf w H. unfold bind. specialize (Hm w H).
  destruct (m w) as [[x|e] w']; cbn [snd] in *; [now apply Hf | exact Hm].
Qed.

Lemma preserves_script env ui :
  preserves I (quick_actions ui) ->
  preserves I (dml_stages ui) ->
  preserves I (chat_input ui) ->
  preserves I (process_actions env) ->
  preserves I (script env ui).
Proof.
  intros H1 H2 H3 H4. unfold script.
  repeat (apply preserves_bind; [assumption | intros _]). exact H4.
Qed.

End Preservation.

Lemma justified_more tr tr' p :
  (forall e, In e tr -> In e tr') -> justified tr p -> justified tr' p.
Proof. intros Hsub [H1 H2]. split; auto. Qed.

Lemma in_app_more {A} (e : A) (tr0 l l' : list A) :
  In e (tr0 ++ l) -> In e (tr0 ++ (l ++ l')).
Proof. rewrite app_assoc. intros H. apply in_or_app. now left. Qed.

Create HintDb accounted.

Section PendingAccounted.

Variable tr0 : list effect.

Let I := pending_accounted tr0.

Lemma accounted_get {A} (f : session -> A) : preserves I (get f).
Proof. intros w H. exact H. Qed.

Lemma accounted_rerun : preserves I st_rerun.
Proof. intros w H. exact H. Qed.

Lemma accounted_stop : preserves I st_stop.
Proof. intros w H. exact H. Qed.

Lemma accounted_show n : preserves I (show n).
Proof. intros w H. exact H. Qed.

Lemma accounted_lift {A} (c : Eff A) : preserves I (lift c).
Proof.
  intros w H p Hp. cbn in *.
  eapply justified_more; [|exact (H p Hp)].
  intros e. apply in_app_more.
Qed.

(** An assignment that leaves the pending confirmation alone. *)
Lemma accounted_assign_other f :
  (forall s, pending_dml_confirmation (f s) = pending_dml_confirmation s) ->
  preserves I (assign f).
Proof. intros Hf w H p Hp. cbn in *. rewrite Hf in Hp. exact (H p Hp). Qed.

(** The assignment that empties it. *)
Lemma accounted_assign_none :
  preserves I (assign (set_pending_dml_confirmation None)).
Proof. intros w H p Hp. discriminate Hp. Qed.

#[local] Hint Resolve preserves_ret accounted_get accounted_rerun
  accounted_stop accounted_show accounted_lift accounted_assign_none
  : accounted.

(** Structural descent through a script: the steps that cannot write the
    pending confirmation are closed from the hint database. *)
Ltac pres :=
  repeat first
    [ solve [auto with accounted]
    | apply accounted_assign_other; reflexivity
    | apply preserves_bind; [|intros ?]
    | match goal with
      | |- preserves _ (if ?b then _ else _) => destruct b eqn:?
      | |- preserves _ (match ?x with _ => _ end) => destruct x eqn:?
      end ].

Lemma quick_actions_accounted ui : preserves I (quick_actions ui).
Proof. unfold quick_actions, when. pres. Qed.

Lemma dml_stages_accounted ui : preserves I (dml_stages ui).
Proof.
  unfold dml_stages, stage_initial_input, stage_input_method,
    stage_details, stage_confirmation, when.
  pres.
Qed.

Lemma chat_input_accounted ui : preserves I (chat_input ui).
Proof. unfold chat_input, when. pres. Qed.

Lemma process_structured_dml_accounted env a :
  preserves I (process_structured_dml env a).
Proof.
  intros w HI.
  destruct w as [[msgs ca desc inputs details gm method pend] nts eff].
  unfold I, pending_accounted in *. cbn in HI.
  unfold_script. cbn. split_tests.
  all: intros p Hp; cbn in Hp.
  all: try (eapply justified_more; [|exact (HI p Hp)];
            intros ? ?; repeat (apply in_app_more); assumption).
  all: injection Hp as <-; split; [|split; [assumption|auto]]; cbn.
  all: apply in_or_app; right; apply in_or_app; right.
  all: rewrite dml_generation_logged;
    match goal with H : fst (dml_generation_chain _ _ _ _ _) = Ok _ |- _ =>
      rewrite H end; now left.
Qed.

Lemma process_actions_accounted env : preserves I (process_actions env).
Proof.
  unfold process_actions.
  apply preserves_bind; [apply accounted_get|intros ca].
  destruct ca as [a|]; [|apply preserves_ret].
  repeat match goal with
         | |- preserves _ (if ?b then _ else _) => destruct b eqn:?
         end;
    try apply preserves_ret;
    try apply process_structured_dml_accounted;
    unfold process_chat_input, process_initial_dml_description,
      summarize_db, finish_chat, invoke, handle_exception;
    pres.
Qed.

Lemma script_accounted env ui : preserves I (script env ui).
Proof.
  apply preserves_script;
    [apply quick_actions_accounted | apply dml_stages_accounted
    |apply chat_input_accounted | apply process_actions_accounted].
Qed.

End PendingAccounted.

Lemma reach_accounted tr s :
  reach tr s ->
  forall p, pending_dml_confirmation s = Some p -> justified tr p.
Proof.
  induction 1 as [|tr s env ui Hr IH]; [discriminate|].
  apply (script_accounted tr env ui (fresh s)).
  intros p Hp. cbn. rewrite app_nil_r. now apply IH.
Qed.

(** ** The pending confirmation *)

(** C1, as the specification words it, fails on both counts.  A text of
    the generator that is no INSERT, UPDATE or DELETE statement becomes
    the pending confirmation, and the Add Data button starts a new flow
    without emptying it. *)
Lemma pending_holds_other_statement :
  let env := Demo.env "SELECT * FROM Artist" in
  let s := replay env Demo.to_confirmation init_session in
  let s' := run_session env (Demo.click BtnAddData "") s in
  reachable s
  /\ pending_dml_confirmation s
     = Some {| pc_action := "add"; pc_sql := "SELECT * FROM Artist" |}
  /\ starts_dml_ci "SELECT * FROM Artist" = false
  /\ ui_stage s' = StageInitialInput
  /\ pending_dml_confirmation s'
     = Some {| pc_action := "add"; pc_sql := "SELECT * FROM Artist" |}.
Proof.
  cbv zeta. split; [apply reachable_replay, reachable_init|].
  repeat split; reflexivity.
Qed.

(** C1, amended.  In every reachable session a pending confirmation holds
    a text that the DML generation chain returned earlier and that did not
    start with the refusal sentinel "Error generating DML:", under the
    verb "add" or "delete"; and the two buttons of the confirmation stage
    empty it. *)
Theorem pending_confirmation_provenance (tr : list effect) (s : session) :
  reach tr s ->
  (forall p, pending_dml_confirmation s = Some p ->
     In (ELlmGenerateDml (Ok (pc_sql p))) tr
     /\ is_dml_refusal (pc_sql p) = false
     /\ (pc_action p = "add" \/ pc_action p = "delete"))
  /\ (forall env ui,
        ui_stage s = StageConfirmation ->
        ui_trigger ui = Click BtnProceed \/ ui_trigger ui = Click BtnCancelConfirm ->
        pending_dml_confirmation (run_session env ui s) = None
        /\ current_action (run_session env ui s) = None).
Proof.
  intros Hr. split; [exact (reach_accounted tr s Hr)|].
  intros env ui Hs Ht.
  destruct (stage_confirmation_inv s Hs) as [p Hp].
  destruct s as [msgs ca desc inputs details gm method pend];
    destruct ui as [t txt]; simpl in *; subst pend.
  destruct Ht; subst t; run_in_stage Hs; split; reflexivity.
Qed.

Lemma reach_replay env uis :
  forall tr s, reach tr s -> reach (replay_trace env uis s tr) (replay env uis s).
Proof.
  induction uis as [|ui uis IH]; intros tr s H; [exact H|].
  cbn [replay replay_trace]. apply IH. now constructor.
Qed.

Lemma pending_confirmation_provenance_witness :
  let env := Demo.env "INSERT INTO Artist (Name) VALUES ('Test Band')" in
  In (ELlmGenerateDml (Ok "INSERT INTO Artist (Name) VALUES ('Test Band')"))
     (replay_trace env Demo.to_confirmation init_session []).
Proof.
  cbv zeta.
  apply (proj1 (pending_confirmation_provenance _ _
                  (reach_replay
                     (Demo.env "INSERT INTO Artist (Name) VALUES ('Test Band')")
                     Demo.to_confirmation [] init_session reach_init))
           {| pc_action := "add";
              pc_sql := "INSERT INTO Artist (Name) VALUES ('Test Band')" |}
           eq_refl).
Defined.

(** ** The details stage is reached through the input-method buttons *)

Lemma stage_details_ca s s' :
  current_action s = current_action s' ->
  ui_stage s = StageDetails -> ui_stage s' = StageDetails.
Proof.
  intros Hc Hs. apply stage_details_inv in Hs. rewrite Hc in Hs.
  unfold ui_stage. destruct Hs as [-> | ->]; reflexivity.
Qed.

Lemma pressed_enabled ui b d : pressed ui b d = true -> d = false.
Proof. unfold pressed. destruct d; [discriminate | reflexivity]. Qed.

Lemma form_enabled_truthy gm :
  form_enabled gm = true -> opt_truthy dict_truthy gm = true.
Proof.
  destruct gm as [g|]; [|discriminate]. cbn.
  intros H. now apply andb_true_iff in H.
Qed.

Section DetailsStage.

#[local] Arguments startswith : simpl never.
#[local] Arguments truthy : simpl never.
#[local] Arguments contains : simpl never.
#[local] Arguments run_select_query : simpl never.
#[local] Arguments run_simulated_dml_query : simpl never.
#[local] Arguments initial_processing_chain : simpl never.
#[local] Arguments select_answer_chain : simpl never.
#[local] Arguments dml_guidance_chain : simpl never.
#[local] Arguments db_summary_chain : simpl never.
#[local] Arguments last_content : simpl never.
#[local] Arguments capitalize : simpl never.
#[local] Arguments pressed : simpl never.
#[local] Arguments chat_input_value : simpl never.
#[local] Arguments chat_input_disabled : simpl never.
#[local] Arguments collect_form_inputs : simpl never.
#[local] Arguments opt_str_eqb : simpl never.
#[local] Arguments form_enabled : simpl never.
#[local] Arguments String.eqb : simpl never.
#[local] Arguments details_ok : simpl never.

(** The session a path of the script ends in is in another stage, or has
    the method and guidance it started with, or was just moved to the
    details stage by one of the two buttons. *)
Ltac close HJ :=
  unfold details_ok, details_stage_ok; cbn;
  first
    [ exact HJ
    | intros Hd; exfalso; apply stage_details_inv in Hd; cbn in Hd;
      destruct Hd as [Hd|Hd]; discriminate Hd
    | intros _; now apply HJ
    | intros Hd; apply HJ; eapply stage_details_ca; [|exact Hd]; reflexivity
    | intros _; left; split; [reflexivity | assumption]
    | intros _; right; split; [reflexivity|];
      match goal with
      | H : pressed _ BtnFillForm _ = true,
        G : opt_truthy dict_truthy ?gm = true |- _ =>
          apply pressed_enabled in H; unfold form_enabled;
          destruct gm as [[|? ?]|]; cbn in *; try discriminate;
          now rewrite H
      end ].

Ltac crunch :=
  intros w HJ;
  destruct w as [[msgs ca desc inputs details gm method pend] nts eff];
  unfold details_ok, details_stage_ok in HJ; cbn in HJ;
  unfold_script; cbn; split_tests.

Lemma quick_actions_details ui : preserves details_ok (quick_actions ui).
Proof. crunch; close HJ. Qed.

Lemma chat_input_details ui : preserves details_ok (chat_input ui).
Proof. crunch; close HJ. Qed.

Lemma dml_stages_details ui : preserves details_ok (dml_stages ui).
Proof.
  intros w HJ.
  destruct w as [[msgs ca desc inputs details gm method pend] nts eff].
  unfold details_ok, details_stage_ok in HJ. cbn in HJ.
  unfold dml_stages. unfold bind at 1, get at 1. cbn [ss fst snd].
  match goal with
  | |- context [match ?x with _ => _ end] => destruct x eqn:Hs
  end.
  - destruct (stage_initial_input_inv _ Hs) as [Hc|Hc]; cbn in Hc; subst ca;
      unfold_script; cbn; split_tests; close HJ.
  - destruct (stage_input_method_inv _ Hs) as [Hc|Hc]; cbn in Hc; subst ca;
      unfold_script; cbn; split_tests; close HJ.
  - destruct (stage_details_inv _ Hs) as [Hc|Hc]; cbn in Hc; subst ca;
      unfold_script; cbn; split_tests; close HJ.
  - unfold_script; cbn; split_tests; try close HJ.
    all: unfold details_ok, details_stage_ok; cbn; intros Hd;
      match type of Hs with
      | ui_stage ?s0 = _ =>
          apply (stage_details_ca _ s0) in Hd;
          [rewrite Hs in Hd; discriminate Hd | reflexivity]
      end.
  - unfold details_ok, details_stage_ok; cbn. intros Hd.
    rewrite Hs in Hd. discriminate Hd.
Qed.

Lemma process_actions_details env : preserves details_ok (process_actions env).
Proof. crunch; close HJ. Qed.

Lemma script_details env ui : preserves details_ok (script env ui).
Proof.
  apply preserves_script;
    [apply quick_actions_details | apply dml_stages_details
    |apply chat_input_details | apply process_actions_details].
Qed.

End DetailsStage.

Lemma reach_details_stage_ok tr s : reach tr s -> details_stage_ok s.
Proof.
  induction 1 as [|tr s env ui Hr IH].
  - intros Hd. discriminate Hd.
  - exact (script_details env ui (fresh s) IH).
Qed.

Lemma reachable_details_guidance s :
  reachable s -> ui_stage s = StageDetails ->
  opt_truthy dict_truthy (dml_guidance_message s) = true.
Proof.
  intros [tr Hr] Hs.
  destruct (reach_details_stage_ok tr s Hr Hs) as [[_ H]|[_ H]];
    [exact H | now apply form_enabled_truthy].
Qed.

(** ** Choosing the input method *)

Lemma form_disabled_spec g :
  form_disabled g = false <->
  pyval_eq_str (target_table_of g) "Unknown" = false
  /\ pyval_truthy (suggested_fields_of (Some g)) = true.
Proof.
  unfold form_disabled, target_table_of, suggested_fields_of.
  destruct (dict_get g "suggested_fields") as [v|]; cbn [opt_truthy].
  - rewrite orb_false_iff, negb_false_iff. tauto.
  - rewrite orb_false_iff. unfold pyval_truthy. cbn. intuition congruence.
Qed.

Lemma form_disabled_unknown g :
  dict_get g "target_table" = Some (VStr "Unknown") -> form_disabled g = true.
Proof. unfold form_disabled. now intros ->. Qed.

Lemma fill_form_run env ui s g :
  ui_stage s = StageInputMethod ->
  dml_guidance_message s = Some g ->
  dict_truthy g = true ->
  ui_trigger ui = Click BtnFillForm ->
  run_session env ui s
  = if form_disabled g then s
    else set_current_action
           (Some ("awaiting_structured_dml_details_"
                  ++ lower (action_verb_of (current_action s))))
           (set_dml_input_method (Some "form") s).
Proof.
  intros Hs Hg Ht Hc.
  destruct (stage_input_method_inv s Hs) as [Ha|Ha];
    destruct s as [msgs ca desc inputs details gm method pend];
    destruct ui as [tr txt]; destruct g as [|kv g]; try discriminate;
    simpl in *; subst;
    run_in_stage Hs; destruct (form_disabled (kv :: g)); reflexivity.
Qed.

(** The fallback guidance of the prompt ("Unknown", no fields) disables the
    form; so does a guidance that names a table but no fields. *)
Example form_disabled_examples :
  form_disabled [("target_table", VStr "Unknown"); ("suggested_fields", VList [])]
  = true
  /\ form_disabled [("target_table", VStr "Artist"); ("suggested_fields", VList [])]
     = true
  /\ form_disabled [("target_table", VStr "Artist")] = true
  /\ form_disabled Demo.guidance = false.
Proof. repeat split; reflexivity. Qed.

(** C7, as the specification words it, fails: when the guidance model
    answers with the empty object, the session reaches the input-method
    stage with that guidance, and the stage offers neither button: a click
    on Describe in Text is not acted on, the run shows the error of the
    stage and ends the flow. *)
Lemma empty_guidance_offers_no_choice :
  let env := Cases.empty_guidance_env in
  let s := replay env
             (Demo.to_initial_input
              ++ [Demo.click BtnGetGuidance "add a new artist";
                  Demo.rerun "add a new artist"])%list
             init_session in
  let s' := run_session env (Demo.click BtnDescribeText "") s in
  reachable s
  /\ ui_stage s = StageInputMethod
  /\ dml_guidance_message s = Some []
  /\ s' = set_current_action None s
  /\ dml_input_method s' = None
  /\ ui_stage s' = StageNone
  /\ notices (run env (Demo.click BtnDescribeText "") s)
     = [Error "Guidance message not found. Please start the DML action again."].
Proof.
  cbv zeta. split.
  - apply reachable_replay, reachable_init.
  - repeat apply conj; vm_compute; reflexivity.
Qed.

(** C7, amended.  In the input-method stage, with a guidance object that
    is not empty, the Fill Form button acts only when the target table is
    not "Unknown" and the suggested fields are not empty: otherwise the
    button is disabled and the session stays as it is.  The Describe in
    Text button always acts.  In particular the form method cannot be
    chosen when the target table is "Unknown", and no reachable session is
    in the details stage with the form method and such a guidance.  With
    an empty guidance object, or none, the stage offers neither button: it
    shows an error and unsets the current action. *)
Theorem form_choice_guarded (env : Env) (ui : UI) (s : session) :
  (forall g,
     ui_stage s = StageInputMethod ->
     dml_guidance_message s = Some g ->
     dict_truthy g = true ->
     (ui_trigger ui = Click BtnFillForm ->
      run_session env ui s
      = if form_disabled g then s
        else set_current_action
               (Some ("awaiting_structured_dml_details_"
                      ++ lower (action_verb_of (current_action s))))
               (set_dml_input_method (Some "form") s))
     /\ (ui_trigger ui = Click BtnDescribeText ->
         run_session env ui s
         = set_current_action
             (Some ("awaiting_structured_dml_details_"
                    ++ lower (action_verb_of (current_action s))))
             (set_dml_input_method (Some "text") s)
         /\ ui_stage (run_session env ui s) = StageDetails)
     /\ (form_disabled g = false <->
         pyval_eq_str (target_table_of g) "Unknown" = false
         /\ pyval_truthy (suggested_fields_of (Some g)) = true)
     /\ (dict_get g "target_table" = Some (VStr "Unknown") ->
         ui_trigger ui = Click BtnFillForm ->
         run_session env ui s = s
         /\ dml_input_method (run_session env ui s) = dml_input_method s))
  /\ (reachable s ->
      ui_stage s = StageDetails ->
      dml_input_method s = Some "form" ->
      exists g, dml_guidance_message s = Some g
                /\ pyval_eq_str (target_table_of g) "Unknown" = false
                /\ pyval_truthy (suggested_fields_of (Some g)) = true)
  /\ (ui_stage s = StageInputMethod ->
      opt_truthy dict_truthy (dml_guidance_message s) = false ->
      ui_trigger ui = Click BtnFillForm \/ ui_trigger ui = Click BtnDescribeText ->
      run_session env ui s = set_current_action None s
      /\ notices (run env ui s)
         = [Error "Guidance message not found. Please start the DML action again."]
      /\ run_ending env ui s = None).
Proof.
  split; [|split].
  - intros g Hs Hg Ht.
    split; [apply fill_form_run; assumption|].
    split; [|split; [apply form_disabled_spec|]].
    + intros Hc.
      destruct (stage_input_method_inv s Hs) as [Ha|Ha];
        destruct s as [msgs ca desc inputs details gm method pend];
        destruct ui as [tr txt]; destruct g as [|kv g]; try discriminate;
        simpl in *; subst;
        run_in_stage Hs; destruct (form_disabled (kv :: g)); split; reflexivity.
    + intros Hu Hc.
      rewrite (fill_form_run env ui s g Hs Hg Ht Hc),
        (form_disabled_unknown g Hu). auto.
  - intros [tr Hr] Hs Hm.
    destruct (reach_details_stage_ok tr s Hr Hs) as [[Ht _]|[_ He]];
      [rewrite Ht in Hm; discriminate Hm|].
    destruct (dml_guidance_message s) as [g|]; [|discriminate].
    exists g. split; [reflexivity|].
    cbn in He. apply andb_true_iff in He. destruct He as [_ He].
    apply negb_true_iff in He. now apply form_disabled_spec.
  - intros Hs Hg Hc.
    destruct (stage_input_method_inv s Hs) as [Ha|Ha];
      destruct s as [msgs ca desc inputs details gm method pend];
      destruct ui as [tr txt]; simpl in *; subst;
      destruct Hc as [-> | ->];
      run_in_stage Hs; rewrite Hg; cbn; repeat split.
Qed.

Lemma form_choice_guarded_witness :
  let s := replay (Demo.env "") Demo.to_input_method init_session in
  let v := replay Demo.vague_env Demo.to_input_method init_session in
  dml_input_method (run_session (Demo.env "") (Demo.click BtnDescribeText "") s)
  = Some "text"
  /\ dml_guidance_message v = Some Demo.vague_guidance
  /\ run_session Demo.vague_env (Demo.click BtnFillForm "") v = v.
Proof.
  cbv zeta. split; [|split; [reflexivity|]].
  - rewrite (proj1 (proj1 (proj2
               (proj1 (form_choice_guarded (Demo.env "")
                         (Demo.click BtnDescribeText "")
                         (replay (Demo.env "") Demo.to_input_method init_session))
                  Demo.guidance eq_refl eq_refl eq_refl)) eq_refl)).
    reflexivity.
  - apply (proj2 (proj2 (proj2
             (proj1 (form_choice_guarded Demo.vague_env
                       (Demo.click BtnFillForm "")
                       (replay Demo.vague_env Demo.to_input_method init_session))
                Demo.vague_guidance eq_refl eq_refl eq_refl)))
             eq_refl eq_refl).
Defined.

(** ** Go back from the details stage *)

(** C9.  In the details stage, with either input method, the Go Back
    button returns to the input-method stage: the guidance is kept, the
    form values and the free text are emptied, and nothing else in the
    session changes.  This holds of every reachable session, and of every
    session that has a guidance object. *)
Theorem go_back_keeps_guidance (env : Env) (ui : UI) (s : session) :
  ui_stage s = StageDetails ->
  reachable s \/ opt_truthy dict_truthy (dml_guidance_message s) = true ->
  ui_trigger ui = Click BtnGoBack ->
  run_session env ui s
  = set_dml_text_details ""
      (set_dml_form_inputs []
         (set_current_action
            (Some ("awaiting_dml_input_method_"
                   ++ lower (action_verb_of (current_action s)))) s))
  /\ ui_stage (run_session env ui s) = StageInputMethod
  /\ dml_guidance_message (run_session env ui s) = dml_guidance_message s
  /\ dml_form_inputs (run_session env ui s) = []
  /\ dml_text_details (run_session env ui s) = ""
  /\ run_ending env ui s = Some Rerun.
Proof.
  intros Hs Hg Ht.
  assert (Hg' : opt_truthy dict_truthy (dml_guidance_message s) = true)
    by (destruct Hg as [Hr|Hg];
        [now apply reachable_details_guidance | exact Hg]).
  clear Hg.
  destruct (stage_details_inv s Hs) as [Hc|Hc];
    destruct s as [msgs ca desc inputs details [[|kv g]|] method pend];
    try discriminate;
    destruct ui as [tr txt]; simpl in *; subst;
    run_in_stage Hs; split_tests; repeat split.
Qed.

Lemma go_back_keeps_guidance_witness :
  let env := Demo.env "" in
  let s := replay env
             (Demo.to_input_method ++ [Demo.click BtnFillForm ""; Demo.rerun "Te"])
             init_session in
  dml_form_inputs s = [("Name", "Te")]
  /\ dml_guidance_message (run_session env (Demo.click BtnGoBack "Te") s)
     = Some Demo.guidance
  /\ dml_form_inputs (run_session env (Demo.click BtnGoBack "Te") s) = [].
Proof.
  cbv zeta. split; [reflexivity|].
  pose proof (go_back_keeps_guidance (Demo.env "") (Demo.click BtnGoBack "Te")
    (replay (Demo.env "")
       (Demo.to_input_method ++ [Demo.click BtnFillForm ""; Demo.rerun "Te"])
       init_session)
    eq_refl
    (or_introl (reachable_replay (Demo.env "") _ _ reachable_init))
    eq_refl) as H.
  destruct H as [_ [_ [Hg [Hf _]]]]. split; [rewrite Hg; reflexivity | exact Hf].
Defined.

(* ===================================================================== *)
(** * Further properties of the script *)
(* ===================================================================== *)

(** ** Trimming *)

Lemma rstrip_idem s : rstrip (rstrip s) = rstrip s.
Proof.
  induction s as [|c r IH]; [reflexivity|].
  cbn [rstrip]. destruct (rstrip r) as [|c' r'] eqn:E.
  - destruct (is_space c) eqn:Ec; [reflexivity|]. cbn [rstrip]. now rewrite Ec.
  - cbn [rstrip]. cbn [rstrip] in IH. now rewrite IH.
Qed.

Lemma lstrip_left_trimmed s : left_trimmed (lstrip s) = true.
Proof.
  induction s as [|c r IH]; [reflexivity|].
  cbn [lstrip]. destruct (is_space c) eqn:E; [exact IH|]. cbn. now rewrite E.
Qed.

Lemma lstrip_of_left_trimmed s : left_trimmed s = true -> lstrip s = s.
Proof.
  destruct s as [|c r]; [reflexivity|]. cbn. intros H.
  apply negb_true_iff in H. now rewrite H.
Qed.

Lemma rstrip_left_trimmed s : left_trimmed s = true -> left_trimmed (rstrip s) = true.
Proof.
  destruct s as [|c r]; [reflexivity|]. cbn [left_trimmed rstrip]. intros H.
  apply negb_true_iff in H.
  destruct (rstrip r); rewrite ?H; cbn; now rewrite H.
Qed.

Lemma strip_idem s : strip (strip s) = strip s.
Proof.
  unfold strip.
  rewrite (lstrip_of_left_trimmed (rstrip (lstrip s))).
  - apply rstrip_idem.
  - apply rstrip_left_trimmed, lstrip_left_trimmed.
Qed.

(** X1: whatever text the model wrote, what [SimpleStrParser.parse]
    (lines 68-79) returns has no white space at either end. *)
Theorem parse_trimmed text :
  strip (SimpleStrParser_parse text) = SimpleStrParser_parse text.
Proof.
  unfold SimpleStrParser_parse.
  repeat match goal with
         | |- context [if ?b then _ else _] => destruct b
         end; apply strip_idem.
Qed.

(** ** Prefixes, suffixes and reversal *)

Lemma append_nil_r s : s ++ "" = s.
Proof. induction s; cbn; congruence. Qed.

Lemma append_assoc (a b c : string) : (a ++ b) ++ c = a ++ (b ++ c).
Proof. induction a; cbn; congruence. Qed.

Lemma list_ascii_of_string_app a b :
  list_ascii_of_string (a ++ b)
  = (list_ascii_of_string a ++ list_ascii_of_string b)%list.
Proof. induction a; cbn; congruence. Qed.

Lemma string_of_list_ascii_app l1 l2 :
  string_of_list_ascii (l1 ++ l2)
  = string_of_list_ascii l1 ++ string_of_list_ascii l2.
Proof. induction l1; cbn; congruence. Qed.

Lemma rev_app a b : rev (a ++ b) = rev b ++ rev a.
Proof.
  unfold rev.
  now rewrite list_ascii_of_string_app, List.rev_app_distr,
    string_of_list_ascii_app.
Qed.

Lemma rev_involutive s : rev (rev s) = s.
Proof.
  unfold rev.
  now rewrite list_ascii_of_string_of_list_ascii, List.rev_involutive,
    string_of_list_ascii_of_string.
Qed.

Lemma rev_length s : String.length (rev s) = String.length s.
Proof.
  induction s as [|c r IH]; [reflexivity|].
  change (String c r) with (String c "" ++ r). rewrite rev_app.
  change (rev (String c "")) with (String c "").
  assert (H : forall a b, String.length (a ++ b) = String.length a + String.length b)
    by (intros a b; induction a; cbn; congruence).
  rewrite H, IH. cbn. lia.
Qed.

Lemma startswith_app p r : startswith p (p ++ r) = true.
Proof. induction p; cbn; [reflexivity|]. now rewrite Ascii.eqb_refl. Qed.

Lemma drop_app p r : drop (String.length p) (p ++ r) = r.
Proof. induction p; cbn; auto. Qed.

Lemma endswith_app x p : endswith p (x ++ p) = true.
Proof. unfold endswith. rewrite rev_app. apply startswith_app. Qed.

Lemma drop_end_app x p : drop_end (String.length p) (x ++ p) = x.
Proof.
  unfold drop_end. rewrite rev_app, <- (rev_length p), drop_app.
  apply rev_involutive.
Qed.

Lemma rstrip_app_keep x y :
  rstrip y = y -> y <> "" -> rstrip (x ++ y) = x ++ y.
Proof.
  intros Hy Hn. induction x as [|c x IH]; [exact Hy|].
  cbn [append rstrip]. rewrite IH.
  destruct (x ++ y) eqn:E; [|reflexivity].
  destruct x; cbn in E; [contradiction | discriminate].
Qed.

Lemma rstrip_app_space x y : rstrip y = "" -> rstrip (x ++ y) = rstrip x.
Proof.
  intros Hy. induction x as [|c x IH]; [exact Hy|].
  cbn [append rstrip]. now rewrite IH.
Qed.

Lemma left_trimmed_app x y : x <> "" -> left_trimmed (x ++ y) = left_trimmed x.
Proof. destruct x; [contradiction | reflexivity]. Qed.

Lemma strip_fixed_left s : strip s = s -> left_trimmed s = true.
Proof.
  intros <-. unfold strip. apply rstrip_left_trimmed, lstrip_left_trimmed.
Qed.

Lemma strip_fixed_right s : strip s = s -> rstrip s = s.
Proof. intros H. rewrite <- H at 1. unfold strip. rewrite rstrip_idem. exact H. Qed.

(** A trimmed, non-empty text followed by a line break trims back to
    itself. *)
Lemma strip_app_nl body :
  strip body = body -> body <> "" -> strip (body ++ nl) = body.
Proof.
  intros Hb Hn. unfold strip.
  rewrite lstrip_of_left_trimmed
    by (rewrite left_trimmed_app by exact Hn; now apply strip_fixed_left).
  rewrite rstrip_app_space by reflexivity. now apply strip_fixed_right.
Qed.

(** A text that opens with a non-space character and closes with a fence
    is its own trimming. *)
Lemma strip_fenced x :
  left_trimmed x = true -> x <> "" -> strip (x ++ "```") = x ++ "```".
Proof.
  intros Hl Hn. unfold strip.
  rewrite lstrip_of_left_trimmed by (now rewrite left_trimmed_app).
  now apply rstrip_app_keep.
Qed.

Lemma app_nonempty_l (x y : string) : x <> "" -> x ++ y <> "".
Proof. destruct x; [contradiction | discriminate]. Qed.

Lemma strip_body_fence body :
  strip body = body -> body <> "" ->
  strip (body ++ nl ++ "```") = body ++ nl ++ "```".
Proof.
  intros Hb Hn. rewrite <- append_assoc. apply strip_fenced.
  - rewrite left_trimmed_app by exact Hn. now apply strip_fixed_left.
  - now apply app_nonempty_l.
Qed.

Section Fences.

Variable body : string.
Hypothesis body_trimmed : strip body = body.
Hypothesis body_nonempty : body <> "".
Hypothesis body_open_end : endswith "```" body = false.

(** What the parser leaves of the tail [body], line break, closing fence
    once the opening marker is gone. *)
Lemma parse_tail :
  let rest := strip (nl ++ body ++ nl ++ "```") in
  rest = body ++ nl ++ "```"
  /\ endswith "```" rest = true
  /\ strip (drop_end (String.length "```") rest) = body.
Proof.
  cbv zeta.
  assert (H : strip (nl ++ body ++ nl ++ "```") = body ++ nl ++ "```")
    by (change (strip (nl ++ body ++ nl ++ "```"))
          with (strip (body ++ nl ++ "```")); now apply strip_body_fence).
  rewrite H. rewrite <- append_assoc. split; [reflexivity|].
  split; [apply endswith_app|].
  rewrite drop_end_app. now apply strip_app_nl.
Qed.

(** X2: a statement on its own line inside a fence marked [sql] is
    returned as it is, without the fence (the statement is trimmed, not
    empty, does not end with a fence marker and does not start with the
    marker of a [json] fence). *)
Theorem parse_sql_fence :
  startswith "```json" body = false ->
  SimpleStrParser_parse ("```sql" ++ nl ++ body ++ nl ++ "```") = body.
Proof.
  intros Hj. destruct parse_tail as [H1 [H2 H3]].
  unfold SimpleStrParser_parse.
  assert (Ht : strip ("```sql" ++ nl ++ body ++ nl ++ "```")
               = "```sql" ++ nl ++ body ++ nl ++ "```").
  { replace ("```sql" ++ nl ++ body ++ nl ++ "```")
      with (("```sql" ++ nl ++ body ++ nl) ++ "```")
      by (rewrite !append_assoc; reflexivity).
    apply strip_fenced; [reflexivity | discriminate]. }
  rewrite Ht.
  change (startswith "```sql" ("```sql" ++ nl ++ body ++ nl ++ "```")) with true.
  cbv iota.
  change (drop (String.length "```sql") ("```sql" ++ nl ++ body ++ nl ++ "```"))
    with (nl ++ body ++ nl ++ "```").
  rewrite H2, H3, Hj, body_open_end. reflexivity.
Qed.

Lemma strip_marker_body (m : string) :
  left_trimmed m = true -> m <> "" ->
  strip (m ++ nl ++ body) = m ++ nl ++ body.
Proof.
  intros Hm Hn. unfold strip.
  rewrite lstrip_of_left_trimmed by (now rewrite left_trimmed_app).
  rewrite <- append_assoc. apply rstrip_app_keep; [|exact body_nonempty].
  now apply strip_fixed_right.
Qed.

Lemma strip_marker_body_nl (m : string) :
  left_trimmed m = true -> m <> "" ->
  strip (m ++ nl ++ body ++ nl) = m ++ nl ++ body.
Proof.
  intros Hm Hn.
  replace (m ++ nl ++ body ++ nl) with ((m ++ nl ++ body) ++ nl)
    by (rewrite !append_assoc; reflexivity).
  apply strip_app_nl; [now apply strip_marker_body|].
  now apply app_nonempty_l.
Qed.

Lemma strip_marker_fenced (m : string) :
  left_trimmed m = true -> m <> "" ->
  strip (m ++ nl ++ body ++ nl ++ "```") = m ++ nl ++ body ++ nl ++ "```"
  /\ endswith "```" (m ++ nl ++ body ++ nl ++ "```") = true
  /\ drop_end (String.length "```") (m ++ nl ++ body ++ nl ++ "```")
     = m ++ nl ++ body ++ nl.
Proof.
  intros Hm Hn.
  replace (m ++ nl ++ body ++ nl ++ "```")
    with ((m ++ nl ++ body ++ nl) ++ "```")
    by (rewrite !append_assoc; reflexivity).
  split; [|split].
  - apply strip_fenced; [now rewrite left_trimmed_app | now apply app_nonempty_l].
  - apply endswith_app.
  - apply drop_end_app.
Qed.

(** X3: the same text inside a fence marked [json] is returned as it
    is, without the fence. *)
Theorem parse_json_fence :
  SimpleStrParser_parse ("```json" ++ nl ++ body ++ nl ++ "```") = body.
Proof.
  destruct (strip_marker_fenced "```json") as [H1 [H2 H3]];
    [reflexivity | discriminate |].
  unfold SimpleStrParser_parse. rewrite H1.
  change (startswith "```sql" ("```json" ++ nl ++ body ++ nl ++ "```")) with false.
  cbv iota. rewrite H2, H3.
  rewrite strip_marker_body_nl by (reflexivity || discriminate).
  change (startswith "```json" ("```json" ++ nl ++ body)) with true.
  cbv iota.
  change (drop (String.length "```json") ("```json" ++ nl ++ body))
    with (nl ++ body).
  change (strip (nl ++ body)) with (strip body).
  rewrite body_trimmed, body_open_end. reflexivity.
Qed.

Lemma endswith_after_bare_marker :
  endswith "```" ("```" ++ nl ++ body) = false.
Proof.
  pose proof body_open_end as H. unfold endswith in *.
  replace ("```" ++ nl ++ body) with (("```" ++ nl) ++ body) by reflexivity.
  rewrite rev_app.
  change (rev "```") with "```" in *. change (rev ("```" ++ nl)) with (nl ++ "```").
  destruct (rev body) as [|a [|b [|c r]]]; cbn in *;
    rewrite ?andb_false_r; auto.
Qed.

(** X4: a fence without a language marker loses its closing marker
    only: the opening marker and the line break stay in the returned text. *)
Theorem parse_bare_fence :
  SimpleStrParser_parse ("```" ++ nl ++ body ++ nl ++ "```")
  = "```" ++ nl ++ body.
Proof.
  destruct (strip_marker_fenced "```") as [H1 [H2 H3]];
    [reflexivity | discriminate |].
  unfold SimpleStrParser_parse. rewrite H1.
  change (startswith "```sql" ("```" ++ nl ++ body ++ nl ++ "```")) with false.
  cbv iota. rewrite H2, H3.
  rewrite strip_marker_body_nl by (reflexivity || discriminate).
  change (startswith "```json" ("```" ++ nl ++ body)) with false.
  cbv iota. rewrite endswith_after_bare_marker. reflexivity.
Qed.

End Fences.

(** ** Substrings *)

Lemma contains_unfold p s :
  contains p s
  = startswith p s || match s with "" => false | String _ r => contains p r end.
Proof. destruct s; reflexivity. Qed.

Lemma startswith_contains p s : startswith p s = true -> contains p s = true.
Proof. intros H. rewrite contains_unfold, H. reflexivity. Qed.

Lemma startswith_app_l p x y :
  startswith p x = true -> startswith p (x ++ y) = true.
Proof.
  revert x. induction p as [|a p IH]; intros x H; [reflexivity|].
  destruct x as [|b x]; [discriminate|]. cbn in *.
  apply andb_true_iff in H. destruct H as [H1 H2].
  now rewrite H1, IH.
Qed.

Lemma contains_app_l p x y : contains p x = true -> contains p (x ++ y) = true.
Proof.
  induction x as [|c x IH]; intros H.
  - rewrite contains_unfold in H. rewrite orb_false_r in H.
    apply startswith_contains. destruct p; [reflexivity | discriminate].
  - rewrite contains_unfold in H. apply orb_true_iff in H.
    cbn [append]. rewrite contains_unfold. apply orb_true_iff.
    destruct H as [H|H]; [left | right; now apply IH].
    now apply (startswith_app_l p (String c x) y).
Qed.

Lemma contains_app_r p x y : contains p y = true -> contains p (x ++ y) = true.
Proof.
  intros H. induction x as [|c x IH]; [exact H|].
  cbn [append]. rewrite contains_unfold, IH. apply orb_true_r.
Qed.

Lemma lstrip_suffix s : exists a, s = a ++ lstrip s.
Proof.
  induction s as [|c r [a IH]]; [now exists ""|].
  cbn [lstrip]. destruct (is_space c).
  - exists (String c a). cbn. now rewrite <- IH.
  - now exists "".
Qed.

Lemma rstrip_prefix s : exists b, s = rstrip s ++ b.
Proof.
  induction s as [|c r [b IH]]; [now exists ""|].
  cbn [rstrip]. destruct (rstrip r) as [|c' r'] eqn:E.
  - destruct (is_space c).
    + now exists (String c r).
    + exists r. reflexivity.
  - exists b. cbn in *. now f_equal.
Qed.

(** Whatever occurs in the trimmed text occurs in the text. *)
Lemma contains_strip p s : contains p (strip s) = true -> contains p s = true.
Proof.
  unfold strip. intros H.
  destruct (lstrip_suffix s) as [a Ha].
  destruct (rstrip_prefix (lstrip s)) as [b Hb].
  rewrite Ha. apply contains_app_r. rewrite Hb. now apply contains_app_l.
Qed.

Lemma startswith_inv p s :
  startswith p s = true -> s = p ++ drop (String.length p) s.
Proof.
  revert s. induction p as [|a p IH]; intros s H; [reflexivity|].
  destruct s as [|b s]; [discriminate|]. cbn in *.
  apply andb_true_iff in H. destruct H as [H1 H2].
  apply Ascii.eqb_eq in H1. subst b. f_equal. now apply IH.
Qed.

Lemma endswith_contains p s : endswith p s = true -> contains p s = true.
Proof.
  unfold endswith. intros H. apply startswith_inv in H.
  apply (f_equal rev) in H. rewrite rev_involutive, rev_app, rev_involutive in H.
  rewrite H. apply contains_app_r, startswith_contains.
  rewrite <- (append_nil_r p) at 2. apply startswith_app.
Qed.

Lemma startswith_trans p q s :
  startswith p q = true -> startswith q s = true -> startswith p s = true.
Proof.
  intros Hpq Hqs. apply startswith_inv in Hqs. rewrite Hqs.
  now apply startswith_app_l.
Qed.

(** X5: a text in which no fence marker occurs is trimmed and
    otherwise returned as it is. *)
Theorem parse_without_fence text :
  contains "```" text = false ->
  SimpleStrParser_parse text = strip text.
Proof.
  intros H.
  assert (Hs : contains "```" (strip text) = false).
  { destruct (contains "```" (strip text)) eqn:E; [|reflexivity].
    apply contains_strip in E. congruence. }
  assert (Hstart : forall q, startswith "```" q = true ->
                             startswith q (strip text) = false).
  { intros q Hq. destruct (startswith q (strip text)) eqn:E; [|reflexivity].
    rewrite (startswith_contains _ _ (startswith_trans _ _ _ Hq E)) in Hs.
    discriminate. }
  assert (Hend : endswith "```" (strip text) = false).
  { destruct (endswith "```" (strip text)) eqn:E; [|reflexivity].
    apply endswith_contains in E. congruence. }
  unfold SimpleStrParser_parse.
  rewrite (Hstart "```sql" eq_refl), Hend, (Hstart "```json" eq_refl), Hend.
  reflexivity.
Qed.

(** ** QueryExecutor: the accepted statements *)

(** X6: with a connection, a statement that carries neither sentinel
    and starts with SELECT is sent to the database once, trimmed; the result
    is what the database returned, or, when the call raised, the error text
    with the message of the exception and the attempted statement (lines
    95-98). *)
Theorem run_select_query_runs (d : Db) (sql : string) :
  contains "Cannot answer" sql = false ->
  contains "Error: SQL not generated" sql = false ->
  starts_select_ci sql = true ->
  run_select_query (Some d) sql
  = (match db_run d (strip sql) with
     | Ok rows => rows
     | Raise e => "Error executing SELECT query: " ++ exn_str e ++ nl
                  ++ "Attempted Query: " ++ strip sql
     end, [EDbRun (strip sql)]).
Proof.
  intros H1 H2 H3. unfold run_select_query.
  rewrite select_guard_spec, H1, H2, H3.
  assert (Ht : truthy sql = true).
  { unfold starts_select_ci in H3. destruct sql; [discriminate | reflexivity]. }
  rewrite Ht. cbn [negb orb]. unfold eff_bind, eff_call, eff_ret.
  destruct (db_run d (strip sql)); reflexivity.
Qed.

(** ** Quick actions *)

(** X7: the three quick action buttons (lines 331-349), from any
    session: Add Data and Delete Data set the current action and empty the
    description, the form values, the details, the guidance and the input
    method; Summarize sets the current action only.  The messages and the
    pending confirmation stay, nothing is shown or called, and the run ends
    with a rerun. *)
Theorem quick_action_restarts (env : Env) (ui : UI) (s : session) :
  (ui_trigger ui = Click BtnAddData ->
   run_session env ui s
   = {| messages := messages s;
        current_action := Some "add_data_initial_input";
        dml_initial_description := "";
        dml_form_inputs := [];
        dml_text_details := "";
        dml_guidance_message := None;
        dml_input_method := None;
        pending_dml_confirmation := pending_dml_confirmation s |})
  /\ (ui_trigger ui = Click BtnDeleteData ->
      run_session env ui s
      = {| messages := messages s;
           current_action := Some "delete_data_initial_input";
           dml_initial_description := "";
           dml_form_inputs := [];
           dml_text_details := "";
           dml_guidance_message := None;
           dml_input_method := None;
           pending_dml_confirmation := pending_dml_confirmation s |})
  /\ (ui_trigger ui = Click BtnSummarize ->
      run_session env ui s = set_current_action (Some "summarize_db") s)
  /\ (ui_trigger ui = Click BtnAddData \/ ui_trigger ui = Click BtnDeleteData
      \/ ui_trigger ui = Click BtnSummarize ->
      effects (run env ui s) = [] /\ notices (run env ui s) = []
      /\ run_ending env ui s = Some Rerun).
Proof.
  destruct s as [msgs ca desc inputs details gm method pend];
    destruct ui as [tr txt]; cbn [ui_trigger].
  split; [|split; [|split]].
  - intros ->. unfold_script. reflexivity.
  - intros ->. unfold_script. reflexivity.
  - intros ->. unfold_script. reflexivity.
  - intros [-> | [-> | ->]]; unfold_script; repeat split.
Qed.

(** ** The form loop *)

Lemma truthy_nonempty s : truthy s = true <-> s <> "".
Proof. destruct s; cbn; split; congruence. Qed.

Section FormLoop.

Variables (ui : UI) (action_verb : string).

Lemma collect_form_inputs_lookup fields :
  forall inputs f,
    dict_get (collect_form_inputs ui action_verb fields inputs) f
    = if in_dec string_dec f fields
      then Some (ui_text ui (form_input_key action_verb f))
      else dict_get inputs f.
Proof.
  induction fields as [|x rest IH]; intros inputs f; [reflexivity|].
  cbn [collect_form_inputs]. rewrite IH.
  destruct (in_dec string_dec f rest) as [Hr|Hr];
    destruct (in_dec string_dec f (x :: rest)) as [Hx|Hx];
    try reflexivity.
  - exfalso. apply Hx. now right.
  - destruct Hx as [->|Hx]; [apply dict_get_set_same | contradiction].
  - rewrite dict_get_set_other; [reflexivity|].
    intros ->. apply Hx. now left.
Qed.

(** X8: after the loop over the suggested fields (lines 439-444) every
    suggested field holds the content of its text input, and every other key
    of the form values holds what it held. *)
Theorem collect_form_inputs_spec fields inputs f :
  (In f fields ->
   dict_get (collect_form_inputs ui action_verb fields inputs) f
   = Some (ui_text ui (form_input_key action_verb f)))
  /\ (~ In f fields ->
      dict_get (collect_form_inputs ui action_verb fields inputs) f
      = dict_get inputs f).
Proof.
  rewrite collect_form_inputs_lookup.
  destruct (in_dec string_dec f fields); split; intros H;
    try reflexivity; contradiction.
Qed.

Lemma any_filled_after_collect fields inputs :
  any_filled (collect_form_inputs ui action_verb fields inputs) fields
  = existsb (fun f => truthy (ui_text ui (form_input_key action_verb f))) fields.
Proof.
  unfold any_filled.
  assert (H : forall l : list string,
             (forall f, In f l -> In f fields) ->
             existsb (fun f => opt_truthy truthy
                        (dict_get (collect_form_inputs ui action_verb fields inputs) f)) l
             = existsb (fun f => truthy (ui_text ui (form_input_key action_verb f))) l).
  { induction l as [|x l IH]; intros Hl; [reflexivity|].
    cbn [existsb]. rewrite IH by (intros f Hf; apply Hl; now right).
    rewrite collect_form_inputs_lookup.
    destruct (in_dec string_dec x fields) as [_|Hx]; [reflexivity|].
    exfalso. apply Hx, Hl. now left. }
  apply H. auto.
Qed.

End FormLoop.

(** ** Accepted submissions *)

(** X9: the three accepted submissions: Get Guidance with a description
    that is not blank (lines 380-383), Submit Details with at least one
    suggested field filled (lines 445-449) and Generate from Text with
    details that are not blank (lines 464-467) store the widget content,
    set the processing action of the verb and end the run with a rerun,
    without a box and without a call. *)
Theorem submission_accepted (env : Env) (ui : UI) (s : session) :
  let action_verb := action_verb_of (current_action s) in
  (ui_stage s = StageInitialInput ->
   ui_trigger ui = Click BtnGetGuidance ->
   strip (ui_text ui ("dml_init_desc_" ++ action_verb)) <> "" ->
   run_session env ui s
   = set_current_action
       (Some ("process_initial_dml_description_" ++ lower action_verb))
       (set_dml_initial_description
          (ui_text ui ("dml_init_desc_" ++ action_verb)) s)
   /\ notices (run env ui s) = []
   /\ effects (run env ui s) = []
   /\ run_ending env ui s = Some Rerun)
  /\ (ui_stage s = StageDetails ->
      opt_truthy dict_truthy (dml_guidance_message s) = true ->
      dml_input_method s = Some "form" ->
      pyval_truthy (suggested_fields_of (dml_guidance_message s)) = true ->
      ui_trigger ui = Click BtnFormSubmit ->
      (exists f,
         In f (pyval_iter (suggested_fields_of (dml_guidance_message s)))
         /\ ui_text ui (form_input_key action_verb f) <> "") ->
      run_session env ui s
      = set_current_action
          (Some ("process_structured_dml_" ++ lower action_verb))
          (set_dml_form_inputs
             (collect_form_inputs ui action_verb
                (pyval_iter (suggested_fields_of (dml_guidance_message s)))
                (dml_form_inputs s)) s)
      /\ notices (run env ui s) = []
      /\ effects (run env ui s) = []
      /\ run_ending env ui s = Some Rerun)
  /\ (ui_stage s = StageDetails ->
      opt_truthy dict_truthy (dml_guidance_message s) = true ->
      dml_input_method s = Some "text" ->
      ui_trigger ui = Click BtnGenerateFromText ->
      strip (ui_text ui ("dml_text_details_" ++ action_verb)) <> "" ->
      run_session env ui s
      = set_current_action
          (Some ("process_structured_dml_" ++ lower action_verb))
          (set_dml_text_details
             (ui_text ui ("dml_text_details_" ++ action_verb)) s)
      /\ notices (run env ui s) = []
      /\ effects (run env ui s) = []
      /\ run_ending env ui s = Some Rerun).
Proof.
  cbv zeta. split; [|split].
  - intros Hs Ht He. apply truthy_nonempty in He.
    destruct (stage_initial_input_inv s Hs) as [Ha|Ha];
      destruct s as [msgs ca desc inputs details gm method pend];
      destruct ui as [tr txt]; simpl in *; subst; cbn in *;
      run_in_stage Hs; rewrite He; cbn; repeat split.
  - intros Hs Hg Hm Hf Ht [f [Hin He]].
    assert (Ha : forall v,
      any_filled
        (collect_form_inputs ui v
           (pyval_iter (suggested_fields_of (dml_guidance_message s)))
           (dml_form_inputs s))
        (pyval_iter (suggested_fields_of (dml_guidance_message s)))
      = existsb (fun f => truthy (ui_text ui (form_input_key v f)))
          (pyval_iter (suggested_fields_of (dml_guidance_message s))))
      by (intros v; apply any_filled_after_collect).
    assert (Hex :
      existsb (fun f => truthy (ui_text ui
                 (form_input_key (action_verb_of (current_action s)) f)))
        (pyval_iter (suggested_fields_of (dml_guidance_message s))) = true).
    { apply existsb_exists. exists f. split; [exact Hin|].
      now apply truthy_nonempty. }
    destruct (stage_details_inv s Hs) as [Hc|Hc];
      destruct s as [msgs ca desc inputs details [[|kv g]|] method pend];
      try discriminate;
      destruct ui as [tr txt]; simpl in *; subst; cbn in *;
      run_in_stage Hs; rewrite Hf; cbn; rewrite Ha, Hex; cbn; repeat split.
  - intros Hs Hg Hm Ht He. apply truthy_nonempty in He.
    destruct (stage_details_inv s Hs) as [Hc|Hc];
      destruct s as [msgs ca desc inputs details [[|kv g]|] method pend];
      try discriminate;
      destruct ui as [tr txt]; simpl in *; subst; cbn in *;
      run_in_stage Hs; rewrite He; cbn; repeat split.
Qed.

(** The stage of a session whose current action is none of the six stage
    names depends on the pending confirmation only. *)
Lemma ui_stage_processing s a :
  current_action s = Some a ->
  in_list a ["add_data_initial_input"; "delete_data_initial_input";
             "awaiting_dml_input_method_add"; "awaiting_dml_input_method_delete";
             "awaiting_structured_dml_details_add";
             "awaiting_structured_dml_details_delete"] = false ->
  ui_stage s
  = if opt_truthy (fun _ => true) (pending_dml_confirmation s)
    then StageConfirmation else StageNone.
Proof.
  intros Hc Hn. unfold ui_stage, ca_in. rewrite Hc. cbn [opt_truthy].
  unfold in_list in *. cbn [existsb] in *.
  repeat (apply orb_false_iff in Hn; destruct Hn as [? Hn]).
  repeat match goal with H : String.eqb _ _ = false |- _ => rewrite H; clear H end.
  reflexivity.
Qed.

(** ** The guidance step *)

#[local] Arguments dml_guidance_chain : simpl never.
#[local] Arguments initial_processing_chain : simpl never.
#[local] Arguments select_answer_chain : simpl never.
#[local] Arguments db_summary_chain : simpl never.
#[local] Arguments run_select_query : simpl never.
#[local] Arguments run_simulated_dml_query : simpl never.
#[local] Arguments last_content : simpl never.
#[local] Arguments exception_text : simpl never.

Lemma dml_guidance_logged env a d t sc :
  snd (dml_guidance_chain env a d t sc) = [ELlmGuidance].
Proof. reflexivity. Qed.

(** X10: the run that processes [process_initial_dml_description_add] or
    [_delete] (lines 582-595) reads the schema and asks the guidance model
    once, then reruns; the decoded answer becomes the guidance of the
    session and the stage becomes the input-method stage, and an exception
    of the chain becomes an error message with the current action unset. *)
Theorem guidance_step (env : Env) (ui : UI) (s : session) (action_verb : string) :
  ui_trigger ui = NoTrigger ->
  action_verb = "add" \/ action_verb = "delete" ->
  current_action s = Some ("process_initial_dml_description_" ++ action_verb) ->
  effects (run env ui s) = (snd (get_schema (env_db env)) ++ [ELlmGuidance])%list
  /\ run_ending env ui s = Some Rerun
  /\ match guidance_answer env action_verb s with
     | Ok guidance =>
         run_session env ui s
         = set_current_action (Some ("awaiting_dml_input_method_" ++ action_verb))
             (set_dml_guidance_message (Some guidance) s)
         /\ ui_stage (run_session env ui s) = StageInputMethod
     | Raise e => run_session env ui s = after_exception env e s
     end.
Proof.
  intros Ht Hv Hc.
  assert (Hstage := ui_stage_processing s _ Hc).
  destruct s as [msgs ca desc inputs details gm method pend];
    destruct ui as [tr txt]; unfold guidance_answer, after_exception in *;
    simpl in Ht, Hc; subst tr ca.
  destruct Hv; subst action_verb; specialize (Hstage eq_refl);
    destruct pend as [p|]; cbn in Hstage;
    run_in_stage Hstage;
    rewrite dml_guidance_logged;
    match goal with
    | |- context [fst (dml_guidance_chain ?e ?a ?b ?c ?d)] =>
        destruct (fst (dml_guidance_chain e a b c d)) eqn:Hg
    end; cbn; repeat split.
Qed.

(** ** A chat turn *)

Lemma chat_processing_frame (env : Env) (ui : UI) (s : session) :
  ui_trigger ui = NoTrigger ->
  current_action s = Some "process_chat_input" ->
  exists r,
    run_session env ui s = after_reply r s
    /\ run_ending env ui s = Some Rerun.
Proof.
  intros Ht Hc.
  assert (Hstage := ui_stage_processing s _ Hc eq_refl).
  destruct s as [msgs ca desc inputs details gm method pend];
    destruct ui as [tr txt]; unfold after_reply;
    simpl in Ht, Hc; subst tr ca.
  destruct pend as [p|]; cbn in Hstage; run_in_stage Hstage;
    split_tests; eexists; split; reflexivity.
Qed.

#[local] Arguments opt_str_eqb : simpl never.

(** X11: how [process_chat_input] (lines 553-580) routes an answer of
    the intent model: a SELECT_QUERY without a usable statement echoes the
    statement field and runs nothing; clarification, DML intent and general
    answers show the model's text; an unknown response type shows the fixed
    error; a SELECT_QUERY with a statement calls [run_select_query] and then
    the answer model, in this order. *)
Theorem chat_routing (env : Env) (ui : UI) (s : session)
    (question : content) (j : intent) :
  ui_trigger ui = NoTrigger ->
  current_action s = Some "process_chat_input" ->
  last_content (messages s) = Ok question ->
  fst (initial_processing_chain env question) = Ok j ->
  (ij_response_type j = Some "SELECT_QUERY" ->
   match ij_generated_sql j with
   | Some sql => truthy sql = false \/ contains "Cannot answer" sql = true
   | None => True
   end ->
   run_session env ui s
   = after_reply {| r_ai_response := ij_generated_sql j;
                    r_generated_sql_display := ij_generated_sql j;
                    r_sql_query_result_display := None;
                    r_error := None |} s
   /\ effects (run env ui s) = snd (initial_processing_chain env question))
  /\ (ij_response_type j = Some "CLARIFICATION_NEEDED_FOR_SELECT"
      \/ ij_response_type j = Some "DML_INTENT_DETECTED"
      \/ ij_response_type j = Some "GENERAL_RESPONSE" ->
      run_session env ui s
      = after_reply {| r_ai_response := ij_ai_response j;
                       r_generated_sql_display := None;
                       r_sql_query_result_display := None;
                       r_error := None |} s
      /\ effects (run env ui s) = snd (initial_processing_chain env question))
  /\ (existsb (opt_str_eqb (ij_response_type j)) response_types = false ->
      run_session env ui s
      = after_reply (error_reply "Unexpected AI response type.") s
      /\ effects (run env ui s) = snd (initial_processing_chain env question))
  /\ (forall sql,
      ij_response_type j = Some "SELECT_QUERY" ->
      ij_generated_sql j = Some sql ->
      truthy sql = true ->
      contains "Cannot answer" sql = false ->
      effects (run env ui s)
      = (snd (initial_processing_chain env question)
         ++ snd (run_select_query (env_db env) sql) ++ [ELlmAnswer])%list
      /\ match fst (select_answer_chain env question sql
                      (fst (run_select_query (env_db env) sql))) with
         | Ok nl_answer =>
             run_session env ui s
             = after_reply
                 {| r_ai_response := Some nl_answer;
                    r_generated_sql_display := Some sql;
                    r_sql_query_result_display :=
                      Some (fst (run_select_query (env_db env) sql));
                    r_error := None |} s
         | Raise e => run_session env ui s = after_exception env e s
         end).
Proof.
  intros Ht Hc Hq Hj.
  assert (Hstage := ui_stage_processing s _ Hc eq_refl).
  destruct s as [msgs ca desc inputs details gm method pend];
    destruct ui as [tr txt]; unfold after_reply, after_exception;
    simpl in Ht, Hc, Hq; subst tr ca.
  split; [|split; [|split]].
  - intros Hr Hsql.
    destruct pend as [p|]; cbn in Hstage; run_in_stage Hstage;
      rewrite Hq; cbn; rewrite Hj; cbn; rewrite Hr; unfold opt_str_eqb; cbn;
      (destruct (ij_generated_sql j) as [sql|];
       [destruct Hsql as [Hsql|Hsql]; rewrite Hsql; cbn;
        rewrite ?andb_false_r; cbn
       |]); split; reflexivity.
  - intros Hr.
    destruct pend as [p|]; cbn in Hstage; run_in_stage Hstage;
      rewrite Hq; cbn; rewrite Hj; cbn;
      destruct Hr as [Hr|[Hr|Hr]]; rewrite Hr; unfold opt_str_eqb; cbn;
      split; reflexivity.
  - intros Hr. unfold response_types in Hr. cbn [existsb] in Hr.
    repeat (apply orb_false_iff in Hr; destruct Hr as [? Hr]).
    destruct pend as [p|]; cbn in Hstage; run_in_stage Hstage;
      rewrite Hq; cbn; rewrite Hj; cbn;
      repeat match goal with
             | H : opt_str_eqb _ _ = false |- _ => rewrite H; clear H
             end; cbn; split; reflexivity.
  - intros sql Hr Hsql Htr Hca.
    assert (Hlog : forall q g r, snd (select_answer_chain env q g r) = [ELlmAnswer])
      by reflexivity.
    destruct pend as [p|]; cbn in Hstage; run_in_stage Hstage;
      rewrite Hq; cbn; rewrite Hj; cbn; rewrite Hr; unfold opt_str_eqb; cbn;
      rewrite Hsql; cbn; rewrite Htr, Hca; cbn; rewrite Hlog;
      destruct (fst (select_answer_chain env question sql
                       (fst (run_select_query (env_db env) sql))));
      cbn; rewrite <- ?app_assoc; split; reflexivity.
Qed.

(** ** Exceptions in the processing block *)

(** X12: an exception in the processing block (handlers of lines
    636-644): from the last-message read or the intent chain, from the
    summary chain, or from the generation chain; the run appends one error
    message and unsets the current action, and leaves the pending
    confirmation and the guidance as they were. *)
Theorem processing_exception (env : Env) (ui : UI) (s : session) (e : exn) :
  ui_trigger ui = NoTrigger ->
  (current_action s = Some "process_chat_input" ->
   (last_content (messages s) = Raise e
    \/ exists question,
         last_content (messages s) = Ok question
         /\ fst (initial_processing_chain env question) = Raise e) ->
   run_session env ui s = after_exception env e s)
  /\ (current_action s = Some "summarize_db" ->
      fst (db_summary_chain env) = Raise e ->
      run_session env ui s = after_exception env e s)
  /\ (forall action_verb details,
      action_verb = "add" \/ action_verb = "delete" ->
      current_action s = Some ("process_structured_dml_" ++ action_verb) ->
      structured_details s = Some details ->
      generated_dml env action_verb details = Raise e ->
      run_session env ui s = after_exception env e s)
  /\ pending_dml_confirmation (after_exception env e s)
     = pending_dml_confirmation s
  /\ dml_guidance_message (after_exception env e s) = dml_guidance_message s
  /\ current_action (after_exception env e s) = None.
Proof.
  intros Ht.
  split; [|split; [|split; [|repeat split]]].
  - intros Hc Hq.
    assert (Hstage := ui_stage_processing s _ Hc eq_refl).
    destruct s as [msgs ca desc inputs details gm method pend];
      destruct ui as [tr txt]; unfold after_exception;
      simpl in Ht, Hc, Hq; subst tr ca.
    destruct Hq as [Hq|[question [Hq Hj]]];
      destruct pend as [p|]; cbn in Hstage; run_in_stage Hstage;
      rewrite Hq; cbn; rewrite ?Hj; reflexivity.
  - intros Hc Hr.
    assert (Hstage := ui_stage_processing s _ Hc eq_refl).
    destruct s as [msgs ca desc inputs details gm method pend];
      destruct ui as [tr txt]; unfold after_exception;
      simpl in Ht, Hc; subst tr ca.
    destruct pend as [p|]; cbn in Hstage; run_in_stage Hstage;
      rewrite Hr; reflexivity.
  - intros action_verb details Hv Hc Hd Hg.
    assert (Hstage := ui_stage_processing s _ Hc).
    destruct s as [msgs ca desc inputs details0 gm method pend];
      destruct ui as [tr txt];
      unfold after_exception, structured_details, generated_dml in *;
      simpl in Ht, Hc, Hd; subst tr ca.
    destruct Hv; subst action_verb; specialize (Hstage eq_refl); cbn in Hg;
      (destruct (opt_str_eqb method "form") eqn:Hform;
       [|destruct (opt_str_eqb method "text") eqn:Htext; [|discriminate]]);
      injection Hd as <-;
      destruct pend as [p|]; cbn in Hstage; run_in_stage Hstage;
      rewrite ?Hform, ?Htext; cbn; rewrite Hg; reflexivity.
Qed.

(** ** A whole chat turn *)

#[local] Arguments chat_input_disabled : simpl never.

Lemma last_content_append ms m : last_content (ms ++ [m]) = Ok (m_content m).
Proof. unfold last_content. now rewrite List.rev_app_distr. Qed.

(** X13: a chat turn outside the Add and Delete flows (lines 541-545
    and 553-580): the submission appends the user's text, sets
    [process_chat_input] and reruns without a call; the rerun then appends
    exactly one assistant message and unsets the current action. *)
Theorem chat_turn (env : Env) (ui ui' : UI) (s : session) (text : string) :
  ui_stage s = StageNone ->
  chat_input_disabled s = false ->
  ui_trigger ui = ChatSubmit text ->
  ui_trigger ui' = NoTrigger ->
  text <> "" ->
  let user := {| m_role := User; m_content := Text text |} in
  let s1 := run_session env ui s in
  s1 = set_current_action (Some "process_chat_input") (append_message user s)
  /\ run_ending env ui s = Some Rerun
  /\ effects (run env ui s) = []
  /\ last_content (messages s1) = Ok (Text text)
  /\ exists r,
       run_session env ui' s1
       = set_messages (messages s ++ [user; assistant r])%list
           (set_current_action None s).
Proof.
  intros Hs Hd Ht Ht' Hn. cbv zeta.
  assert (H1 : run_session env ui s
               = set_current_action (Some "process_chat_input")
                   (append_message {| m_role := User; m_content := Text text |} s)
               /\ run_ending env ui s = Some Rerun
               /\ effects (run env ui s) = []).
  { apply truthy_nonempty in Hn.
    destruct s as [msgs ca desc inputs details gm method pend];
      destruct ui as [tr txt]; simpl in Ht; subst tr.
    run_in_stage Hs. rewrite Hd. cbn. rewrite Hn. cbn. repeat split. }
  destruct H1 as [H1 [H2 H3]]. rewrite H1.
  split; [reflexivity|]. split; [exact H2|]. split; [exact H3|].
  split; [apply last_content_append|].
  destruct (chat_processing_frame env ui'
              (set_current_action (Some "process_chat_input")
                 (append_message {| m_role := User; m_content := Text text |} s))
              Ht' eq_refl) as [r [Hr _]].
  exists r. rewrite Hr. unfold after_reply, append_message.
  destruct s; cbn. now rewrite <- app_assoc.
Qed.

(** ** The Summarize button *)

(** X14: the Summarize DB button followed by its rerun (lines 347-349
    and 629-634) calls the summary chain once and appends the summary under
    its heading, or the error message when the chain raised. *)
Theorem summarize_turn (env : Env) (ui ui' : UI) (s : session) :
  ui_trigger ui = Click BtnSummarize ->
  ui_trigger ui' = NoTrigger ->
  let s1 := run_session env ui s in
  effects (run env ui' s1) = snd (db_summary_chain env)
  /\ match fst (db_summary_chain env) with
     | Ok summary =>
         run_session env ui' s1
         = after_reply (ai_reply ("**Database Summary:**" ++ nl ++ nl ++ summary)) s
     | Raise e => run_session env ui' s1 = after_exception env e s
     end.
Proof.
  intros Ht Ht'. cbv zeta.
  assert (H1 : run_session env ui s = set_current_action (Some "summarize_db") s)
    by (destruct s, ui as [tr txt]; simpl in Ht; subst tr;
        unfold_script; reflexivity).
  rewrite H1.
  assert (Hstage := ui_stage_processing
                      (set_current_action (Some "summarize_db") s) _ eq_refl eq_refl).
  destruct s as [msgs ca desc inputs details gm method pend];
    destruct ui' as [tr txt]; unfold after_reply, after_exception;
    simpl in Ht'; subst tr.
  destruct pend as [p|]; cbn in Hstage; run_in_stage Hstage;
    destruct (fst (db_summary_chain env)); cbn; split; reflexivity.
Qed.

(** ** Confirming *)

Lemma run_simulated_dml_query_silent sql action :
  snd (run_simulated_dml_query sql action) = [].
Proof.
  unfold run_simulated_dml_query.
  repeat match goal with
         | |- context [if ?b then _ else _] => destruct b
         end; reflexivity.
Qed.

(** X15: Confirm in the confirmation stage (lines 491-496) appends the
    text of [run_simulated_dml_query] for the pending statement, empties the
    pending confirmation and the current action, calls no collaborator, and
    leaves a session outside every stage with the chat input enabled. *)
Theorem proceed_simulates (env : Env) (ui : UI) (s : session) (p : confirmation) :
  ui_stage s = StageConfirmation ->
  pending_dml_confirmation s = Some p ->
  ui_trigger ui = Click BtnProceed ->
  let s' := run_session env ui s in
  s' = set_current_action None
         (set_pending_dml_confirmation None
            (append_message
               (assistant
                  (ai_reply (fst (run_simulated_dml_query (pc_sql p) (pc_action p)))))
               s))
  /\ effects (run env ui s) = []
  /\ run_ending env ui s = Some Rerun
  /\ ui_stage s' = StageNone
  /\ chat_input_disabled s' = false.
Proof.
  intros Hs Hp Ht. cbv zeta.
  destruct s as [msgs ca desc inputs details gm method pend];
    destruct ui as [tr txt]; simpl in *; subst.
  run_in_stage Hs. rewrite run_simulated_dml_query_silent.
  repeat split.
Qed.

(** ** Defensive guards *)

(** X16: what the guards for missing data do in a run without a
    click: the input-method stage without guidance shows an error and unsets
    the current action (lines 418-420); the details stage without guidance
    (lines 427-428) and the generation step without an input method (lines
    610-611) show an error and stop the run with the session unchanged and
    no call made. *)
Theorem missing_data_guards (env : Env) (ui : UI) (s : session) :
  ui_trigger ui = NoTrigger ->
  (ui_stage s = StageInputMethod ->
   opt_truthy dict_truthy (dml_guidance_message s) = false ->
   run_session env ui s = set_current_action None s
   /\ notices (run env ui s)
      = [Error "Guidance message not found. Please start the DML action again."]
   /\ effects (run env ui s) = []
   /\ run_ending env ui s = None)
  /\ (ui_stage s = StageDetails ->
      opt_truthy dict_truthy (dml_guidance_message s) = false ->
      run_session env ui s = s
      /\ notices (run env ui s)
         = [Error "Error: DML guidance is missing. Please restart the Add/Delete action."]
      /\ effects (run env ui s) = []
      /\ run_ending env ui s = Some Stop)
  /\ (forall action_verb,
      action_verb = "add" \/ action_verb = "delete" ->
      current_action s = Some ("process_structured_dml_" ++ action_verb) ->
      structured_details s = None ->
      run_session env ui s = s
      /\ In (Error "DML Input method not determined.") (notices (run env ui s))
      /\ effects (run env ui s) = []
      /\ run_ending env ui s = Some Stop).
Proof.
  intros Ht. split; [|split].
  - intros Hs Hg.
    destruct (stage_input_method_inv s Hs) as [Ha|Ha];
      destruct s as [msgs ca desc inputs details gm method pend];
      destruct ui as [tr txt]; simpl in *; subst;
      run_in_stage Hs; rewrite Hg; cbn; repeat split.
  - intros Hs Hg.
    destruct (stage_details_inv s Hs) as [Ha|Ha];
      destruct s as [msgs ca desc inputs details gm method pend];
      destruct ui as [tr txt]; simpl in *; subst;
      run_in_stage Hs; rewrite Hg; cbn; repeat split.
  - intros action_verb Hv Hc Hd.
    assert (Hstage := ui_stage_processing s _ Hc).
    destruct s as [msgs ca desc inputs details0 gm method pend];
      destruct ui as [tr txt]; unfold structured_details in *;
      simpl in Ht, Hc, Hd; subst tr ca.
    destruct Hv; subst action_verb; specialize (Hstage eq_refl);
      (destruct (opt_str_eqb method "form") eqn:Hform; [discriminate|]);
      (destruct (opt_str_eqb method "text") eqn:Htext; [discriminate|]);
      destruct pend as [p|]; cbn in Hstage; run_in_stage Hstage;
      rewrite Hform, Htext; cbn; repeat split; auto.
Qed.

(** ** The details of a form *)

Lemma join_nonempty sep x l : x <> "" -> join sep (x :: l) <> "".
Proof.
  intros Hx. destruct l as [|y l]; cbn [join]; [exact Hx|].
  destruct x; [contradiction | discriminate].
Qed.

Lemma dict_get_in {V} (d : dict V) k v : dict_get d k = Some v -> In (k, v) d.
Proof.
  induction d as [|[k' v'] d IH]; [discriminate|]. cbn.
  destruct (String.eqb_spec k' k) as [->|Hn].
  - intros [= ->]. now left.
  - intros H. right. now apply IH.
Qed.

Lemma contains_refl x : contains x x = true.
Proof.
  apply startswith_contains.
  rewrite <- (append_nil_r x) at 2. apply startswith_app.
Qed.

Lemma contains_join sep x l : In x l -> contains x (join sep l) = true.
Proof.
  induction l as [|y l IH]; [contradiction|].
  intros Hin. cbn [join]. destruct l as [|z l].
  - destruct Hin as [->|[]]. apply contains_refl.
  - destruct Hin as [->|Hin].
    + apply contains_app_l, contains_refl.
    + apply contains_app_r, contains_app_r, IH, Hin.
Qed.

Lemma pair_text_nonempty f v :
  f ++ "='" ++ replace_char quote "''" v ++ "'" <> "".
Proof. destruct f; discriminate. Qed.

(** X17: the details text built from a form (lines 604-607) carries every
    filled field as a [field='value'] pair with the quotes of the value
    doubled; it is non-empty whenever the validation of line 447 accepted
    the form, and empty when every value is empty. *)
Theorem form_details_spec (inputs : dict string) :
  (forall f v, dict_get inputs f = Some v -> v <> "" ->
     contains (f ++ "='" ++ replace_char quote "''" v ++ "'")
       (form_details inputs) = true)
  /\ (forall fields, any_filled inputs fields = true -> form_details inputs <> "")
  /\ ((forall f v, In (f, v) inputs -> v = "") -> form_details inputs = "").
Proof.
  assert (Hpair : forall f v, dict_get inputs f = Some v -> v <> "" ->
            In (f ++ "='" ++ replace_char quote "''" v ++ "'")
               (map (fun kv => fst kv ++ "='" ++ replace_char quote "''" (snd kv) ++ "'")
                  (filter (fun kv => truthy (snd kv)) inputs))).
  { intros f v Hget Hv.
    apply (in_map (fun kv => fst kv ++ "='" ++ replace_char quote "''" (snd kv) ++ "'")
             _ (f, v)).
    apply filter_In. split; [now apply dict_get_in|].
    now apply truthy_nonempty. }
  split; [|split].
  - intros f v Hget Hv. unfold form_details. apply contains_join. now apply Hpair.
  - intros fields H. unfold any_filled in H.
    apply existsb_exists in H. destruct H as [f [_ Hf]].
    destruct (dict_get inputs f) as [v|] eqn:E; [|discriminate]. cbn in Hf.
    apply truthy_nonempty in Hf. specialize (Hpair f v E Hf).
    unfold form_details.
    destruct (map _ (filter _ inputs)) as [|x l] eqn:El; [contradiction|].
    apply join_nonempty.
    destruct (filter (fun kv => truthy (snd kv)) inputs) as [|kv rest];
      [discriminate El|].
    cbn [map] in El. injection El as <- _. apply pair_text_nonempty.
  - intros Hall. unfold form_details.
    assert (E : filter (fun kv : string * string => truthy (snd kv)) inputs = []).
    { clear Hpair. induction inputs as [|[k v] d IH]; [reflexivity|].
      cbn [filter snd]. rewrite (Hall k v (or_introl eq_refl)). cbn.
      apply IH. intros f w Hin. apply (Hall f w). now right. }
    rewrite E. reflexivity.
Qed.

(** ** The actions of a reachable session *)

Lemma opt_str_eqb_true o s : opt_str_eqb o s = true -> o = Some s.
Proof.
  destruct o as [x|]; [|discriminate]. cbn. intros H.
  apply String.eqb_eq in H. now subst.
Qed.

Section KnownActions.

#[local] Arguments startswith : simpl never.
#[local] Arguments truthy : simpl never.
#[local] Arguments contains : simpl never.
#[local] Arguments capitalize : simpl never.
#[local] Arguments pressed : simpl never.
#[local] Arguments chat_input_value : simpl never.
#[local] Arguments collect_form_inputs : simpl never.
#[local] Arguments String.eqb : simpl never.
#[local] Arguments world_wf : simpl never.
#[local] Arguments known_action : simpl never.
#[local] Arguments ca_in : simpl never.

Ltac close HK HM :=
  unfold world_wf, session_wf; cbn; split;
  [ first [ exact HK | reflexivity ]
  | first
      [ exact HM
      | intros Hd; exfalso; vm_compute in Hd; discriminate Hd
      | intros _;
        match goal with
        | H : opt_str_eqb _ "form" = true |- _ =>
            left; exact (opt_str_eqb_true _ _ H)
        | H : opt_str_eqb _ "text" = true |- _ =>
            right; exact (opt_str_eqb_true _ _ H)
        end ] ].

Ltac crunch :=
  intros w [HK HM];
  destruct w as [[msgs ca desc inputs details gm method pend] nts eff];
  cbn in HK, HM;
  unfold_script; cbn; split_tests.

Lemma quick_actions_wf ui : preserves world_wf (quick_actions ui).
Proof. crunch; close HK HM. Qed.

Lemma chat_input_wf ui : preserves world_wf (chat_input ui).
Proof. crunch; close HK HM. Qed.

Lemma dml_stages_wf ui : preserves world_wf (dml_stages ui).
Proof.
  intros w [HK HM].
  destruct w as [[msgs ca desc inputs details gm method pend] nts eff].
  cbn in HK, HM.
  unfold dml_stages. unfold bind at 1, get at 1. cbn [ss fst snd].
  match goal with
  | |- context [match ?x with _ => _ end] => destruct x eqn:Hs
  end.
  - destruct (stage_initial_input_inv _ Hs) as [Hc|Hc]; cbn in Hc; subst ca;
      unfold_script; cbn; split_tests; close HK HM.
  - destruct (stage_input_method_inv _ Hs) as [Hc|Hc]; cbn in Hc; subst ca;
      unfold_script; cbn; split_tests; close HK HM.
  - destruct (stage_details_inv _ Hs) as [Hc|Hc]; cbn in Hc; subst ca;
      unfold_script; cbn; split_tests; close HK HM.
  - unfold_script; cbn; split_tests; close HK HM.
  - close HK HM.
Qed.

Lemma process_actions_wf env : preserves world_wf (process_actions env).
Proof. crunch; close HK HM. Qed.

Lemma script_wf env ui : preserves world_wf (script env ui).
Proof.
  apply preserves_script;
    [apply quick_actions_wf | apply dml_stages_wf
    |apply chat_input_wf | apply process_actions_wf].
Qed.

End KnownActions.

Lemma reach_session_wf tr s : reach tr s -> session_wf s.
Proof.
  induction 1 as [|tr s env ui Hr IH].
  - split; [reflexivity | discriminate].
  - exact (script_wf env ui (fresh s) IH).
Qed.

(** ** What reaches the database *)

Lemma read_only_nil : read_only [].
Proof. intros q []. Qed.

Lemma read_only_app a b : read_only a -> read_only b -> read_only (a ++ b).
Proof.
  intros Ha Hb q Hin. apply in_app_or in Hin. destruct Hin; auto.
Qed.

Lemma get_schema_read_only db : read_only (snd (get_schema db)).
Proof.
  unfold get_schema. destruct db as [d|]; [|apply read_only_nil].
  cbn. destruct (db_get_table_info d); intros q [H|[]]; discriminate H.
Qed.

Lemma run_select_query_read_only db sql :
  read_only (snd (run_select_query db sql)).
Proof.
  unfold run_select_query. destruct db as [d|]; [|apply read_only_nil].
  destruct (select_guard_refuses sql) eqn:G; [apply read_only_nil|].
  rewrite select_guard_spec in G.
  apply orb_false_iff in G. destruct G as [_ G].
  apply negb_false_iff in G. unfold starts_select_ci in G.
  cbn. destruct (db_run d (strip sql)); intros q [H|[]] _;
    injection H as <-; exact G.
Qed.

Lemma initial_processing_chain_read_only env q :
  read_only (snd (initial_processing_chain env q)).
Proof.
  unfold initial_processing_chain, eff_bind, eff_call.
  pose proof (get_schema_read_only (env_db env)) as H.
  destruct (get_schema (env_db env)) as [t l]. cbn in *.
  apply read_only_app; [exact H|]. intros x [E|[]]; discriminate E.
Qed.

Lemma db_summary_chain_read_only env : read_only (snd (db_summary_chain env)).
Proof.
  unfold db_summary_chain, eff_bind, eff_call.
  pose proof (get_schema_read_only (env_db env)) as H.
  destruct (get_schema (env_db env)) as [t l]. cbn in *.
  apply read_only_app; [exact H|]. intros x [E|[]]; discriminate E.
Qed.

Lemma select_answer_chain_read_only env q sql r :
  read_only (snd (select_answer_chain env q sql r)).
Proof. intros x [E|[]]; discriminate E. Qed.

Lemma dml_guidance_chain_read_only env a d t sc :
  read_only (snd (dml_guidance_chain env a d t sc)).
Proof. intros x [E|[]]; discriminate E. Qed.

Lemma dml_generation_chain_read_only env a d t sc :
  read_only (snd (dml_generation_chain env a d t sc)).
Proof. intros x [E|[]]; discriminate E. Qed.

Lemma run_simulated_dml_query_read_only sql action :
  read_only (snd (run_simulated_dml_query sql action)).
Proof. rewrite run_simulated_dml_query_silent. apply read_only_nil. Qed.

Lemma eff_ret_read_only {A} (x : A) : read_only (snd (eff_ret x)).
Proof. apply read_only_nil. Qed.

Create HintDb readonly.

Section ReadOnly.

Let I := effects_read_only.

Lemma read_only_get {A} (f : session -> A) : preserves I (get f).
Proof. intros w H. exact H. Qed.

Lemma read_only_assign f : preserves I (assign f).
Proof. intros w H. exact H. Qed.

Lemma read_only_show n : preserves I (show n).
Proof. intros w H. exact H. Qed.

Lemma read_only_rerun : preserves I st_rerun.
Proof. intros w H. exact H. Qed.

Lemma read_only_stop : preserves I st_stop.
Proof. intros w H. exact H. Qed.

Lemma read_only_lift {A} (c : Eff A) : read_only (snd c) -> preserves I (lift c).
Proof. intros Hc w H. now apply read_only_app. Qed.

#[local] Hint Resolve preserves_ret read_only_get read_only_assign
  read_only_show read_only_rerun read_only_stop read_only_lift
  get_schema_read_only run_select_query_read_only
  initial_processing_chain_read_only db_summary_chain_read_only
  select_answer_chain_read_only dml_guidance_chain_read_only
  dml_generation_chain_read_only run_simulated_dml_query_read_only
  eff_ret_read_only : readonly.







End ReadOnly.


(** ** The conversation only grows *)

Lemma appends_bind {A B} (m : Script A) (f : A -> Script B) :
  appends_at_most_one m -> (forall x, appends_at_most_one (f x)) ->
  appends_at_most_one (bind m f).
Proof.
  intros Hm Hf w. specialize (Hm w). unfold bind.
  destruct (m w) as [[x|e] w'] eqn:E; unfold grown_from in Hm; cbn [fst snd] in Hm.
  - specialize (Hf x w'). rewrite Hm in Hf. exact Hf.
  - exact Hm.
Qed.

Section AppendOnly.

#[local] Arguments startswith : simpl never.
#[local] Arguments truthy : simpl never.
#[local] Arguments contains : simpl never.
#[local] Arguments capitalize : simpl never.
#[local] Arguments pressed : simpl never.
#[local] Arguments chat_input_value : simpl never.
#[local] Arguments collect_form_inputs : simpl never.
#[local] Arguments String.eqb : simpl never.
#[local] Arguments grown_from : simpl never.

Ltac grown :=
  unfold grown_from; cbn;
  first
    [ reflexivity
    | exists []; split; [symmetry; apply app_nil_r | cbn; lia]
    | eexists [_]; split; [reflexivity | cbn; lia] ].

Ltac walk :=
  intros w;
  destruct w as [[msgs ca desc inputs details gm method pend] nts eff];
  unfold_script; cbn; split_tests; grown.

Lemma quick_actions_appends ui : appends_at_most_one (quick_actions ui).
Proof. walk. Qed.

Lemma dml_stages_appends ui : appends_at_most_one (dml_stages ui).
Proof.
  intros w.
  destruct w as [[msgs ca desc inputs details gm method pend] nts eff].
  unfold dml_stages. unfold bind at 1, get at 1. cbn [ss fst snd].
  match goal with
  | |- context [ui_stage ?s0] => destruct (ui_stage s0) eqn:Hs
  end.
  - destruct (stage_initial_input_inv _ Hs) as [Hc|Hc]; cbn in Hc; subst ca;
      unfold_script; cbn; split_tests; grown.
  - destruct (stage_input_method_inv _ Hs) as [Hc|Hc]; cbn in Hc; subst ca;
      unfold_script; cbn; split_tests; grown.
  - destruct (stage_details_inv _ Hs) as [Hc|Hc]; cbn in Hc; subst ca;
      unfold_script; cbn; split_tests; grown.
  - unfold_script; cbn; split_tests; grown.
  - grown.
Qed.

Lemma chat_input_appends ui : appends_at_most_one (chat_input ui).
Proof. walk. Qed.

Lemma process_actions_appends env : appends_at_most_one (process_actions env).
Proof. walk. Qed.

End AppendOnly.

Lemma script_appends env ui : appends_at_most_one (script env ui).
Proof.
  unfold script.
  apply appends_bind; [apply quick_actions_appends | intros _].
  apply appends_bind; [apply dml_stages_appends | intros _].
  apply appends_bind; [apply chat_input_appends | intros _].
  apply process_actions_appends.
Qed.

(** X19: a run of the script never removes or rewrites a message of the
    conversation: it appends at most one, and none at all in a run that
    reaches the end of the script. *)
Theorem conversation_append_only (env : Env) (ui : UI) (s : session) :
  (exists l, messages (run_session env ui s) = (messages s ++ l)%list
             /\ List.length l <= 1)
  /\ (run_ending env ui s = None ->
      messages (run_session env ui s) = messages s).
Proof.
  pose proof (script_appends env ui (fresh s)) as H.
  unfold grown_from in H. unfold run_session, run, run_ending.
  destruct (fst (script env ui (fresh s))) as [[]|e]; cbn [fresh ss] in H.
  - split; [|intros _; exact H].
    exists []. split; [now rewrite app_nil_r | cbn; lia].
  - split; [exact H | discriminate].
Qed.

Lemma reach_greeting tr s :
  reach tr s -> exists rest, messages s = (messages init_session ++ rest)%list.
Proof.
  induction 1 as [|tr s env ui Hr [rest IH]].
  - exists []. now rewrite app_nil_r.
  - pose proof (script_appends env ui (fresh s)) as H.
    unfold grown_from in H. unfold run_session, run.
    destruct (fst (script env ui (fresh s))) as [[]|e]; cbn [fresh ss] in H.
    + exists rest. now rewrite H.
    + destruct H as [l [H _]]. exists (rest ++ l)%list.
      now rewrite H, IH, app_assoc.
Qed.

(** X20: in every reachable session the conversation starts with the
    greeting of the session initialisation, so the last message that
    [process_chat_input] reads (line 554) always exists. *)
Theorem reachable_conversation (s : session) :
  reachable s ->
  (exists rest, messages s = (messages init_session ++ rest)%list)
  /\ exists c, last_content (messages s) = Ok c.
Proof.
  intros [tr Hr]. destruct (reach_greeting _ _ Hr) as [rest Hm].
  split; [now exists rest|].
  rewrite Hm. unfold last_content. cbn [init_session messages app].
  match goal with
  | |- context [List.rev (?m :: rest)] =>
      destruct (List.rev (m :: rest)) as [|x l] eqn:E
  end.
  - apply (f_equal (@List.length _)) in E. cbn [List.rev] in E.
    rewrite length_app in E. cbn in E. lia.
  - now exists (m_content x).
Qed.

(** ** How a query result is shown *)

Lemma truthy_app_l a b : truthy a = true -> truthy (a ++ b) = true.
Proof. destruct a; [discriminate | reflexivity]. Qed.

(** X21: the chat history hides the skip message of [run_select_query],
    shows the text of a failed execution as an error, and shows in the raw
    output expander both the rows the database returned and the message of
    a missing connection. *)
Theorem select_result_view (db : option Db) (sql : string) :
  let shown := sql_result_view (Some (fst (run_select_query db sql))) in
  (db = None -> shown = ViewRawOutput)
  /\ (forall d, db = Some d -> select_guard_refuses sql = true ->
        shown = ViewHidden)
  /\ (forall d e, db = Some d -> select_guard_refuses sql = false ->
        db_run d (strip sql) = Raise e -> shown = ViewError)
  /\ (forall d rows, db = Some d -> select_guard_refuses sql = false ->
        db_run d (strip sql) = Ok rows ->
        rows <> "" ->
        contains "Skipping execution" rows = false ->
        contains "Error executing SELECT query" rows = false ->
        shown = ViewRawOutput).
Proof.
  cbv zeta. split; [|split; [|split]].
  - intros ->. vm_compute. reflexivity.
  - intros d -> G. unfold run_select_query. rewrite G. vm_compute. reflexivity.
  - intros d e -> G E.
    assert (Hv : fst (run_select_query (Some d) sql)
                 = "Error executing SELECT query: " ++ exn_str e ++ nl
                   ++ "Attempted Query: " ++ strip sql)
      by (unfold run_select_query, eff_bind, eff_call, eff_ret;
          rewrite G, E; reflexivity).
    rewrite Hv. unfold sql_result_view.
    assert (Hc : contains "Error executing SELECT query"
                   ("Error executing SELECT query: " ++ exn_str e ++ nl
                    ++ "Attempted Query: " ++ strip sql) = true).
    { apply startswith_contains.
      apply (startswith_app "Error executing SELECT query"
               (": " ++ exn_str e ++ nl ++ "Attempted Query: " ++ strip sql)). }
    rewrite Hc, orb_true_r. cbn [negb]. rewrite andb_false_r, andb_true_r.
    reflexivity.
  - intros d rows -> G E Hne H1 H2.
    assert (Hv : fst (run_select_query (Some d) sql) = rows)
      by (unfold run_select_query, eff_bind, eff_call, eff_ret;
          rewrite G, E; reflexivity).
    rewrite Hv. unfold sql_result_view. rewrite H1, H2.
    apply truthy_nonempty in Hne. rewrite Hne. reflexivity.
Qed.

(** ** Branches no reachable session enters *)

Lemma quiet_snoc nts n :
  quiet nts -> defensive_notice n = false -> quiet (nts ++ [n]).
Proof.
  intros H Hn x Hin. apply in_app_or in Hin.
  destruct Hin as [Hin|[<-|[]]]; auto.
Qed.

Lemma details_stage_facts s :
  details_stage_ok s -> ui_stage s = StageDetails ->
  opt_truthy dict_truthy (dml_guidance_message s) = true
  /\ ((opt_str_eqb (dml_input_method s) "form" = true
       /\ pyval_truthy (suggested_fields_of (dml_guidance_message s)) = true)
      \/ (opt_str_eqb (dml_input_method s) "form" = false
          /\ opt_str_eqb (dml_input_method s) "text" = true)).
Proof.
  intros H Hs. destruct (H Hs) as [[Hm Hg]|[Hm Hf]]; rewrite Hm.
  - split; [exact Hg|]. right. split; reflexivity.
  - split; [now apply form_enabled_truthy|]. left. split; [reflexivity|].
    unfold form_enabled in Hf.
    destruct (dml_guidance_message s) as [g|]; [|discriminate].
    apply andb_true_iff in Hf. destruct Hf as [_ Hf].
    apply negb_true_iff in Hf. now apply form_disabled_spec in Hf.
Qed.

Lemma generation_action_known a :
  known_action (Some a) = true ->
  startswith "process_structured_dml_" a = true ->
  ca_in (Some a) ["process_structured_dml_add"; "process_structured_dml_delete"]
  = true.
Proof.
  unfold known_action, known_actions, in_list. cbn [existsb]. intros H Hs.
  repeat (apply orb_true_iff in H; destruct H as [H|H];
          [apply String.eqb_eq in H; subst a;
           first [reflexivity | discriminate Hs] |]).
  discriminate H.
Qed.

Section Guards.

#[local] Arguments startswith : simpl never.
#[local] Arguments truthy : simpl never.
#[local] Arguments contains : simpl never.
#[local] Arguments capitalize : simpl never.
#[local] Arguments pressed : simpl never.
#[local] Arguments chat_input_value : simpl never.
#[local] Arguments collect_form_inputs : simpl never.
#[local] Arguments String.eqb : simpl never.
#[local] Arguments quiet : simpl never.
#[local] Arguments known_action : simpl never.
#[local] Arguments ca_in : simpl never.

Ltac hush HQ :=
  cbn [snd notices];
  repeat (apply quiet_snoc; [|vm_compute; reflexivity]);
  exact HQ.

Ltac start :=
  intros w [HJ [[HK HM] HQ]];
  destruct w as [[msgs ca desc inputs details gm method pend] nts eff];
  cbn [ss notices current_action dml_input_method dml_guidance_message]
    in HK, HM, HQ.

Lemma quick_actions_quiet ui : quiet_after (quick_actions ui).
Proof. start. unfold_script; cbn; split_tests; hush HQ. Qed.

Lemma chat_input_quiet ui : quiet_after (chat_input ui).
Proof. start. unfold_script; cbn; split_tests; hush HQ. Qed.

Lemma dml_stages_quiet ui : quiet_after (dml_stages ui).
Proof.
  start.
  unfold dml_stages. unfold bind at 1, get at 1. cbn [ss fst snd].
  match goal with
  | |- context [ui_stage ?s0] => destruct (ui_stage s0) eqn:Hs
  end.
  - destruct (stage_initial_input_inv _ Hs) as [Hc|Hc]; cbn in Hc; subst ca;
      unfold_script; cbn; split_tests; hush HQ.
  - destruct (stage_input_method_inv _ Hs) as [Hc|Hc]; cbn in Hc; subst ca;
      unfold_script; cbn; split_tests; hush HQ.
  - destruct (details_stage_facts _ (HJ : details_stage_ok _) Hs)
      as [Hg [[Hf Hsf]|[Hf Ht]]];
      cbn [ss dml_guidance_message dml_input_method] in *;
      unfold_script; cbn; rewrite ?Hg, ?Hf, ?Hsf, ?Ht; cbn;
      rewrite ?Hg, ?Hf, ?Hsf, ?Ht; cbn; split_tests; hush HQ.
  - unfold_script; cbn; split_tests; hush HQ.
  - hush HQ.
Qed.

Lemma process_actions_quiet env : quiet_after (process_actions env).
Proof.
  start. unfold_script; cbn; split_tests;
    first
      [ hush HQ
      | exfalso;
        match goal with
        | Hs : startswith "process_structured_dml_" ?a = true |- _ =>
            destruct (HM (generation_action_known a HK Hs)) as [Hm|Hm];
            subst method; discriminate
        end ].
Qed.

End Guards.

Lemma script_guarded env ui : preserves guarded_world (script env ui).
Proof.
  assert (Hpart : forall A (m : Script A),
            preserves details_ok m -> preserves world_wf m -> quiet_after m ->
            preserves guarded_world m).
  { intros A m H1 H2 H3 w Hw. pose proof (H3 w Hw) as Hq.
    destruct Hw as [Ha [Hb _]]. repeat split; [now apply H1| apply H2; exact Hb ..|exact Hq]. }
  apply preserves_script; apply Hpart.
  - apply quick_actions_details.
  - apply quick_actions_wf.
  - apply quick_actions_quiet.
  - apply dml_stages_details.
  - apply dml_stages_wf.
  - apply dml_stages_quiet.
  - apply chat_input_details.
  - apply chat_input_wf.
  - apply chat_input_quiet.
  - apply process_actions_details.
  - apply process_actions_wf.
  - apply process_actions_quiet.
Qed.

(** X22: from a reachable session no run shows the box of a defensive
    branch: in the details stage the guidance and the input method are
    always there (and a form always has fields), and the generation step
    always knows its input method. *)
Theorem defensive_branches_unreachable (s : session) (env : Env) (ui : UI) :
  reachable s ->
  forall n, In n (notices (run env ui s)) -> defensive_notice n = false.
Proof.
  intros [tr Hr].
  assert (Hw : guarded_world (fresh s)).
  { split; [exact (reach_details_stage_ok tr s Hr)|].
    split; [exact (reach_session_wf tr s Hr)|]. intros n []. }
  destruct (script_guarded env ui (fresh s) Hw) as [_ [_ Hq]]. exact Hq.
Qed.

(** X23: in every reachable session the current action is unset or one of
    the twelve names the script assigns, and a session in the generation
    step has the details the generation prompt receives. *)
Theorem reachable_action_known (s : session) :
  reachable s ->
  known_action (current_action s) = true
  /\ (ca_in (current_action s)
        ["process_structured_dml_add"; "process_structured_dml_delete"] = true ->
      exists details, structured_details s = Some details).
Proof.
  intros [tr Hr]. destruct (reach_session_wf tr s Hr) as [HK HM].
  split; [exact HK|]. intros Hc. unfold structured_details.
  destruct (HM Hc) as [-> | ->]; eexists; reflexivity.
Qed.

(** ** Instances *)

Lemma parse_without_fence_witness :
  SimpleStrParser_parse "  SELECT Name FROM Artist  " = "SELECT Name FROM Artist".
Proof. exact (parse_without_fence "  SELECT Name FROM Artist  " eq_refl). Defined.

Lemma parse_sql_fence_witness :
  SimpleStrParser_parse
    ("```sql" ++ nl ++ "INSERT INTO Artist (Name) VALUES ('Test Band');" ++ nl ++ "```")
  = "INSERT INTO Artist (Name) VALUES ('Test Band');".
Proof.
  apply parse_sql_fence; [reflexivity | discriminate | reflexivity | reflexivity].
Defined.

Lemma parse_json_fence_witness :
  SimpleStrParser_parse
    ("```json" ++ nl ++ "DELETE FROM Artist WHERE ArtistId = 7;" ++ nl ++ "```")
  = "DELETE FROM Artist WHERE ArtistId = 7;".
Proof.
  apply parse_json_fence; [reflexivity | discriminate | reflexivity].
Defined.

Lemma parse_bare_fence_witness :
  SimpleStrParser_parse
    ("```" ++ nl ++ "DELETE FROM Artist WHERE ArtistId = 7;" ++ nl ++ "```")
  = "```" ++ nl ++ "DELETE FROM Artist WHERE ArtistId = 7;".
Proof.
  apply parse_bare_fence; [reflexivity | discriminate | reflexivity].
Defined.

Lemma run_select_query_runs_witness :
  run_select_query (Some Demo.db) "  select * from Artist "
  = ("[(1, 'AC/DC')]", [EDbRun "select * from Artist"]).
Proof.
  exact (run_select_query_runs Demo.db "  select * from Artist "
           eq_refl eq_refl eq_refl).
Defined.

Lemma quick_action_restarts_witness :
  let env := Demo.env "INSERT INTO Artist (Name) VALUES ('Test Band')" in
  let s := replay env Demo.to_confirmation init_session in
  pending_dml_confirmation (run_session env (Demo.click BtnAddData "") s)
  = Some {| pc_action := "add";
            pc_sql := "INSERT INTO Artist (Name) VALUES ('Test Band')" |}.
Proof.
  cbv zeta.
  rewrite (proj1 (quick_action_restarts
                    (Demo.env "INSERT INTO Artist (Name) VALUES ('Test Band')")
                    (Demo.click BtnAddData "")
                    (replay (Demo.env "INSERT INTO Artist (Name) VALUES ('Test Band')")
                       Demo.to_confirmation init_session)) eq_refl).
  vm_compute. reflexivity.
Defined.

Lemma collect_form_inputs_spec_witness :
  dict_get (collect_form_inputs (Demo.click BtnFormSubmit "Test Band") "Add"
              ["Name"] []) "Name"
  = Some "Test Band".
Proof.
  exact (proj1 (collect_form_inputs_spec (Demo.click BtnFormSubmit "Test Band")
                  "Add" ["Name"] [] "Name") (or_introl eq_refl)).
Defined.

Lemma submission_accepted_witness :
  let env := Demo.env "" in
  let s := replay env Demo.to_initial_input init_session in
  current_action
    (run_session env (Demo.click BtnGetGuidance "add a new artist") s)
  = Some "process_initial_dml_description_add".
Proof.
  cbv zeta.
  assert (Hn : strip "add a new artist" <> "") by discriminate.
  rewrite (proj1 (proj1 (submission_accepted (Demo.env "")
                           (Demo.click BtnGetGuidance "add a new artist")
                           (replay (Demo.env "") Demo.to_initial_input init_session))
                    eq_refl eq_refl Hn)).
  vm_compute. reflexivity.
Defined.

Lemma guidance_step_witness :
  let env := Demo.env "" in
  let s := replay env
             (Demo.to_initial_input
              ++ [Demo.click BtnGetGuidance "add a new artist"])%list
             init_session in
  effects (run env (Demo.rerun "add a new artist") s)
  = [EDbGetTableInfo; ELlmGuidance].
Proof.
  exact (proj1 (guidance_step (Demo.env "") (Demo.rerun "add a new artist")
                  (replay (Demo.env "")
                     (Demo.to_initial_input
                      ++ [Demo.click BtnGetGuidance "add a new artist"])%list
                     init_session)
                  "add" eq_refl (or_introl eq_refl) eq_refl)).
Defined.

Lemma chat_routing_witness :
  let env := Demo.env "" in
  let s := replay env [Demo.chat "hi"] init_session in
  run_session env (Demo.rerun "") s
  = after_reply (ai_reply "Hello.") s.
Proof.
  exact (proj1 (proj1 (proj2
           (chat_routing (Demo.env "") (Demo.rerun "")
              (replay (Demo.env "") [Demo.chat "hi"] init_session)
              (Text "hi")
              {| ij_response_type := Some "GENERAL_RESPONSE";
                 ij_generated_sql := None;
                 ij_ai_response := Some "Hello." |}
              eq_refl eq_refl eq_refl eq_refl))
           (or_intror (or_intror eq_refl)))).
Defined.

Lemma processing_exception_witness :
  let s := replay Cases.failing_env [Demo.click BtnSummarize ""] init_session in
  run_session Cases.failing_env (Demo.rerun "") s
  = after_exception Cases.failing_env Cases.broken_json s.
Proof.
  exact (proj1 (proj2
           (processing_exception Cases.failing_env (Demo.rerun "")
              (replay Cases.failing_env [Demo.click BtnSummarize ""] init_session)
              Cases.broken_json eq_refl))
           eq_refl eq_refl).
Defined.

Lemma chat_turn_witness :
  let env := Demo.env "" in
  exists r,
    run_session env (Demo.rerun "")
      (run_session env (Demo.chat "How many artists are there?") init_session)
    = set_messages
        (messages init_session
         ++ [{| m_role := User; m_content := Text "How many artists are there?" |};
             assistant r])%list
        (set_current_action None init_session).
Proof.
  assert (Hn : "How many artists are there?" <> "") by discriminate.
  exact (proj2 (proj2 (proj2 (proj2
           (chat_turn (Demo.env "") (Demo.chat "How many artists are there?")
              (Demo.rerun "") init_session "How many artists are there?"
              eq_refl eq_refl eq_refl eq_refl Hn))))).
Defined.

Lemma summarize_turn_witness :
  let env := Demo.env "" in
  effects (run env (Demo.rerun "")
             (run_session env (Demo.click BtnSummarize "") init_session))
  = [EDbGetTableInfo; ELlmSummary].
Proof.
  exact (proj1 (summarize_turn (Demo.env "") (Demo.click BtnSummarize "")
                  (Demo.rerun "") init_session eq_refl eq_refl)).
Defined.

Lemma proceed_simulates_witness :
  let env := Demo.env "INSERT INTO Artist (Name) VALUES ('Test Band')" in
  let s := replay env Demo.to_confirmation init_session in
  effects (run env (Demo.click BtnProceed "") s) = []
  /\ run_ending env (Demo.click BtnProceed "") s = Some Rerun.
Proof.
  cbv zeta.
  pose proof (proceed_simulates
                (Demo.env "INSERT INTO Artist (Name) VALUES ('Test Band')")
                (Demo.click BtnProceed "")
                (replay (Demo.env "INSERT INTO Artist (Name) VALUES ('Test Band')")
                   Demo.to_confirmation init_session)
                {| pc_action := "add";
                   pc_sql := "INSERT INTO Artist (Name) VALUES ('Test Band')" |}
                eq_refl eq_refl eq_refl) as H.
  exact (conj (proj1 (proj2 H)) (proj1 (proj2 (proj2 H)))).
Defined.

Lemma missing_data_guards_witness :
  let env := Cases.empty_guidance_env in
  let s := replay env
             (Demo.to_initial_input
              ++ [Demo.click BtnGetGuidance "add a new artist";
                  Demo.rerun "add a new artist"])%list
             init_session in
  dml_guidance_message s = Some []
  /\ notices (run env (Demo.rerun "") s)
     = [Error "Guidance message not found. Please start the DML action again."]
  /\ run_ending env (Demo.rerun "") Cases.details_without_guidance = Some Stop.
Proof.
  cbv zeta. split; [reflexivity|]. split.
  - exact (proj1 (proj2 (proj1
             (missing_data_guards Cases.empty_guidance_env (Demo.rerun "")
                (replay Cases.empty_guidance_env
                   (Demo.to_initial_input
                    ++ [Demo.click BtnGetGuidance "add a new artist";
                        Demo.rerun "add a new artist"])%list
                   init_session) eq_refl)
             eq_refl eq_refl))).
  - exact (proj2 (proj2 (proj2 (proj1 (proj2
             (missing_data_guards Cases.empty_guidance_env (Demo.rerun "")
                Cases.details_without_guidance eq_refl))
             eq_refl eq_refl)))).
Defined.

Lemma form_details_spec_witness :
  contains "Name='O''Hara'"
    (form_details [("Name", "O'Hara"); ("Country", "")]) = true.
Proof.
  assert (Hn : "O'Hara" <> "") by discriminate.
  exact (proj1 (form_details_spec [("Name", "O'Hara"); ("Country", "")])
           "Name" "O'Hara" eq_refl Hn).
Defined.


Lemma conversation_append_only_witness :
  messages (run_session (Demo.env "") (Demo.rerun "") init_session)
  = messages init_session.
Proof.
  exact (proj2 (conversation_append_only (Demo.env "") (Demo.rerun "") init_session)
           eq_refl).
Defined.

Lemma reachable_conversation_witness :
  exists c,
    last_content
      (messages (replay (Demo.env "") [Demo.chat "hi"; Demo.rerun ""] init_session))
    = Ok c.
Proof.
  exact (proj2 (reachable_conversation
                  (replay (Demo.env "") [Demo.chat "hi"; Demo.rerun ""] init_session)
                  (reachable_replay (Demo.env "") [Demo.chat "hi"; Demo.rerun ""]
                     init_session reachable_init))).
Defined.

Lemma select_result_view_witness :
  sql_result_view (Some (fst (run_select_query None "SELECT 1"))) = ViewRawOutput
  /\ sql_result_view
       (Some (fst (run_select_query (Some Demo.db) "DROP TABLE Artist")))
     = ViewHidden.
Proof.
  split.
  - exact (proj1 (select_result_view None "SELECT 1") eq_refl).
  - exact (proj1 (proj2 (select_result_view (Some Demo.db) "DROP TABLE Artist"))
             Demo.db eq_refl eq_refl).
Defined.

Lemma defensive_branches_unreachable_witness :
  let env := Demo.env "" in
  let s := replay env
             (Demo.to_input_method ++ [Demo.click BtnFillForm ""; Demo.rerun ""])%list
             init_session in
  notices (run env (Demo.click BtnFormSubmit "") s)
  = [Warning "Please fill in at least one field in the form."]
  /\ defensive_notice (Warning "Please fill in at least one field in the form.")
     = false.
Proof.
  cbv zeta. split; [vm_compute; reflexivity|].
  exact (defensive_branches_unreachable
           (replay (Demo.env "")
              (Demo.to_input_method
               ++ [Demo.click BtnFillForm ""; Demo.rerun ""])%list
              init_session)
           (Demo.env "") (Demo.click BtnFormSubmit "")
           (reachable_replay (Demo.env "")
              (Demo.to_input_method
               ++ [Demo.click BtnFillForm ""; Demo.rerun ""])%list
              init_session reachable_init)
           (Warning "Please fill in at least one field in the form.")
           (or_introl eq_refl)).
Defined.

Lemma reachable_action_known_witness :
  let env := Demo.env "" in
  let s := replay env
             (Demo.to_input_method
              ++ [Demo.click BtnFillForm ""; Demo.rerun "";
                  Demo.click BtnFormSubmit "Test Band"])%list
             init_session in
  current_action s = Some "process_structured_dml_add"
  /\ exists details, structured_details s = Some details.
Proof.
  cbv zeta. split; [vm_compute; reflexivity|].
  exact (proj2 (reachable_action_known
                  (replay (Demo.env "")
                     (Demo.to_input_method
                      ++ [Demo.click BtnFillForm ""; Demo.rerun "";
                          Demo.click BtnFormSubmit "Test Band"])%list
                     init_session)
                  (reachable_replay (Demo.env "")
                     (Demo.to_input_method
                      ++ [Demo.click BtnFillForm ""; Demo.rerun "";
                          Demo.click BtnFormSubmit "Test Band"])%list
                     init_session reachable_init))
           eq_refl).
Defined.

(** ** An overview asked for in the chat *)

Lemma get_schema_calls db :
  table_info_calls (snd (get_schema db))
  = match db with Some _ => 1 | None => 0 end.
Proof.
  unfold get_schema. destruct db as [d|]; [|reflexivity].
  cbn. destruct (db_get_table_info d); reflexivity.
Qed.

Lemma table_info_calls_app a b :
  table_info_calls (a ++ b) = table_info_calls a + table_info_calls b.
Proof. unfold table_info_calls. now rewrite filter_app, length_app. Qed.

(** X24: a chat question the intent model classifies as
    DATABASE_OVERVIEW_REQUEST (lines 573-575) runs the summary chain after
    the intent chain, so that with a connection the schema is read twice in
    the run; the summary is shown under its heading, or the error message
    when the chain raised. *)
Theorem chat_overview (env : Env) (ui : UI) (s : session)
    (question : content) (j : intent) :
  ui_trigger ui = NoTrigger ->
  current_action s = Some "process_chat_input" ->
  last_content (messages s) = Ok question ->
  fst (initial_processing_chain env question) = Ok j ->
  ij_response_type j = Some "DATABASE_OVERVIEW_REQUEST" ->
  effects (run env ui s)
  = (snd (initial_processing_chain env question) ++ snd (db_summary_chain env))%list
  /\ table_info_calls (effects (run env ui s))
     = match env_db env with Some _ => 2 | None => 0 end
  /\ match fst (db_summary_chain env) with
     | Ok summary =>
         run_session env ui s
         = after_reply (ai_reply ("**Database Overview:**" ++ nl ++ nl ++ summary)) s
     | Raise e => run_session env ui s = after_exception env e s
     end.
Proof.
  intros Ht Hc Hq Hj Hr.
  assert (Heff : effects (run env ui s)
                 = (snd (initial_processing_chain env question)
                    ++ snd (db_summary_chain env))%list
                 /\ match fst (db_summary_chain env) with
                    | Ok summary =>
                        run_session env ui s
                        = after_reply
                            (ai_reply ("**Database Overview:**" ++ nl ++ nl ++ summary)) s
                    | Raise e => run_session env ui s = after_exception env e s
                    end).
  { assert (Hstage := ui_stage_processing s _ Hc eq_refl).
    destruct s as [msgs ca desc inputs details gm method pend];
      destruct ui as [tr txt]; unfold after_reply, after_exception;
      simpl in Ht, Hc, Hq; subst tr ca.
    destruct pend as [p|]; cbn in Hstage; run_in_stage Hstage;
      rewrite Hq; cbn; rewrite Hj; cbn; rewrite Hr; unfold opt_str_eqb; cbn;
      destruct (fst (db_summary_chain env)); cbn; split; reflexivity. }
  destruct Heff as [He Hs]. split; [exact He|]. split; [|exact Hs].
  rewrite He, table_info_calls_app.
  unfold initial_processing_chain, db_summary_chain, eff_bind, eff_call.
  pose proof (get_schema_calls (env_db env)) as Hn.
  destruct (get_schema (env_db env)) as [t l]. cbn [snd] in *.
  rewrite !table_info_calls_app, Hn.
  destruct (env_db env); reflexivity.
Qed.

(** ** A confirmation left behind *)

(** X25: the Add Data and Delete Data buttons do not clear a pending
    confirmation: the new flow hides it while the description is asked
    for, and the Cancel button of that stage brings the old confirmation
    back, statement and all. *)
Theorem pending_survives_new_flow (env : Env) (ui1 ui2 : UI) (s : session)
    (p : confirmation) :
  pending_dml_confirmation s = Some p ->
  ui_trigger ui1 = Click BtnAddData \/ ui_trigger ui1 = Click BtnDeleteData ->
  ui_trigger ui2 = Click BtnCancelInitial ->
  let s1 := run_session env ui1 s in
  let s2 := run_session env ui2 s1 in
  ui_stage s1 = StageInitialInput
  /\ pending_dml_confirmation s1 = Some p
  /\ current_action s2 = None
  /\ pending_dml_confirmation s2 = Some p
  /\ ui_stage s2 = StageConfirmation
  /\ messages s2 = messages s.
Proof.
  intros Hp H1 H2. cbv zeta.
  destruct s as [msgs ca desc inputs details gm method pend];
    destruct ui1 as [tr1 txt1]; destruct ui2 as [tr2 txt2];
    simpl in Hp, H1, H2; subst pend tr2.
  destruct H1 as [-> | ->]; unfold_script; cbn; repeat split.
Qed.

Lemma chat_overview_witness :
  let env := Cases.overview_env in
  let s := replay env [Demo.chat "What is in this database?"] init_session in
  table_info_calls (effects (run env (Demo.rerun "") s)) = 2.
Proof.
  exact (proj1 (proj2
           (chat_overview Cases.overview_env (Demo.rerun "")
              (replay Cases.overview_env [Demo.chat "What is in this database?"]
                 init_session)
              (Text "What is in this database?")
              {| ij_response_type := Some "DATABASE_OVERVIEW_REQUEST";
                 ij_generated_sql := None;
                 ij_ai_response := None |}
              eq_refl eq_refl eq_refl eq_refl eq_refl))).
Defined.

Lemma pending_survives_new_flow_witness :
  let env := Demo.env "INSERT INTO Artist (Name) VALUES ('Test Band')" in
  let s := replay env Demo.to_confirmation init_session in
  ui_stage
    (run_session env (Demo.click BtnCancelInitial "")
       (run_session env (Demo.click BtnAddData "") s))
  = StageConfirmation.
Proof.
  exact (proj1 (proj2 (proj2 (proj2 (proj2
           (pending_survives_new_flow
              (Demo.env "INSERT INTO Artist (Name) VALUES ('Test Band')")
              (Demo.click BtnAddData "") (Demo.click BtnCancelInitial "")
              (replay (Demo.env "INSERT INTO Artist (Name) VALUES ('Test Band')")
                 Demo.to_confirmation init_session)
              {| pc_action := "add";
                 pc_sql := "INSERT INTO Artist (Name) VALUES ('Test Band')" |}
              eq_refl (or_introl eq_refl) eq_refl)))))).
Defined.
